(** * Availability and booking handlers of the mock backend

    A shallow embedding of [src/mocks/handlers.ts]: the slot generator
    [generateAvailableSlots], the booking handlers (POST, PUT, DELETE on
    [/api/bookings]), the availability handler and the review handlers,
    together with the mock data they start from.  The four module-level
    arrays of the source ([mockProviders], [mockServices], [mockBookings],
    [mockReviews]) are the fields of one explicit [State] that every handler
    threads. *)

From Stdlib Require Import ZArith String Ascii List Lia QArith Bool.
From Stdlib Require Import DecimalString DecimalPos DecimalZ Sorted Permutation.
From Stdlib Require Import SpecFloat.
From stdpp Require Import base option list strings gmap sorting.
Import ListNotations.

Open Scope Z_scope.

(** ** JavaScript primitives *)

Module JS.

(** A JavaScript number as the handlers use it: an integer, or [NaN]
    ([None]).  [undefined] behaves as [NaN] in every comparison and sum the
    handlers perform, so a missing array element is [None] too. *)
Definition num : Type := option Z.

(** [a < b], [a <= b], [a >= b] and [a === b]: all false on [NaN]. *)
Definition lt (a b : num) : bool :=
  match a, b with Some x, Some y => x <? y | _, _ => false end.
Definition le (a b : num) : bool :=
  match a, b with Some x, Some y => x <=? y | _, _ => false end.
Definition ge (a b : num) : bool :=
  match a, b with Some x, Some y => y <=? x | _, _ => false end.
Definition seq (a b : num) : bool :=
  match a, b with Some x, Some y => x =? y | _, _ => false end.

(** [a + k] and [a - k] for an integer literal [k]. *)
Definition add (a : num) (k : Z) : num :=
  match a with Some x => Some (x + k) | None => None end.
Definition sub (a : num) (k : Z) : num :=
  match a with Some x => Some (x - k) | None => None end.

(** [n.toString()]. *)
Definition toString (a : num) : string :=
  match a with
  | Some x => NilZero.string_of_int (Z.to_int x)
  | None => "NaN"%string
  end.

Fixpoint repeatChar (c : ascii) (n : nat) : string :=
  match n with
  | O => EmptyString
  | S n' => String c (repeatChar c n')
  end.

(** [s.padStart(targetLength, c)] for a one-character pad string. *)
Definition padStart (targetLength : nat) (c : ascii) (s : string) : string :=
  (repeatChar c (targetLength - String.length s) ++ s)%string.

Definition isDigit (c : ascii) : bool :=
  let n := N_of_ascii c in ((48 <=? n) && (n <=? 57))%N.

Definition digitValue (c : ascii) : Z := Z.of_N (N_of_ascii c) - 48.

Fixpoint digitsValue (acc : Z) (s : string) : num :=
  match s with
  | EmptyString => Some acc
  | String c s' =>
      if isDigit c then digitsValue (10 * acc + digitValue c) s' else None
  end.

(** [Number(s)] on the texts the handlers meet: the empty string is [0], a
    string of decimal digits is its value, anything else is [NaN].  Signs,
    fractions, exponents, radix prefixes and surrounding white space, which
    [Number] also accepts, are outside this model. *)
Definition Number (s : string) : num := digitsValue 0 s.

(** [s.split(':')]. *)
Fixpoint splitColon (cur : string) (s : string) : list string :=
  match s with
  | EmptyString => [cur]
  | String c s' =>
      if Ascii.eqb c ":"%char then cur :: splitColon EmptyString s'
      else splitColon (cur ++ String c EmptyString)%string s'
  end.

Definition split (s : string) : list string := splitColon EmptyString s.

(** [const [a, b] = s.split(':').map(Number)]: a missing second element is
    [undefined]. *)
Definition splitNumbers (s : string) : num * num :=
  match List.map Number (split s) with
  | [] => (None, None)
  | [a] => (a, None)
  | a :: b :: _ => (a, b)
  end.

(** A JavaScript number that is not kept as an integer: an IEEE 754
    binary64 value, as the Standard Library specifies them (precision 53,
    exponent bound 1024). *)
Definition double : Type := spec_float.

(** An integer as a double (exact below 2^53 in absolute value). *)
Definition ofInt (z : Z) : double := binary_normalize 53 1024 z 0 false.

(** [a / b] on doubles: the quotient rounded to the nearest double, ties
    to even; [0 / 0] is [NaN]. *)
Definition divide (a b : double) : double := SFdiv 53 1024 a b.

(** A decimal literal with one fractional digit, such as [4.8] for
    [tenths = 48]: the double nearest to [tenths / 10]. *)
Definition oneDecimal (tenths : Z) : double := divide (ofInt tenths) (ofInt 10).

(** Truthiness of an optional JSON string: absent and empty are falsy. *)
Definition truthy (o : option string) : bool :=
  match o with
  | Some s => negb (String.eqb s EmptyString)
  | None => false
  end.

End JS.

(** The template literal
    [`${h.toString().padStart(2, '0')}:${m.toString().padStart(2, '0')}`]. *)
Definition formatTime (h m : JS.num) : string :=
  (JS.padStart 2 "0"%char (JS.toString h) ++ ":" ++
   JS.padStart 2 "0"%char (JS.toString m))%string.

(** ** Data model (the [type] declarations of the source) *)

Record Slot := { start : string; end_ : string }.

Record WorkingDay := { isOpen : bool; slots : list Slot }.

(** Only the fields the handlers below read or write are kept; the display
    fields of a provider (names, address, gallery and so on) are dropped. *)
Record Provider := {
  p_id : string;
  workingHours : gmap string WorkingDay;
  rating : JS.double;
  reviewCount : Z
}.

Record Service := {
  s_id : string;
  s_providerId : string;
  price : Q;
  s_currency : string;
  duration : Z;
  available : bool
}.

Inductive Status := pending | confirmed | cancelled | completed.

Record Booking := {
  b_id : string;
  b_customerId : string;
  b_providerId : string;
  b_serviceId : string;
  date : string;
  startTime : string;
  endTime : string;
  status : Status;
  totalPrice : Q;
  currency : string;
  notes : option string;
  b_createdAt : string;
  b_updatedAt : string
}.

Record Review := {
  r_id : string;
  bookingId : string;
  r_customerId : string;
  r_providerId : string;
  r_serviceId : string;
  r_rating : Z;
  comment : string;
  r_createdAt : string;
  r_updatedAt : string
}.

(** The module-level arrays the handlers read and mutate. *)
Record State := {
  mockProviders : list Provider;
  mockServices : list Service;
  mockBookings : list Booking;
  mockReviews : list Review
}.

Definition status_eqb (a b : Status) : bool :=
  match a, b with
  | pending, pending | confirmed, confirmed
  | cancelled, cancelled | completed, completed => true
  | _, _ => false
  end.

(** ** Slot generation *)

(** The [while] loop of [generateAvailableSlots] for one working period,
    returning the slots it pushes, in push order.  [fuel] bounds the number
    of iterations; [None] means the bound was reached. *)
Fixpoint slotLoop (fuel : nat) (currentHour currentMinute endHour endMinute : JS.num)
  : option (list Slot) :=
  match fuel with
  | O => None
  | S fuel' =>
      if JS.lt currentHour endHour
         || (JS.seq currentHour endHour && JS.lt currentMinute endMinute)
      then
        let startTime := formatTime currentHour currentMinute in
        let currentMinute1 := JS.add currentMinute 30 in
        let '(currentHour2, currentMinute2) :=
          if JS.ge currentMinute1 (Some 60)
          then (JS.add currentHour 1, JS.sub currentMinute1 60)
          else (currentHour, currentMinute1) in
        match slotLoop fuel' currentHour2 currentMinute2 endHour endMinute with
        | None => None
        | Some rest =>
            if JS.lt currentHour2 endHour
               || (JS.seq currentHour2 endHour && JS.le currentMinute2 endMinute)
            then
              let endTime := formatTime currentHour2 currentMinute2 in
              Some ({| start := startTime; end_ := endTime |} :: rest)
            else Some rest
        end
      else Some []
  end.

(** Iterations granted to the loop: the hour advances at least every second
    iteration, so twice the hour distance, plus slack, is enough whenever the
    loop terminates at all. *)
Definition loopFuel (startHour endHour : JS.num) : nat :=
  match startHour, endHour with
  | Some sh, Some eh => S (Z.to_nat (2 * (eh - sh) + 2))
  | _, _ => 1
  end.

(** The body of [workingHours.slots.forEach(period => ...)] for one period.
    [None]: the call does not return (a [NaN] minute below the closing hour
    never advances the hour, and a missing minute throws on [toString]). *)
Definition periodSlots (period : Slot) : option (list Slot) :=
  let '(startHour, startMinute) := JS.splitNumbers (start period) in
  let '(endHour, endMinute) := JS.splitNumbers (end_ period) in
  slotLoop (loopFuel startHour endHour) startHour startMinute endHour endMinute.

Fixpoint forEachPeriod (periods : list Slot) : option (list Slot) :=
  match periods with
  | [] => Some []
  | period :: rest =>
      match periodSlots period with
      | None => None
      | Some here =>
          match forEachPeriod rest with
          | None => None
          | Some there => Some (here ++ there)
          end
      end
  end.

(** The predicate inside [bookedSlots.some(...)]; [<=] and [<] on strings are
    the lexicographic order on code units (on bytes here: the same order on
    ASCII text such as times of day). *)
Definition conflicts (slot : Slot) (booking : Booking) : bool :=
  (String.leb (startTime booking) (start slot) && String.ltb (start slot) (endTime booking))
  || (String.ltb (startTime booking) (end_ slot) && String.leb (end_ slot) (endTime booking))
  || (String.leb (start slot) (startTime booking) && String.leb (endTime booking) (end_ slot)).

(** The predicate of [mockBookings.filter(...)] selecting the booked slots. *)
Definition occupies (providerId date_ : string) (booking : Booking) : bool :=
  String.eqb (b_providerId booking) providerId
  && String.eqb (date booking) date_
  && (status_eqb (status booking) confirmed || status_eqb (status booking) pending).

Definition findProvider (providerId : string) (ps : list Provider) : option Provider :=
  List.find (fun p => String.eqb (p_id p) providerId) ps.

(** ** Calendar dates *)

(** [parseISO(date).getDay().toString()] restricted to two of the forms
    [parseISO] accepts, the plain [yyyy-MM-dd] the client sends and the same
    followed by a time of day [THH:mm] (both are read in local time, so the
    weekday is that of the date part): the weekday of a valid calendar date
    as ["0"] (Sunday) to ["6"], and ["NaN"] otherwise.  [parseISO] accepts
    further ISO 8601 forms; the general results below hold for any weekday
    function and this one only instantiates them on dates of these two
    forms. *)
Module Calendar.

Definition isLeap (y : Z) : bool :=
  ((y mod 4 =? 0) && negb (y mod 100 =? 0)) || (y mod 400 =? 0).

Definition daysInMonth (y m : Z) : Z :=
  if m =? 2 then (if isLeap y then 29 else 28)
  else if (m =? 4) || (m =? 6) || (m =? 9) || (m =? 11) then 30
  else 31.

(** Days since 1970-01-01 of a proleptic Gregorian date. *)
Definition daysFromCivil (y m d : Z) : Z :=
  let y' := if m <=? 2 then y - 1 else y in
  let era := y' / 400 in
  let yoe := y' - era * 400 in
  let doy := (153 * (if 2 <? m then m - 3 else m + 9) + 2) / 5 + d - 1 in
  let doe := yoe * 365 + yoe / 4 - yoe / 100 + doy in
  era * 146097 + doe - 719468.

(** A non-empty run of decimal digits, as a number. *)
Definition field (s : string) : JS.num :=
  if String.eqb s EmptyString then None else JS.digitsValue 0 s.

(** What may follow the ten characters of the date: nothing, or [THH:mm]
    with the hour below 24 and the minute below 60. *)
Definition timePart (rest : string) : bool :=
  String.eqb rest EmptyString
  || (Nat.eqb (String.length rest) 6
      && String.eqb (substring 0 1 rest) "T" && String.eqb (substring 3 1 rest) ":"
      && match field (substring 1 2 rest), field (substring 4 2 rest) with
         | Some h, Some m => (h <? 24) && (m <? 60)
         | _, _ => false
         end).

Definition getDay (date : string) : JS.num :=
  if negb (Nat.eqb (String.length (substring 0 10 date)) 10
           && timePart (substring 10 (String.length date - 10) date))
  then None
  else if negb (String.eqb (substring 4 1 date) "-" && String.eqb (substring 7 1 date) "-")
  then None
  else
    match field (substring 0 4 date), field (substring 5 2 date),
          field (substring 8 2 date) with
    | Some y, Some m, Some d =>
        if (1 <=? m) && (m <=? 12) && (1 <=? d) && (d <=? daysInMonth y m)
        then Some ((daysFromCivil y m d + 4) mod 7)
        else None
    | _, _, _ => None
    end.

Definition weekdayKey (date : string) : string := JS.toString (getDay date).

End Calendar.

(** ** Requests and responses *)

(** [HttpResponse.json(body, { status })]: a success body, or the
    [{ message }] body of an error status. *)
Inductive Response (A : Type) : Type :=
| Json (code : Z) (body : A)
| Failure (code : Z) (message : string).

Arguments Json {A} code body.
Arguments Failure {A} code message.

(** The JSON body of [POST /api/bookings]. *)
Record BookingData := {
  d_customerId : option string;
  d_providerId : option string;
  d_serviceId : option string;
  d_date : option string;
  d_startTime : option string;
  d_notes : option string
}.

(** The JSON body of [PUT /api/bookings/:id]: any subset of the fields of a
    booking; the spread [...data] overwrites exactly the fields present. *)
Record BookingPatch := {
  u_id : option string;
  u_customerId : option string;
  u_providerId : option string;
  u_serviceId : option string;
  u_date : option string;
  u_startTime : option string;
  u_endTime : option string;
  u_status : option Status;
  u_totalPrice : option Q;
  u_currency : option string;
  u_notes : option string;
  u_createdAt : option string
}.

(** The JSON body of [POST /api/reviews]. *)
Record ReviewData := {
  v_bookingId : option string;
  v_customerId : option string;
  v_providerId : option string;
  v_serviceId : option string;
  v_rating : option Z;
  v_comment : option string
}.

(** The JSON body of [PUT /api/reviews/:id]. *)
Record ReviewPatch := {
  w_rating : option Z;
  w_comment : option string
}.

Definition text (o : option string) : string := default EmptyString o.

(** [!data.rating]: absent and [0] are falsy. *)
Definition truthyNumber (o : option Z) : bool :=
  match o with
  | Some z => negb (z =? 0)
  | None => false
  end.

(** [array.findIndex(pred)], with [None] for [-1]. *)
Fixpoint findIndex {A : Type} (pred : A -> bool) (l : list A) : option nat :=
  match l with
  | [] => None
  | x :: l' => if pred x then Some O else option_map S (findIndex pred l')
  end.

(** ** Handlers *)

Definition withBookings (st : State) (bs : list Booking) : State :=
  {| mockProviders := mockProviders st; mockServices := mockServices st;
     mockBookings := bs; mockReviews := mockReviews st |}.

Definition withReviews (st : State) (ps : list Provider) (rs : list Review) : State :=
  {| mockProviders := ps; mockServices := mockServices st;
     mockBookings := mockBookings st; mockReviews := rs |}.

(** The end time POST computes with [Date]: [setHours(hours, minutes, 0)]
    then [duration * 60000] milliseconds later, read back with [getHours] and
    [getMinutes].  This is wall-clock arithmetic modulo one day (hours or
    minutes out of range roll over, as [setHours] does); a [NaN] component
    gives an invalid date.  A daylight-saving change inside the window is
    not modelled. *)
Definition computeEndTime (startTime_ : string) (duration_ : Z) : string :=
  match JS.splitNumbers startTime_ with
  | (Some hours, Some minutes) =>
      let t := (60 * hours + minutes + duration_) mod 1440 in
      formatTime (Some (t / 60)) (Some (t mod 60))
  | _ => formatTime None None
  end.

Definition cancel (now : string) (b : Booking) : Booking :=
  {| b_id := b_id b; b_customerId := b_customerId b; b_providerId := b_providerId b;
     b_serviceId := b_serviceId b; date := date b; startTime := startTime b;
     endTime := endTime b; status := cancelled; totalPrice := totalPrice b;
     currency := currency b; notes := notes b; b_createdAt := b_createdAt b;
     b_updatedAt := now |}.

(** [{ ...booking, ...data, updatedAt: now }]. *)
Definition applyPatch (b : Booking) (data : BookingPatch) (now : string) : Booking :=
  {| b_id := default (b_id b) (u_id data);
     b_customerId := default (b_customerId b) (u_customerId data);
     b_providerId := default (b_providerId b) (u_providerId data);
     b_serviceId := default (b_serviceId b) (u_serviceId data);
     date := default (date b) (u_date data);
     startTime := default (startTime b) (u_startTime data);
     endTime := default (endTime b) (u_endTime data);
     status := default (status b) (u_status data);
     totalPrice := default (totalPrice b) (u_totalPrice data);
     currency := default (currency b) (u_currency data);
     notes := match u_notes data with Some n => Some n | None => notes b end;
     b_createdAt := default (b_createdAt b) (u_createdAt data);
     b_updatedAt := now |}.

(** [providerReviews.reduce((sum, review) => sum + review.rating, 0)]: the
    ratings are integers here, and a sum of integers is exact in a double
    while it stays below 2^53. *)
Definition totalRating (rs : list Review) : Z :=
  fold_left (fun sum review => sum + r_rating review) rs 0.

(** [totalRating / providerReviews.length], the double the handler stores. *)
Definition meanRating (rs : list Review) : JS.double :=
  JS.divide (JS.ofInt (totalRating rs)) (JS.ofInt (Z.of_nat (length rs))).

Definition reviewsOf (providerId : string) (rs : list Review) : list Review :=
  List.filter (fun r => String.eqb (r_providerId r) providerId) rs.

Definition setRating (p : Provider) (q : JS.double) (n : Z) : Provider :=
  {| p_id := p_id p; workingHours := workingHours p; rating := q; reviewCount := n |}.

Section Handlers.

(** [parseISO(date).getDay().toString()] of the [date-fns] library. *)
Context (weekdayKey : string -> string).

(** [generateAvailableSlots(providerId, date)]. *)
Definition generateAvailableSlots (st : State) (providerId date_ : string)
  : option (list Slot) :=
  match findProvider providerId (mockProviders st) with
  | None => Some []
  | Some provider =>
      let dayOfWeek := weekdayKey date_ in
      match workingHours provider !! dayOfWeek with
      | None => Some []
      | Some hours =>
          if negb (isOpen hours) then Some []
          else
            match forEachPeriod (slots hours) with
            | None => None
            | Some slots_ =>
                let bookedSlots :=
                  List.filter (occupies providerId date_) (mockBookings st) in
                Some (List.filter
                        (fun slot => negb (existsb (conflicts slot) bookedSlots))
                        slots_)
            end
      end
  end.

(** [GET /api/availability]; the handler mutates nothing. *)
Definition getAvailability (st : State) (providerId date_ : option string)
  : option (Response (string * string * list Slot)) :=
  if negb (JS.truthy providerId) || negb (JS.truthy date_)
  then Some (Failure 400 "Provider ID and date are required")
  else
    match generateAvailableSlots st (text providerId) (text date_) with
    | None => None
    | Some availableSlots =>
        Some (Json 200 (text providerId, text date_, availableSlots))
    end.

(** [POST /api/bookings]; [now1] and [now2] are the two clock readings. *)
Definition postBooking (st : State) (data : BookingData) (now1 now2 : string)
  : option (State * Response (Booking * Service)) :=
  if negb (JS.truthy (d_customerId data)) || negb (JS.truthy (d_providerId data))
     || negb (JS.truthy (d_serviceId data)) || negb (JS.truthy (d_date data))
     || negb (JS.truthy (d_startTime data))
  then Some (st, Failure 400 "Missing required booking information")
  else
    match List.find (fun s => String.eqb (s_id s) (text (d_serviceId data)))
                    (mockServices st) with
    | None => Some (st, Failure 404 "Service not found")
    | Some service =>
        let endTime_ := computeEndTime (text (d_startTime data)) (duration service) in
        match generateAvailableSlots st (text (d_providerId data)) (text (d_date data)) with
        | None => None
        | Some availableSlots =>
            let isSlotAvailable :=
              existsb (fun slot => String.eqb (start slot) (text (d_startTime data)))
                      availableSlots in
            if negb isSlotAvailable
            then Some (st, Failure 400 "Selected time slot is not available")
            else
              let newBooking :=
                {| b_id := JS.toString (Some (Z.of_nat (length (mockBookings st)) + 1));
                   b_customerId := text (d_customerId data);
                   b_providerId := text (d_providerId data);
                   b_serviceId := text (d_serviceId data);
                   date := text (d_date data);
                   startTime := text (d_startTime data);
                   endTime := endTime_;
                   status := pending;
                   totalPrice := price service;
                   currency := s_currency service;
                   notes := if JS.truthy (d_notes data) then d_notes data else None;
                   b_createdAt := now1;
                   b_updatedAt := now2 |} in
              Some (withBookings st (mockBookings st ++ [newBooking]),
                    Json 201 (newBooking, service))
        end
    end.

End Handlers.

(** [PUT /api/bookings/:id]. *)
Definition putBooking (st : State) (id : string) (data : BookingPatch) (now : string)
  : State * Response Booking :=
  match findIndex (fun b => String.eqb (b_id b) id) (mockBookings st) with
  | None => (st, Failure 404 "Booking not found")
  | Some bookingIndex =>
      match mockBookings st !! bookingIndex with
      | None => (st, Failure 404 "Booking not found")
      | Some b =>
          let b' := applyPatch b data now in
          (withBookings st (<[bookingIndex := b']> (mockBookings st)), Json 200 b')
      end
  end.

(** [DELETE /api/bookings/:id]. *)
Definition deleteBooking (st : State) (id : string) (now : string)
  : State * Response string :=
  match findIndex (fun b => String.eqb (b_id b) id) (mockBookings st) with
  | None => (st, Failure 404 "Booking not found")
  | Some bookingIndex =>
      match mockBookings st !! bookingIndex with
      | None => (st, Failure 404 "Booking not found")
      | Some b =>
          (withBookings st (<[bookingIndex := cancel now b]> (mockBookings st)),
           Json 200 "Booking cancelled successfully"%string)
      end
  end.

(** The rating recomputation after a review was created or edited: the
    provider found by [findIndex] gets the mean of the reviews carrying its
    id; [setCount] tells whether [reviewCount] is written too (POST writes
    it, PUT does not). *)
Definition recompute (providerId : string) (setCount : bool)
  (ps : list Provider) (rs : list Review) : list Provider :=
  let providerReviews := reviewsOf providerId rs in
  match findIndex (fun p => String.eqb (p_id p) providerId) ps with
  | None => ps
  | Some providerIndex =>
      match ps !! providerIndex with
      | None => ps
      | Some p =>
          <[providerIndex :=
              setRating p (meanRating providerReviews)
                (if setCount then Z.of_nat (length providerReviews)
                 else reviewCount p)]> ps
      end
  end.

(** [POST /api/reviews]; [now1] and [now2] are the two clock readings. *)
Definition postReview (st : State) (data : ReviewData) (now1 now2 : string)
  : State * Response Review :=
  if negb (JS.truthy (v_bookingId data)) || negb (JS.truthy (v_customerId data))
     || negb (JS.truthy (v_providerId data)) || negb (JS.truthy (v_serviceId data))
     || negb (truthyNumber (v_rating data))
  then (st, Failure 400 "Missing required review information")
  else
    match List.find (fun b => String.eqb (b_id b) (text (v_bookingId data)))
                    (mockBookings st) with
    | None => (st, Failure 404 "Booking not found")
    | Some booking =>
        if negb (status_eqb (status booking) completed)
        then (st, Failure 400 "Can only review completed bookings")
        else
          match List.find (fun r => String.eqb (bookingId r) (text (v_bookingId data)))
                          (mockReviews st) with
          | Some existingReview =>
              (st, Failure 400 "Review already exists for this booking")
          | None =>
              let newReview :=
                {| r_id := JS.toString (Some (Z.of_nat (length (mockReviews st)) + 1));
                   bookingId := text (v_bookingId data);
                   r_customerId := text (v_customerId data);
                   r_providerId := text (v_providerId data);
                   r_serviceId := text (v_serviceId data);
                   r_rating := default 0 (v_rating data);
                   comment := if JS.truthy (v_comment data) then text (v_comment data)
                              else EmptyString;
                   r_createdAt := now1;
                   r_updatedAt := now2 |} in
              let reviews' := mockReviews st ++ [newReview] in
              (withReviews st
                 (recompute (text (v_providerId data)) true (mockProviders st) reviews')
                 reviews',
               Json 201 newReview)
          end
    end.

(** [PUT /api/reviews/:id]. *)
Definition putReview (st : State) (id : string) (data : ReviewPatch) (now : string)
  : State * Response Review :=
  match findIndex (fun r => String.eqb (r_id r) id) (mockReviews st) with
  | None => (st, Failure 404 "Review not found")
  | Some reviewIndex =>
      match mockReviews st !! reviewIndex with
      | None => (st, Failure 404 "Review not found")
      | Some r =>
          let r' :=
            {| r_id := r_id r; bookingId := bookingId r;
               r_customerId := r_customerId r; r_providerId := r_providerId r;
               r_serviceId := r_serviceId r;
               r_rating := if truthyNumber (w_rating data)
                           then default 0 (w_rating data) else r_rating r;
               comment := if JS.truthy (w_comment data)
                          then text (w_comment data) else comment r;
               r_createdAt := r_createdAt r;
               r_updatedAt := now |} in
          let reviews' := <[reviewIndex := r']> (mockReviews st) in
          (withReviews st
             (recompute (r_providerId r') false (mockProviders st) reviews')
             reviews',
           Json 200 r')
      end
  end.

(** [DELETE /api/reviews/:id]: [splice] removes the review, then the rating
    is recomputed only when a review of the provider remains, while
    [reviewCount] is always written. *)
Definition deleteReview (st : State) (id : string) : State * Response string :=
  match findIndex (fun r => String.eqb (r_id r) id) (mockReviews st) with
  | None => (st, Failure 404 "Review not found")
  | Some reviewIndex =>
      match mockReviews st !! reviewIndex with
      | None => (st, Failure 404 "Review not found")
      | Some r =>
          let providerId := r_providerId r in
          let reviews' := delete reviewIndex (mockReviews st) in
          let providerReviews := reviewsOf providerId reviews' in
          let providers' :=
            match findIndex (fun p => String.eqb (p_id p) providerId)
                            (mockProviders st) with
            | None => mockProviders st
            | Some providerIndex =>
                match mockProviders st !! providerIndex with
                | None => mockProviders st
                | Some p =>
                    <[providerIndex :=
                        setRating p
                          (if (0 <? length providerReviews)%nat
                           then meanRating providerReviews else rating p)
                          (Z.of_nat (length providerReviews))]> (mockProviders st)
                end
            end in
          (withReviews st providers' reviews',
           Json 200 "Review deleted successfully"%string)
      end
  end.

(** ** The mock data *)

Definition closedDay : WorkingDay := {| isOpen := false; slots := [] |}.

Definition openDay (from to : string) : WorkingDay :=
  {| isOpen := true; slots := [ {| start := from; end_ := to |} ] |}.

Definition week (d0 d1 d2 d3 d4 d5 d6 : WorkingDay) : gmap string WorkingDay :=
  <["0"%string := d0]> (<["1"%string := d1]> (<["2"%string := d2]>
  (<["3"%string := d3]> (<["4"%string := d4]> (<["5"%string := d5]>
  (<["6"%string := d6]> ∅)))))).

Definition initialProviders : list Provider :=
  [ {| p_id := "1";
       workingHours :=
         week closedDay (openDay "09:00" "17:00") (openDay "09:00" "17:00")
              (openDay "09:00" "17:00") (openDay "09:00" "17:00")
              (openDay "09:00" "17:00") (openDay "10:00" "15:00");
       rating := JS.oneDecimal 48; reviewCount := 124 |};
    {| p_id := "2";
       workingHours :=
         week (openDay "10:00" "20:00") (openDay "10:00" "20:00")
              (openDay "10:00" "20:00") (openDay "10:00" "20:00")
              (openDay "10:00" "20:00") (openDay "14:00" "22:00") closedDay;
       rating := JS.oneDecimal 49; reviewCount := 89 |};
    {| p_id := "3";
       workingHours :=
         week closedDay (openDay "10:00" "19:00") (openDay "10:00" "19:00")
              (openDay "10:00" "19:00") (openDay "10:00" "19:00")
              (openDay "10:00" "19:00") (openDay "09:00" "17:00");
       rating := JS.oneDecimal 47; reviewCount := 56 |} ].

Definition mkService (id providerId : string) (price_ : Z) (currency_ : string)
  (duration_ : Z) : Service :=
  {| s_id := id; s_providerId := providerId; price := inject_Z price_;
     s_currency := currency_; duration := duration_; available := true |}.

Definition initialServices : list Service :=
  [ mkService "1" "1" 75 "USD" 60;   mkService "2" "1" 90 "USD" 75;
    mkService "3" "1" 65 "USD" 90;   mkService "4" "1" 120 "USD" 60;
    mkService "5" "2" 150 "AED" 90;  mkService "6" "2" 280 "AED" 60;
    mkService "7" "2" 350 "AED" 75;  mkService "8" "2" 320 "AED" 120;
    mkService "9" "3" 35 "USD" 30;   mkService "10" "3" 25 "USD" 20;
    mkService "11" "3" 45 "USD" 45;  mkService "12" "3" 55 "USD" 60 ].

(** The values the module reads from the clock when it is loaded: the four
    [format(..., 'yyyy-MM-dd')] dates and the six [toISOString()] instants
    that appear in the mock bookings and reviews. *)
Record Clock := {
  yesterdayText : string;          (* format(yesterday, 'yyyy-MM-dd') *)
  tomorrowText : string;           (* format(tomorrow, 'yyyy-MM-dd') *)
  nextWeekText : string;           (* format(nextWeek, 'yyyy-MM-dd') *)
  inThreeDaysText : string;        (* format(addDays(today, 3), 'yyyy-MM-dd') *)
  todayInstant : string;           (* today.toISOString() *)
  yesterdayInstant : string;       (* yesterday.toISOString() *)
  todayMinus1Instant : string;     (* subDays(today, 1).toISOString() *)
  todayMinus3Instant : string;     (* subDays(today, 3).toISOString() *)
  yesterdayMinus2Instant : string; (* subDays(yesterday, 2).toISOString() *)
  yesterdayMinus5Instant : string  (* subDays(yesterday, 5).toISOString() *)
}.

Definition initialBookings (c : Clock) : list Booking :=
  [ {| b_id := "1"; b_customerId := "1"; b_providerId := "1"; b_serviceId := "1";
       date := yesterdayText c; startTime := "10:00"; endTime := "11:00";
       status := completed; totalPrice := inject_Z 75; currency := "USD";
       notes := Some "First time customer"%string;
       b_createdAt := yesterdayMinus2Instant c; b_updatedAt := yesterdayInstant c |};
    {| b_id := "2"; b_customerId := "1"; b_providerId := "2"; b_serviceId := "6";
       date := tomorrowText c; startTime := "14:00"; endTime := "15:00";
       status := confirmed; totalPrice := inject_Z 280; currency := "AED";
       notes := None;
       b_createdAt := todayMinus1Instant c; b_updatedAt := todayMinus1Instant c |};
    {| b_id := "3"; b_customerId := "3"; b_providerId := "2"; b_serviceId := "5";
       date := nextWeekText c; startTime := "16:00"; endTime := "17:30";
       status := confirmed; totalPrice := inject_Z 150; currency := "AED";
       notes := Some "First hammam experience"%string;
       b_createdAt := todayMinus3Instant c; b_updatedAt := todayMinus3Instant c |};
    {| b_id := "4"; b_customerId := "3"; b_providerId := "3"; b_serviceId := "12";
       date := yesterdayText c; startTime := "11:00"; endTime := "12:00";
       status := completed; totalPrice := inject_Z 55; currency := "USD";
       notes := None;
       b_createdAt := yesterdayMinus5Instant c; b_updatedAt := yesterdayInstant c |};
    {| b_id := "5"; b_customerId := "1"; b_providerId := "1"; b_serviceId := "2";
       date := inThreeDaysText c; startTime := "15:00"; endTime := "16:15";
       status := pending; totalPrice := inject_Z 90; currency := "USD";
       notes := Some "Special occasion makeup"%string;
       b_createdAt := todayInstant c; b_updatedAt := todayInstant c |} ].

(** The comment of the second review is Arabic text in the source; no
    handler inspects it and it is abbreviated here. *)
Definition initialReviews (c : Clock) : list Review :=
  [ {| r_id := "1"; bookingId := "1"; r_customerId := "1"; r_providerId := "1";
       r_serviceId := "1"; r_rating := 5;
       comment := "Amazing haircut! Exactly what I wanted and the stylist was very professional.";
       r_createdAt := yesterdayInstant c; r_updatedAt := yesterdayInstant c |};
    {| r_id := "2"; bookingId := "4"; r_customerId := "3"; r_providerId := "3";
       r_serviceId := "12"; r_rating := 4; comment := "(Arabic text)";
       r_createdAt := yesterdayInstant c; r_updatedAt := yesterdayInstant c |} ].

Definition initialState (c : Clock) : State :=
  {| mockProviders := initialProviders; mockServices := initialServices;
     mockBookings := initialBookings c; mockReviews := initialReviews c |}.

(** ** The exposed operations as a transition system *)

Inductive Event :=
| PostBooking (data : BookingData) (now1 now2 : string)
| PutBooking (id : string) (data : BookingPatch) (now : string)
| DeleteBooking (id : string) (now : string)
| GetAvailability (providerId date_ : option string)
| PostReview (data : ReviewData) (now1 now2 : string)
| PutReview (id : string) (data : ReviewPatch) (now : string)
| DeleteReview (id : string).

(** The state after a handler has run; [None] when the handler does not
    return. *)
Definition handle (weekdayKey : string -> string) (st : State) (ev : Event)
  : option State :=
  match ev with
  | PostBooking data now1 now2 =>
      match postBooking weekdayKey st data now1 now2 with
      | Some (st', _) => Some st'
      | None => None
      end
  | PutBooking id data now => Some (fst (putBooking st id data now))
  | DeleteBooking id now => Some (fst (deleteBooking st id now))
  | GetAvailability providerId date_ =>
      match getAvailability weekdayKey st providerId date_ with
      | Some _ => Some st
      | None => None
      end
  | PostReview data now1 now2 => Some (fst (postReview st data now1 now2))
  | PutReview id data now => Some (fst (putReview st id data now))
  | DeleteReview id => Some (fst (deleteReview st id))
  end.

Fixpoint run (weekdayKey : string -> string) (st : State) (evs : list Event)
  : option State :=
  match evs with
  | [] => Some st
  | ev :: evs' =>
      match handle weekdayKey st ev with
      | Some st' => run weekdayKey st' evs'
      | None => None
      end
  end.

(** A later change of the service catalogue.  No handler of the mock writes
    [mockServices]; the change is modelled as replacing the array. *)
Definition withServices (st : State) (ss : list Service) : State :=
  {| mockProviders := mockProviders st; mockServices := ss;
     mockBookings := mockBookings st; mockReviews := mockReviews st |}.

(** States reachable from the mock data by the exposed operations that
    [allowed] admits. *)
Inductive reachableBy (allowed : Event -> Prop) (weekdayKey : string -> string)
  (c : Clock) : State -> Prop :=
| reachable_init : reachableBy allowed weekdayKey c (initialState c)
| reachable_step st ev st' :
    reachableBy allowed weekdayKey c st ->
    allowed ev ->
    handle weekdayKey st ev = Some st' ->
    reachableBy allowed weekdayKey c st'.

Definition reachable := reachableBy (fun _ => True).

Definition isUpdate (ev : Event) : Prop :=
  match ev with PutBooking _ _ _ => True | _ => False end.





(** ** Times of day *)

Definition timeOfMinute (t : Z) : string :=
  formatTime (Some (t / 60)) (Some (t mod 60)).

(** The slot number [k] of a period that opens at minute [s]. *)
Definition slotFrom (s : Z) (k : nat) : Slot :=
  {| start := timeOfMinute (s + 30 * Z.of_nat k);
     end_ := timeOfMinute (s + 30 * (Z.of_nat k + 1)) |}.

(** A zero-padded five-character [HH:mm] time of day. *)
Definition isHHmm (s : string) : bool :=
  match s with
  | String a (String b (String c (String d (String e EmptyString)))) =>
      JS.isDigit a && JS.isDigit b && Ascii.eqb c ":"%char
      && JS.isDigit d && JS.isDigit e
      && (10 * JS.digitValue a + JS.digitValue b <? 24)
      && (10 * JS.digitValue d + JS.digitValue e <? 60)
  | _ => false
  end.

(** The minute of the day an [HH:mm] string encodes. *)
Definition minutesOf (s : string) : Z :=
  match s with
  | String a (String b (String _ (String d (String e EmptyString)))) =>
      60 * (10 * JS.digitValue a + JS.digitValue b)
      + 10 * JS.digitValue d + JS.digitValue e
  | _ => 0
  end.

(** The conflict test of the filter, on minutes of the day. *)
Definition conflictsMinutes (s e bs be : Z) : bool :=
  ((bs <=? s) && (s <? be)) || ((bs <? e) && (e <=? be)) || ((s <=? bs) && (be <=? e)).



(** Working hours whose every bound is an [HH:mm] time of day. *)
Definition periodWellFormed (period : Slot) : Prop :=
  isHHmm (start period) = true /\ isHHmm (end_ period) = true.

Definition hoursWellFormed (ps : list Provider) : Prop :=
  Forall (fun p =>
            map_Forall (fun (_ : string) (day : WorkingDay) =>
                          Forall periodWellFormed (slots day))
                       (workingHours p)) ps.

Definition slotWellFormed (slot : Slot) : Prop :=
  isHHmm (start slot) = true /\ isHHmm (end_ slot) = true
  /\ minutesOf (end_ slot) = minutesOf (start slot) + 30.

(** A half-hour slot that lies inside a working period. *)
Definition slotWithin (period slot : Slot) : Prop :=
  slotWellFormed slot
  /\ minutesOf (start period) <= minutesOf (start slot)
  /\ minutesOf (end_ slot) <= minutesOf (end_ period).

Definition digitChar (v : Z) : ascii := ascii_of_N (Z.to_N (48 + v)).

Definition fiveChars (a b d e : Z) : string :=
  String (digitChar a) (String (digitChar b) (String ":"%char
    (String (digitChar d) (String (digitChar e) EmptyString)))).

(** One minute of the day, checked by evaluation: its text is the expected
    five characters, is recognised by [isHHmm], decodes to the minute and
    splits into its hour and minute. *)
Definition minuteChecks (k : nat) : bool :=
  let t := Z.of_nat k in
  let s := timeOfMinute t in
  String.eqb s (fiveChars (t / 600) ((t / 60) mod 10) ((t mod 60) / 10) (t mod 10))
  && isHHmm s && (minutesOf s =? t)
  && match JS.splitNumbers s with
     | (Some h, Some m) => (h =? t / 60) && (m =? t mod 60)
     | _ => false
     end.

(** The number of half-hour steps from minute [t] that still end by [e]. *)
Definition slotCount (t e : Z) : nat := Z.to_nat ((e - t) / 30).

(** ** Sample inputs *)

(** A start-up clock: the module is loaded on Wednesday 2024-01-10. *)
Definition demoClock : Clock :=
  {| yesterdayText := "2024-01-09"; tomorrowText := "2024-01-11";
     nextWeekText := "2024-01-17"; inThreeDaysText := "2024-01-13";
     todayInstant := "2024-01-10T08:00:00.000Z";
     yesterdayInstant := "2024-01-09T08:00:00.000Z";
     todayMinus1Instant := "2024-01-09T08:00:00.000Z";
     todayMinus3Instant := "2024-01-07T08:00:00.000Z";
     yesterdayMinus2Instant := "2024-01-07T08:00:00.000Z";
     yesterdayMinus5Instant := "2024-01-04T08:00:00.000Z" |}.

Definition demoState : State := initialState demoClock.

Definition sampleBooking (from to : string) : Booking :=
  {| b_id := "1"; b_customerId := "1"; b_providerId := "1"; b_serviceId := "1";
     date := "2024-01-15"; startTime := from; endTime := to; status := confirmed;
     totalPrice := inject_Z 75; currency := "USD"; notes := None;
     b_createdAt := "2024-01-10T08:00:00.000Z";
     b_updatedAt := "2024-01-10T08:00:00.000Z" |}.

(** The confirmed booking ["2"] of the mock data. *)
Definition secondBooking : Booking :=
  default (sampleBooking "14:00" "15:00") (mockBookings demoState !! 1%nat).

(** A booking request of customer 1 for service [serviceId] of provider 1 on
    Monday 2024-01-15. *)
Definition request (serviceId startTime_ : string) : BookingData :=
  {| d_customerId := Some "1"%string; d_providerId := Some "1"%string;
     d_serviceId := Some serviceId; d_date := Some "2024-01-15"%string;
     d_startTime := Some startTime_; d_notes := None |}.

(** An update that only rewrites [endTime]. *)
Definition endTimePatch (to : string) : BookingPatch :=
  {| u_id := None; u_customerId := None; u_providerId := None; u_serviceId := None;
     u_date := None; u_startTime := None; u_endTime := Some to; u_status := None;
     u_totalPrice := None; u_currency := None; u_notes := None;
     u_createdAt := None |}.

(** The mock data after booking ["2"] (confirmed, 14:00-15:00) is given the
    end time 14:00. *)
Definition emptyWindowState : State :=
  fst (putBooking demoState "2" (endTimePatch "14:00") "2024-01-10T09:00:00.000Z").

Definition statusPatch (s : Status) : BookingPatch :=
  {| u_id := None; u_customerId := None; u_providerId := None; u_serviceId := None;
     u_date := None; u_startTime := None; u_endTime := None; u_status := Some s;
     u_totalPrice := None; u_currency := None; u_notes := None;
     u_createdAt := None |}.

(** Two requests for the one-hour service 1: 10:00, then 09:30. *)
Definition doubleBookingTrace : list Event :=
  [ PostBooking (request "1" "10:00") "2024-01-10T09:00:00.000Z" "2024-01-10T09:00:00.000Z";
    PostBooking (request "1" "09:30") "2024-01-10T09:05:00.000Z" "2024-01-10T09:05:00.000Z" ].

(** The scenario of the specification's P5: a provider open 09:00-10:00 on
    Mondays, one 45-minute service, an empty ledger. *)
Definition shortDayProvider : Provider :=
  {| p_id := "1";
     workingHours :=
       week closedDay (openDay "09:00" "10:00") closedDay closedDay
            closedDay closedDay closedDay;
     rating := JS.oneDecimal 48; reviewCount := 124 |}.

Definition shortDayState : State :=
  {| mockProviders := [ shortDayProvider ];
     mockServices := [ mkService "11" "1" 45 "USD" 45 ];
     mockBookings := [];
     mockReviews := [] |}.

(** Booking ["3"] moved onto the day and hours of booking ["2"]. *)
Definition movePatch : BookingPatch :=
  {| u_id := None; u_customerId := None; u_providerId := None; u_serviceId := None;
     u_date := Some "2024-01-11"%string; u_startTime := Some "14:30"%string;
     u_endTime := Some "16:00"%string; u_status := None;
     u_totalPrice := None; u_currency := None; u_notes := None;
     u_createdAt := None |}.





(** The booking the first request of [doubleBookingTrace] creates. *)
Definition firstBooking : Booking :=
  {| b_id := "6"; b_customerId := "1"; b_providerId := "1"; b_serviceId := "1";
     date := "2024-01-15"; startTime := "10:00"; endTime := "11:00";
     status := pending; totalPrice := inject_Z 75; currency := "USD"; notes := None;
     b_createdAt := "2024-01-10T09:00:00.000Z";
     b_updatedAt := "2024-01-10T09:00:00.000Z" |}.

Definition bookedState : State :=
  withBookings demoState (mockBookings demoState ++ [firstBooking]).

(** The mean of a list of integer ratings as a JavaScript number, stated
    apart from the handlers' code: the sum of the list divided by its length
    in IEEE 754 binary64 arithmetic (the quotient rounded to the nearest
    double, ties to even), and [NaN] for the empty list.  The mean of 5, 4
    and 4 is the double 4.333333333333333, not the fraction 13/3. *)
Definition meanOfRatings (ratings : list Z) : spec_float :=
  SFdiv 53 1024
    (binary_normalize 53 1024 (fold_right Z.add 0 ratings) 0 false)
    (binary_normalize 53 1024 (Z.of_nat (length ratings)) 0 false).

(** A complete review of booking ["1"] (completed, already reviewed), of
    booking ["5"] (pending), and a first review of booking ["5"] once it is
    completed. *)
Definition reviewOf (bookingId_ providerId serviceId : string) (rating_ : Z)
  : ReviewData :=
  {| v_bookingId := Some bookingId_; v_customerId := Some "1"%string;
     v_providerId := Some providerId; v_serviceId := Some serviceId;
     v_rating := Some rating_; v_comment := None |}.



(** The mock data with booking ["5"] completed. *)
Definition completedState : State :=
  fst (putBooking demoState "5" (statusPatch completed) "2024-01-14T09:00:00.000Z").

(** The review of booking ["5"] that [reviewOf "5" "1" "2" 4] creates, and
    the state and provider after it. *)
Definition fifthReview : Review :=
  {| r_id := "3"; bookingId := "5"; r_customerId := "1"; r_providerId := "1";
     r_serviceId := "2"; r_rating := 4; comment := "";
     r_createdAt := "2024-01-15T09:00:00.000Z";
     r_updatedAt := "2024-01-15T09:00:00.000Z" |}.



(** The booking the second request of [doubleBookingTrace] creates, and the
    state after both. *)
Definition secondRequestBooking : Booking :=
  {| b_id := "7"; b_customerId := "1"; b_providerId := "1"; b_serviceId := "1";
     date := "2024-01-15"; startTime := "09:30"; endTime := "10:30";
     status := pending; totalPrice := inject_Z 75; currency := "USD"; notes := None;
     b_createdAt := "2024-01-10T09:05:00.000Z";
     b_updatedAt := "2024-01-10T09:05:00.000Z" |}.

Definition doubleBookedState : State :=
  withBookings demoState
    (mockBookings demoState ++ [firstBooking; secondRequestBooking]).







(** ** Further definitions for the properties of the handlers *)

(** Working periods of one day in chronological order, each ending by the
    start of the next. *)
Definition chronologicalPeriods (periods : list Slot) : Prop :=
  Forall periodWellFormed periods
  /\ StronglySorted
       (fun p q => minutesOf (end_ p) <= minutesOf (start q)) periods.

(** Slots in chronological order, each ending by the start of the next. *)
Definition chronologicalSlots (l : list Slot) : Prop :=
  StronglySorted
    (fun a b => minutesOf (start a) < minutesOf (start b)
                /\ minutesOf (end_ a) <= minutesOf (start b)) l.

(** The ledger without its record number [i]. *)
Definition withoutBooking (st : State) (i : nat) : State :=
  withBookings st (delete i (mockBookings st)).

Definition emptyPatch : BookingPatch :=
  {| u_id := None; u_customerId := None; u_providerId := None; u_serviceId := None;
     u_date := None; u_startTime := None; u_endTime := None; u_status := None;
     u_totalPrice := None; u_currency := None; u_notes := None;
     u_createdAt := None |}.

(** Every booking carries the id its position gives: the record number [i]
    (from zero) has id [i + 1]. *)
Definition idsFollowPositions (st : State) : Prop :=
  forall (i : nat) (b : Booking),
    mockBookings st !! i = Some b -> b_id b = JS.toString (Some (Z.of_nat i + 1)).

(** Booking ["3"] and review ["1"] of the mock data. *)
Definition thirdBooking : Booking :=
  default secondBooking (mockBookings demoState !! 2%nat).

Definition firstReview : Review :=
  default fifthReview (mockReviews demoState !! 0%nat).

Definition secondProvider : Provider :=
  default shortDayProvider (mockProviders demoState !! 1%nat).

(** ** Users, authentication and favourites *)

Inductive Role := roleCustomer | roleProvider.
Inductive Language := langEn | langAr.

Definition roleName (r : Role) : string :=
  match r with roleCustomer => "customer" | roleProvider => "provider" end.

Record User := {
  user_id : string;
  email : string;
  password : string;
  firstName : string;
  lastName : string;
  phoneNumber : string;
  role : Role;
  avatar : option string;
  user_createdAt : string;
  language : Language;
  favorites : list string
}.

(** [const { password: _, ...userWithoutPassword } = user]. *)
Record PublicUser := {
  pu_id : string;
  pu_email : string;
  pu_firstName : string;
  pu_lastName : string;
  pu_phoneNumber : string;
  pu_role : Role;
  pu_avatar : option string;
  pu_createdAt : string;
  pu_language : Language;
  pu_favorites : list string
}.

Definition withoutPassword (u : User) : PublicUser :=
  {| pu_id := user_id u; pu_email := email u; pu_firstName := firstName u;
     pu_lastName := lastName u; pu_phoneNumber := phoneNumber u; pu_role := role u;
     pu_avatar := avatar u; pu_createdAt := user_createdAt u;
     pu_language := language u; pu_favorites := favorites u |}.

(** The mock users.  [createdAt1] to [createdAt4] are the four
    [new Date(2023, m, d).toISOString()] instants of the source, which depend
    on the host's time zone.  The names of users 3 and 4 are Arabic text in
    the source; no handler inspects them and they are abbreviated here. *)
Definition initialUsers (createdAt1 createdAt2 createdAt3 createdAt4 : string)
  : list User :=
  [ {| user_id := "1"; email := "customer@example.com"; password := "password123";
       firstName := "John"; lastName := "Doe"; phoneNumber := "+1234567890";
       role := roleCustomer;
       avatar := Some "https://api.dicebear.com/7.x/avataaars/svg?seed=John"%string;
       user_createdAt := createdAt1; language := langEn;
       favorites := ["1"; "3"]%string |};
    {| user_id := "2"; email := "provider@example.com"; password := "password123";
       firstName := "Jane"; lastName := "Smith"; phoneNumber := "+1987654321";
       role := roleProvider;
       avatar := Some "https://api.dicebear.com/7.x/avataaars/svg?seed=Jane"%string;
       user_createdAt := createdAt2; language := langEn; favorites := [] |};
    {| user_id := "3"; email := "arabic@example.com"; password := "password123";
       firstName := "(Arabic text)"; lastName := "(Arabic text)";
       phoneNumber := "+9665XXXXXXXX"; role := roleCustomer;
       avatar := Some "https://api.dicebear.com/7.x/avataaars/svg?seed=Mohammed"%string;
       user_createdAt := createdAt3; language := langAr;
       favorites := ["2"]%string |};
    {| user_id := "4"; email := "arabic-provider@example.com";
       password := "password123";
       firstName := "(Arabic text)"; lastName := "(Arabic text)";
       phoneNumber := "+9665XXXXXXXX"; role := roleProvider;
       avatar := Some "https://api.dicebear.com/7.x/avataaars/svg?seed=Fatima"%string;
       user_createdAt := createdAt4; language := langAr; favorites := [] |} ].

(** The mock users on a host in UTC. *)
Definition demoUsers : list User :=
  initialUsers "2023-02-01T00:00:00.000Z" "2023-01-15T00:00:00.000Z"
               "2023-03-10T00:00:00.000Z" "2023-04-05T00:00:00.000Z".

(** [generateToken(user)]; [nowMs] is [Date.now()]. *)
Definition generateToken (u : User) (nowMs : Z) : string :=
  ("mock-jwt-token-" ++ user_id u ++ "-" ++ roleName (role u) ++ "-"
   ++ JS.toString (Some nowMs))%string.

(** [findUserByCredentials(email, password)]. *)
Definition findUserByCredentials (users : list User) (email_ password_ : string)
  : option User :=
  List.find (fun user => String.eqb (email user) email_
                         && String.eqb (password user) password_) users.

(** [POST /api/auth/login]. *)
Definition login (users : list User) (email_ password_ : string) (nowMs : Z)
  : Response (PublicUser * string) :=
  match findUserByCredentials users email_ password_ with
  | None => Failure 401 "Invalid credentials"
  | Some user => Json 200 (withoutPassword user, generateToken user nowMs)
  end.

(** The JSON body of [POST /api/auth/register]. *)
Record RegisterData := {
  g_email : string;
  g_password : string;
  g_firstName : string;
  g_lastName : string;
  g_phoneNumber : option string;
  g_role : option Role;
  g_language : option Language
}.

(** [POST /api/auth/register]; [now] is [new Date().toISOString()] and
    [nowMs] is [Date.now()]. *)
Definition register (users : list User) (data : RegisterData) (now : string) (nowMs : Z)
  : list User * Response (PublicUser * string) :=
  match List.find (fun user => String.eqb (email user) (g_email data)) users with
  | Some existingUser => (users, Failure 400 "Email already in use")
  | None =>
      let newUser :=
        {| user_id := JS.toString (Some (Z.of_nat (length users) + 1));
           email := g_email data;
           password := g_password data;
           firstName := g_firstName data;
           lastName := g_lastName data;
           phoneNumber := if JS.truthy (g_phoneNumber data)
                          then text (g_phoneNumber data) else EmptyString;
           role := default roleCustomer (g_role data);
           avatar := None;
           user_createdAt := now;
           language := default langEn (g_language data);
           favorites := [] |} in
      (users ++ [newUser], Json 201 (withoutPassword newUser, generateToken newUser nowMs))
  end.

(** [/^\d{6}$/.test(otp)]: exactly six decimal digits. *)
Definition isSixDigits (otp : string) : bool :=
  Nat.eqb (String.length otp) 6
  && forallb JS.isDigit (list_ascii_of_string otp).

(** [POST /api/auth/verify-otp]. *)
Definition verifyOtp (users : list User) (email_ otp : string) : Response bool :=
  if negb (isSixDigits otp) then Failure 400 "Invalid OTP"
  else
    match List.find (fun user => String.eqb (email user) email_) users with
    | None => Failure 404 "User not found"
    | Some user => Json 200 true
    end.

(** The JSON body of [PUT /api/users/:id]: any subset of the fields of a
    user. *)
Record UserPatch := {
  y_id : option string;
  y_email : option string;
  y_password : option string;
  y_firstName : option string;
  y_lastName : option string;
  y_phoneNumber : option string;
  y_role : option Role;
  y_avatar : option string;
  y_createdAt : option string;
  y_language : option Language;
  y_favorites : option (list string)
}.

(** [PUT /api/users/:id]: the spread of the body, then the five fields the
    handler sets itself. *)
Definition putUser (users : list User) (id : string) (data : UserPatch)
  : list User * Response PublicUser :=
  match findIndex (fun u => String.eqb (user_id u) id) users with
  | None => (users, Failure 404 "User not found")
  | Some userIndex =>
      match users !! userIndex with
      | None => (users, Failure 404 "User not found")
      | Some u =>
          let u' :=
            {| user_id := user_id u;
               email := if JS.truthy (y_email data) then text (y_email data)
                        else email u;
               password := password u;
               firstName := default (firstName u) (y_firstName data);
               lastName := default (lastName u) (y_lastName data);
               phoneNumber := default (phoneNumber u) (y_phoneNumber data);
               role := role u;
               avatar := match y_avatar data with
                         | Some a => Some a
                         | None => avatar u
                         end;
               user_createdAt := user_createdAt u;
               language := default (language u) (y_language data);
               favorites := default (favorites u) (y_favorites data) |} in
          (<[userIndex := u']> users, Json 200 (withoutPassword u'))
      end
  end.

Definition includes (l : list string) (x : string) : bool :=
  existsb (String.eqb x) l.

Definition setFavorites (u : User) (fs : list string) : User :=
  {| user_id := user_id u; email := email u; password := password u;
     firstName := firstName u; lastName := lastName u;
     phoneNumber := phoneNumber u; role := role u; avatar := avatar u;
     user_createdAt := user_createdAt u; language := language u;
     favorites := fs |}.

(** [GET /api/users/:id/favorites]. *)
Definition getFavorites (users : list User) (providers : list Provider) (id : string)
  : Response (list Provider) :=
  match List.find (fun u => String.eqb (user_id u) id) users with
  | None => Failure 404 "User not found"
  | Some user =>
      Json 200 (List.filter (fun provider => includes (favorites user) (p_id provider))
                            providers)
  end.

(** [POST /api/users/:id/favorites]. *)
Definition postFavorite (users : list User) (providers : list Provider)
  (id providerId : string) : list User * Response (list string) :=
  match findIndex (fun u => String.eqb (user_id u) id) users with
  | None => (users, Failure 404 "User not found")
  | Some userIndex =>
      match users !! userIndex with
      | None => (users, Failure 404 "User not found")
      | Some u =>
          match findProvider providerId providers with
          | None => (users, Failure 404 "Provider not found")
          | Some provider =>
              let fs := if includes (favorites u) providerId then favorites u
                        else favorites u ++ [providerId] in
              (<[userIndex := setFavorites u fs]> users, Json 200 fs)
          end
      end
  end.

(** [DELETE /api/users/:userId/favorites/:providerId]. *)
Definition deleteFavorite (users : list User) (userId providerId : string)
  : list User * Response (list string) :=
  match findIndex (fun u => String.eqb (user_id u) userId) users with
  | None => (users, Failure 404 "User not found")
  | Some userIndex =>
      match users !! userIndex with
      | None => (users, Failure 404 "User not found")
      | Some u =>
          let fs := List.filter (fun id => negb (String.eqb id providerId))
                                (favorites u) in
          (<[userIndex := setFavorites u fs]> users, Json 200 fs)
      end
  end.

(** Sample registration. *)
Definition newcomer : RegisterData :=
  {| g_email := "new@example.com"; g_password := "s3cret"; g_firstName := "Nora";
     g_lastName := "Lee"; g_phoneNumber := None; g_role := None;
     g_language := None |}.

Definition blankUser : User :=
  {| user_id := ""; email := ""; password := ""; firstName := ""; lastName := "";
     phoneNumber := ""; role := roleCustomer; avatar := None; user_createdAt := "";
     language := langEn; favorites := [] |}.

(** User ["1"] of the mock data and a body that tries to change every field
    the update handler protects. *)
Definition firstUser : User := default blankUser (demoUsers !! 0%nat).

Definition intrusivePatch : UserPatch :=
  {| y_id := Some "9"%string; y_email := None; y_password := Some "hacked"%string;
     y_firstName := Some "Johnny"%string; y_lastName := None;
     y_phoneNumber := None; y_role := Some roleProvider; y_avatar := None;
     y_createdAt := Some "1999-01-01T00:00:00.000Z"%string; y_language := None;
     y_favorites := None |}.

(** ** Query parameters, pages and listings *)

(** More of JavaScript's arithmetic on numbers. *)
Definition jsMinus (a b : JS.num) : JS.num :=
  match a, b with Some x, Some y => Some (x - y) | _, _ => None end.

Definition jsTimes (a b : JS.num) : JS.num :=
  match a, b with Some x, Some y => Some (x * y) | _, _ => None end.

(** White space that [parseInt] skips, among the ASCII characters: tab, line
    feed, vertical tab, form feed, carriage return and space. *)
Definition isSpace (c : ascii) : bool :=
  let n := N_of_ascii c in (((9 <=? n) && (n <=? 13)) || (n =? 32))%N.

Fixpoint trimStart (s : string) : string :=
  match s with
  | String c s' => if isSpace c then trimStart s' else s
  | EmptyString => s
  end.

(** The value of a character as a digit of the radix (10 or 16). *)
Definition digitOf (radix : Z) (c : ascii) : option Z :=
  let n := Z.of_N (N_of_ascii c) in
  if (48 <=? n) && (n <=? 57) then Some (n - 48)
  else if (radix =? 16) && (97 <=? n) && (n <=? 102) then Some (n - 87)
  else if (radix =? 16) && (65 <=? n) && (n <=? 70) then Some (n - 55)
  else None.

(** The longest prefix of digits, as a number; [NaN] when it is empty. *)
Fixpoint digitsPrefix (radix acc : Z) (seen : bool) (s : string) : JS.num :=
  match s with
  | String c s' =>
      match digitOf radix c with
      | Some d => digitsPrefix radix (radix * acc + d) true s'
      | None => if seen then Some acc else None
      end
  | EmptyString => if seen then Some acc else None
  end.

(** [parseInt(s)]: leading white space, an optional sign, an optional [0x]
    or [0X] prefix, then the longest run of digits.  White space outside
    ASCII and the loss of precision above 2^53 are not modelled. *)
Definition parseInt (s : string) : JS.num :=
  let s1 := trimStart s in
  let '(sign, s2) :=
    match s1 with
    | String "-"%char r => (-1, r)
    | String "+"%char r => (1, r)
    | _ => (1, s1)
    end in
  let '(radix, s3) :=
    match s2 with
    | String "0"%char (String x r) =>
        if Ascii.eqb x "x"%char || Ascii.eqb x "X"%char then (16, r) else (10, s2)
    | _ => (10, s2)
    end in
  match digitsPrefix radix 0 false s3 with
  | Some v => Some (sign * v)
  | None => None
  end.

(** [parseInt(url.searchParams.get(name) || fallback)]. *)
Definition intParam (o : option string) (fallback : string) : JS.num :=
  parseInt (if JS.truthy o then text o else fallback).

(** An index argument of [slice] against a length: [NaN] is 0, a negative
    index counts from the end, and the result is clamped to the array. *)
Definition relativeIndex (len : Z) (k : JS.num) : Z :=
  match k with
  | None => 0
  | Some z => if z <? 0 then Z.max (len + z) 0 else Z.min z len
  end.

(** [array.slice(start, end)]. *)
Definition slice {A : Type} (l : list A) (start_ end__ : JS.num) : list A :=
  let len := Z.of_nat (length l) in
  let from := relativeIndex len start_ in
  let to := relativeIndex len end__ in
  take (Z.to_nat (to - from)) (drop (Z.to_nat from) l).

(** [Math.ceil(length / limit)] as the JSON answer shows it: [None] stands
    for [null], which is how [NaN] and [Infinity] are serialised. *)
Definition pageCount (len : Z) (limit_ : JS.num) : JS.num :=
  match limit_ with
  | Some n => if n =? 0 then None else Some (- ((- len) / n))
  | None => None
  end.

(** The body of a paginated listing. *)
Record Listing (A : Type) := {
  items : list A;
  total : Z;
  page : JS.num;
  limit : JS.num;
  totalPages : JS.num
}.

Arguments items {A} _.
Arguments total {A} _.
Arguments page {A} _.
Arguments limit {A} _.
Arguments totalPages {A} _.

(** The pagination block shared by the listing handlers, followed by the
    [map] that enriches the page. *)
Definition paginate {A B : Type} (filtered : list A) (enrich : A -> B)
  (limitParam pageParam : option string) : Listing B :=
  let limit_ := intParam limitParam "10" in
  let page_ := intParam pageParam "1" in
  let startIndex := jsTimes (jsMinus page_ (Some 1)) limit_ in
  let endIndex := jsTimes page_ limit_ in
  {| items := List.map enrich (slice filtered startIndex endIndex);
     total := Z.of_nat (length filtered);
     page := page_;
     limit := limit_;
     totalPages := pageCount (Z.of_nat (length filtered)) limit_ |}.

(** [array.sort(compare)] for a comparator that orders consistently: the
    stable sort, here by insertion from the right.  An element goes after the
    elements that [compare] puts before it ([compare(x, y) > 0]).  For a
    comparator that is not a consistent order (a [NaN] result among them) the
    order the engine produces is implementation-defined. *)
Fixpoint insertSorted {A : Type} (compare : A -> A -> JS.num) (x : A) (l : list A)
  : list A :=
  match l with
  | [] => [x]
  | y :: l' =>
      if JS.lt (Some 0) (compare x y) then y :: insertSorted compare x l'
      else x :: y :: l'
  end.

Fixpoint sort {A : Type} (compare : A -> A -> JS.num) (l : list A) : list A :=
  match l with
  | [] => []
  | x :: l' => insertSorted compare x (sort compare l')
  end.

Definition statusName (s : Status) : string :=
  match s with
  | pending => "pending" | confirmed => "confirmed"
  | cancelled => "cancelled" | completed => "completed"
  end.

(** [if (param) list = list.filter(pred)]. *)
Definition filterIf {A : Type} (param : option string) (pred : string -> A -> bool)
  (l : list A) : list A :=
  if JS.truthy param then List.filter (pred (text param)) l else l.

Section Listings.

(** [new Date(text).getTime()]. *)
Context (getTime : string -> JS.num).

(** The start of a booking as the listing sorts it:
    [new Date(`${date}T${startTime}`).getTime()]. *)
Definition bookingTime (b : Booking) : JS.num :=
  getTime (date b ++ "T" ++ startTime b)%string.

(** Whether a booking starts at the instant [t]. *)
Definition startsAt (t : Z) (b : Booking) : bool :=
  match bookingTime b with Some u => u =? t | None => false end.

(** Both starts are valid dates, and [a] does not start before [b]. *)
Definition notEarlier (a b : Booking) : Prop :=
  exists ta tb, bookingTime a = Some ta /\ bookingTime b = Some tb /\ tb <= ta.

(** The comparator [(a, b) => dateB.getTime() - dateA.getTime()]. *)
Definition mostRecentFirst (a b : Booking) : JS.num :=
  jsMinus (bookingTime b) (bookingTime a).

Definition matchingBookings (st : State) (customerId providerId status_ : option string)
  : list Booking :=
  filterIf status_ (fun s b => String.eqb (statusName (status b)) s)
    (filterIf providerId (fun s b => String.eqb (b_providerId b) s)
       (filterIf customerId (fun s b => String.eqb (b_customerId b) s)
          (mockBookings st))).

(** [GET /api/bookings]. *)
Definition getBookings (st : State)
  (customerId providerId status_ limitParam pageParam : option string)
  : Listing (Booking * option Service * option Provider) :=
  let filteredBookings :=
    sort mostRecentFirst (matchingBookings st customerId providerId status_) in
  paginate filteredBookings
    (fun booking =>
       (booking,
        List.find (fun s => String.eqb (s_id s) (b_serviceId booking)) (mockServices st),
        findProvider (b_providerId booking) (mockProviders st)))
    limitParam pageParam.

End Listings.

(** [GET /api/bookings/:id]; the customer is shown without the password, or
    as the empty object ([None]) when there is no such user. *)
Definition getBooking (st : State) (users : list User) (id : string)
  : Response (Booking * option Service * option Provider * option PublicUser) :=
  match List.find (fun b => String.eqb (b_id b) id) (mockBookings st) with
  | None => Failure 404 "Booking not found"
  | Some booking =>
      Json 200
        (booking,
         List.find (fun s => String.eqb (s_id s) (b_serviceId booking)) (mockServices st),
         findProvider (b_providerId booking) (mockProviders st),
         option_map withoutPassword
           (List.find (fun u => String.eqb (user_id u) (b_customerId booking)) users))
  end.

(** [GET /api/providers/:id]. *)
Definition getProvider (st : State) (id : string)
  : Response (Provider * list Service * list Review) :=
  match findProvider id (mockProviders st) with
  | None => Failure 404 "Provider not found"
  | Some provider =>
      Json 200
        (provider,
         List.filter (fun service => String.eqb (s_providerId service) id)
                     (mockServices st),
         List.filter (fun review => String.eqb (r_providerId review) id)
                     (mockReviews st))
  end.

(** [new Date(text).getTime()] on a [yyyy-MM-ddTHH:mm] text of a valid date,
    for a host in UTC: the milliseconds since 1970.  Other texts, which the
    engines parse differently, are given [NaN] here; the examples use this
    clock on valid texts only. *)
Definition utcTime (s : string) : JS.num :=
  if negb (Nat.eqb (String.length s) 16) then None
  else if negb (String.eqb (substring 10 1 s) "T") then None
  else
    match Calendar.getDay (substring 0 10 s),
          Calendar.field (substring 0 4 s), Calendar.field (substring 5 2 s),
          Calendar.field (substring 8 2 s) with
    | Some _, Some y, Some m, Some d =>
        if isHHmm (substring 11 5 s)
        then Some ((Calendar.daysFromCivil y m d * 1440
                    + minutesOf (substring 11 5 s)) * 60000)
        else None
    | _, _, _, _ => None
    end.

(** The profile that [GET /api/providers/:id] shows agrees with the reviews
    listed beside it: [reviewCount] is their number and, when there is one,
    [rating] is their mean ([meanOfRatings]: the sum of their ratings divided
    by their number, as a double). *)
Definition profileMatchesReviews (st : State) (id : string) : Prop :=
  match getProvider st id with
  | Json _ (provider, _, reviews) =>
      reviewCount provider = Z.of_nat (length reviews)
      /\ (reviews <> [] -> rating provider = meanOfRatings (List.map r_rating reviews))
  | Failure _ _ => True
  end.


(** Every stored booking names a service and a provider that exist. *)
Definition bookingsResolve (st : State) : Prop :=
  forall b, In b (mockBookings st) ->
    is_Some (List.find (fun s => String.eqb (s_id s) (b_serviceId b)) (mockServices st))
    /\ is_Some (findProvider (b_providerId b) (mockProviders st)).



(** ** The time-slot utility ([generateTimeSlots] of [utils.ts]) *)

(** The [while] loop of [generateTimeSlots], on integer arguments, returning
    the array once the loop ends.  [fuel] bounds the number of iterations;
    [None] means the bound was reached. *)
Fixpoint timeSlotsLoop (fuel : nat) (currentHour currentMinute endHour intervalMinutes : Z)
  (slots : list string) : option (list string) :=
  match fuel with
  | O => None
  | S fuel' =>
      if currentHour <? endHour then
        let slots1 := slots ++ [formatTime (Some currentHour) (Some currentMinute)] in
        let currentMinute1 := currentMinute + intervalMinutes in
        if 60 <=? currentMinute1
        then timeSlotsLoop fuel' (currentHour + 1) 0 endHour intervalMinutes slots1
        else timeSlotsLoop fuel' currentHour currentMinute1 endHour intervalMinutes slots1
      else Some slots
  end.

(** [generateTimeSlots(startHour, endHour, intervalMinutes)]. *)
Definition generateTimeSlots (fuel : nat) (startHour endHour intervalMinutes : Z)
  : option (list string) :=
  timeSlotsLoop fuel startHour 0 endHour intervalMinutes [].

(** The times of hour [h] from minute [m] on, every [i] minutes, below the
    full hour. *)
Definition hourSlots (i h m : Z) : list string :=
  List.map (fun k => formatTime (Some h) (Some (m + Z.of_nat k * i)))
           (seq 0 (Z.to_nat ((59 - m) / i + 1))).

(** For each hour from [sh] to [eh - 1], its times from minute 0 on. *)
Definition dayGrid (i sh eh : Z) : list string :=
  flat_map (fun j => hourSlots i (sh + Z.of_nat j) 0) (seq 0 (Z.to_nat (eh - sh))).

(** * Properties *)

(** ** The order on strings *)

Section StringOrder.

Local Open Scope string_scope.

Lemma ascii_compare_trans (a b c : ascii) :
  Ascii.compare a b = Lt -> Ascii.compare b c = Lt -> Ascii.compare a c = Lt.
Proof.
  unfold Ascii.compare. rewrite !N.compare_lt_iff. lia.
Qed.

Lemma ascii_compare_refl (a : ascii) : Ascii.compare a a = Eq.
Proof. unfold Ascii.compare. apply N.compare_refl. Qed.

Lemma string_compare_refl (a : string) : String.compare a a = Eq.
Proof.
  induction a as [|c a IH]; [reflexivity|].
  cbn [String.compare]. now rewrite ascii_compare_refl.
Qed.

Lemma string_compare_trans (a : string) :
  forall b c, String.compare a b = Lt -> String.compare b c = Lt ->
              String.compare a c = Lt.
Proof.
  induction a as [|x a IH]; intros [|y b] [|z c]; cbn [String.compare];
    try congruence.
  destruct (Ascii.compare x y) eqn:Hxy; try congruence;
    destruct (Ascii.compare y z) eqn:Hyz; try congruence; intros H1 H2.
  - apply Ascii.compare_eq_iff in Hxy, Hyz. subst.
    rewrite ascii_compare_refl. eauto.
  - apply Ascii.compare_eq_iff in Hxy. subst. now rewrite Hyz.
  - apply Ascii.compare_eq_iff in Hyz. subst. now rewrite Hxy.
  - now rewrite (ascii_compare_trans _ _ _ Hxy Hyz).
Qed.

Lemma string_ltb_lt (a b : string) : String.ltb a b = true <-> String.compare a b = Lt.
Proof. unfold String.ltb. destruct (String.compare a b); intuition congruence. Qed.

Lemma string_leb_nlt (a b : string) : String.leb a b = negb (String.ltb b a).
Proof.
  unfold String.leb, String.ltb. rewrite (String.compare_antisym a b).
  destruct (String.compare b a); reflexivity.
Qed.

Lemma string_lt_irrefl (a : string) : String.ltb a a = false.
Proof. unfold String.ltb. now rewrite string_compare_refl. Qed.

Lemma string_lt_trans (a b c : string) :
  String.ltb a b = true -> String.ltb b c = true -> String.ltb a c = true.
Proof. rewrite !string_ltb_lt. apply string_compare_trans. Qed.

Lemma string_lt_total (a b : string) :
  String.ltb a b = true \/ a = b \/ String.ltb b a = true.
Proof.
  unfold String.ltb. rewrite (String.compare_antisym a b).
  destruct (String.compare b a) eqn:H; simpl; auto.
  apply String.compare_eq_iff in H. auto.
Qed.

(** [a <= b < c] and [a < b <= c] give [a < c]. *)
Lemma string_le_lt_trans (a b c : string) :
  String.ltb b a = false -> String.ltb b c = true -> String.ltb a c = true.
Proof.
  intros Hab Hbc. destruct (string_lt_total a b) as [H|[->|H]]; try congruence.
  eapply string_lt_trans; eauto.
Qed.

Lemma string_lt_le_trans (a b c : string) :
  String.ltb a b = true -> String.ltb c b = false -> String.ltb a c = true.
Proof.
  intros Hab Hbc. destruct (string_lt_total b c) as [H|[<-|H]]; try congruence.
  eapply string_lt_trans; eauto.
Qed.

Lemma string_lt_asym (a b : string) :
  String.ltb a b = true -> String.ltb b a = false.
Proof.
  intros H. destruct (String.ltb b a) eqn:E; [|reflexivity].
  pose proof (string_lt_trans _ _ _ H E) as C. now rewrite string_lt_irrefl in C.
Qed.

End StringOrder.

(** ** C3: the conflict test is half-open overlap *)

(** The three clauses of the filter, with [<=] rewritten as the negation of
    the reverse [<]. *)
Lemma conflicts_unfold (slot : Slot) (booking : Booking) :
  conflicts slot booking =
  (negb (String.ltb (start slot) (startTime booking)) && String.ltb (start slot) (endTime booking))
  || (String.ltb (startTime booking) (end_ slot) && negb (String.ltb (endTime booking) (end_ slot)))
  || (negb (String.ltb (startTime booking) (start slot)) && negb (String.ltb (end_ slot) (endTime booking))).
Proof. unfold conflicts. now rewrite !string_leb_nlt. Qed.

Lemma halfopen_conflicts (slot : Slot) (booking : Booking) :
  String.ltb (start slot) (endTime booking) && String.ltb (startTime booking) (end_ slot) = true ->
  conflicts slot booking = true.
Proof.
  rewrite conflicts_unfold. intros [H1 H2]%andb_true_iff. rewrite H1, H2.
  destruct (String.ltb (start slot) (startTime booking)) eqn:E1; simpl; [|reflexivity].
  rewrite (string_lt_asym _ _ E1). simpl.
  destruct (String.ltb (endTime booking) (end_ slot)) eqn:E2; simpl; [|reflexivity].
  now rewrite (string_lt_asym _ _ E2).
Qed.

(** C3, as it stands, fails for an occupying booking whose window is empty:
    an update that sets the end time of confirmed booking 2 (14:00-15:00) to
    14:00 is accepted, and the three clauses still report a conflict with the
    slots 14:00-14:30 and 13:30-14:00 (the third clause holds) where
    [start < bEnd], respectively [bStart < end], is false; so both slots are
    withheld from the availability of provider 2, while 14:30 is offered
    again. *)
Lemma empty_window_still_conflicts :
  handle Calendar.weekdayKey demoState
    (PutBooking "2" (endTimePatch "14:00") "2024-01-10T09:00:00.000Z")
  = Some emptyWindowState
  /\ reachable Calendar.weekdayKey demoClock emptyWindowState
  /\ exists (b : Booking) (offered : list Slot),
       mockBookings emptyWindowState !! 1%nat = Some b
       /\ occupies "2" "2024-01-11" b = true
       /\ startTime b = "14:00"%string /\ endTime b = "14:00"%string
       /\ conflicts {| start := "14:00"; end_ := "14:30" |} b = true
       /\ String.ltb "14:00" (endTime b) && String.ltb (startTime b) "14:30" = false
       /\ conflicts {| start := "13:30"; end_ := "14:00" |} b = true
       /\ String.ltb "13:30" (endTime b) && String.ltb (startTime b) "14:00" = false
       /\ generateAvailableSlots Calendar.weekdayKey emptyWindowState "2" "2024-01-11"
          = Some offered
       /\ ~ In {| start := "14:00"; end_ := "14:30" |} offered
       /\ ~ In {| start := "13:30"; end_ := "14:00" |} offered
       /\ In {| start := "14:30"; end_ := "15:00" |} offered.
Proof.
  split; [reflexivity|]. split.
  - apply (reachable_step _ _ _ demoState
             (PutBooking "2" (endTimePatch "14:00") "2024-01-10T09:00:00.000Z"));
      [apply reachable_init | exact I | reflexivity].
  - destruct (mockBookings emptyWindowState !! 1%nat) as [b|] eqn:Hb;
      [|vm_compute in Hb; discriminate].
    destruct (generateAvailableSlots Calendar.weekdayKey emptyWindowState "2" "2024-01-11")
      as [offered|] eqn:Ho; [|vm_compute in Ho; discriminate].
    exists b, offered. split; [reflexivity|].
    vm_compute in Hb. injection Hb as <-.
    vm_compute in Ho. injection Ho as <-.
    repeat split; try reflexivity.
    + intros H. repeat (destruct H as [H|H]; [discriminate H|]). exact H.
    + intros H. repeat (destruct H as [H|H]; [discriminate H|]). exact H.
    + do 7 right. left. reflexivity.
Qed.

(** C3, as the code has it. For a booking window and a slot window that are
    proper intervals ([bStart < bEnd] and [start < end] in the order the
    filter compares with), the three-clause test of the availability filter
    is true exactly when [start < bEnd] and [bStart < end]; a booking
    10:00-11:00 does not conflict with 11:00-12:00 and does conflict with
    10:30-11:30.  For a booking whose window is empty or reversed
    ([bStart >= bEnd]) the test is true exactly when [start <= bStart] and
    [bEnd <= end]. *)
Theorem conflicts_half_open :
  (forall (slot : Slot) (booking : Booking),
      String.ltb (startTime booking) (endTime booking) = true ->
      String.ltb (start slot) (end_ slot) = true ->
      conflicts slot booking =
      String.ltb (start slot) (endTime booking) && String.ltb (startTime booking) (end_ slot))
  /\ (forall booking : Booking,
        startTime booking = "10:00"%string -> endTime booking = "11:00"%string ->
        conflicts {| start := "11:00"; end_ := "12:00" |} booking = false
        /\ conflicts {| start := "10:30"; end_ := "11:30" |} booking = true)
  /\ (forall (slot : Slot) (booking : Booking),
        String.ltb (startTime booking) (endTime booking) = false ->
        conflicts slot booking =
        String.leb (start slot) (startTime booking)
        && String.leb (endTime booking) (end_ slot)).
Proof.
  split; [|split].
  - intros slot booking Hb Hs.
    destruct (String.ltb (start slot) (endTime booking)
              && String.ltb (startTime booking) (end_ slot)) eqn:Hh.
    + now apply halfopen_conflicts.
    + rewrite conflicts_unfold.
      apply andb_false_iff in Hh as [Hh|Hh].
      * (* the slot starts at or after the booking's end *)
        rewrite Hh. rewrite andb_false_r. simpl.
        assert (H1 : String.ltb (endTime booking) (end_ slot) = true)
          by (eapply string_le_lt_trans; eauto).
        rewrite H1. rewrite andb_false_r. simpl.
        assert (H2 : String.ltb (startTime booking) (start slot) = true)
          by (eapply string_lt_le_trans; eauto).
        now rewrite H2.
      * (* the booking starts at or after the slot's end *)
        rewrite Hh. simpl. rewrite orb_false_r.
        assert (H1 : String.ltb (start slot) (startTime booking) = true)
          by (eapply string_lt_le_trans; eauto).
        rewrite H1. simpl.
        assert (H2 : String.ltb (end_ slot) (endTime booking) = true)
          by (eapply string_le_lt_trans; eauto).
        rewrite H2. now rewrite andb_false_r.
  - intros booking Hs He. unfold conflicts. simpl. rewrite Hs, He. split; reflexivity.
  - intros slot booking Hb. rewrite conflicts_unfold, !string_leb_nlt.
    destruct (String.ltb (start slot) (startTime booking)) eqn:E1,
             (String.ltb (start slot) (endTime booking)) eqn:E2,
             (String.ltb (startTime booking) (end_ slot)) eqn:E3,
             (String.ltb (endTime booking) (end_ slot)) eqn:E4;
      cbn [negb andb orb]; try reflexivity; exfalso;
      first [ pose proof (string_le_lt_trans _ _ _ E1 E2) as C
            | pose proof (string_lt_le_trans _ _ _ E3 E4) as C ];
      congruence.
Qed.

Lemma conflicts_half_open_witness :
  conflicts {| start := "10:30"; end_ := "11:00" |} (sampleBooking "10:00" "11:00") = true
  /\ conflicts {| start := "11:00"; end_ := "12:00" |} (sampleBooking "10:00" "11:00") = false
  /\ conflicts {| start := "10:30"; end_ := "11:30" |} (sampleBooking "10:00" "11:00") = true.
Proof.
  split.
  - rewrite (proj1 conflicts_half_open); reflexivity.
  - apply (proj1 (proj2 conflicts_half_open) (sampleBooking "10:00" "11:00"));
      reflexivity.
Defined.

(** Both hypotheses are needed: against an empty booking window the third
    clause still fires. *)
Example conflicts_empty_window :
  conflicts {| start := "10:00"; end_ := "10:30" |} (sampleBooking "10:00" "10:00") = true
  /\ String.ltb "10:00" "10:00" && String.ltb "10:00" "10:30" = false.
Proof. split; reflexivity. Qed.

(** ** C4: the slots of one working period *)

Lemma slotCount_none (t e : Z) : e < t + 30 -> slotCount t e = 0%nat.
Proof.
  intros H. unfold slotCount.
  assert ((e - t) / 30 < 1) by (apply Z.div_lt_upper_bound; lia). lia.
Qed.

Lemma slotCount_next (t e : Z) :
  t + 30 <= e -> slotCount t e = S (slotCount (t + 30) e).
Proof.
  intros H. unfold slotCount.
  replace (e - t) with ((e - (t + 30)) + 1 * 30) by lia.
  rewrite Z.div_add by lia.
  assert (0 <= (e - (t + 30)) / 30) by (apply Z.div_pos; lia). lia.
Qed.

Lemma slotCount_spec (t e : Z) (k : nat) :
  (k < slotCount t e)%nat <-> t + 30 * (Z.of_nat k + 1) <= e.
Proof.
  unfold slotCount. split; intros H.
  - assert (Z.of_nat k + 1 <= (e - t) / 30) by lia.
    pose proof (Z.mul_div_le (e - t) 30 ltac:(lia)). nia.
  - assert (Z.of_nat k + 1 <= (e - t) / 30) by (apply Z.div_le_lower_bound; lia).
    lia.
Qed.

Lemma timeOfMinute_split (h m : Z) :
  0 <= m < 60 -> formatTime (Some h) (Some m) = timeOfMinute (60 * h + m).
Proof.
  intros Hm. unfold timeOfMinute.
  replace (60 * h + m) with (m + h * 60) by lia.
  now rewrite Z.div_add, Z.mod_add, Z.div_small, Z.mod_small by lia.
Qed.

Lemma slotFrom_shift (t : Z) (n : nat) :
  List.map (slotFrom t) (List.seq 1 n) = List.map (slotFrom (t + 30)) (List.seq 0 n).
Proof.
  rewrite <- seq_shift, map_map. apply map_ext. intros k. unfold slotFrom.
  f_equal; f_equal; lia.
Qed.

Lemma slotLoop_spec (fuel : nat) :
  forall h m eh em : Z,
    0 <= m < 60 -> 0 <= em < 60 ->
    (1 <= fuel)%nat ->
    2 * (eh - h) + (if m <? 30 then 1 else 0) + 2 <= Z.of_nat fuel ->
    slotLoop fuel (Some h) (Some m) (Some eh) (Some em)
    = Some (List.map (slotFrom (60 * h + m))
              (List.seq 0 (slotCount (60 * h + m) (60 * eh + em)))).
Proof.
  induction fuel as [|fuel IH]; intros h m eh em Hm Hem Hpos Hfuel; [lia|].
  cbn [slotLoop JS.lt JS.seq JS.add JS.sub JS.ge JS.le].
  destruct ((h <? eh) || ((h =? eh) && (m <? em))) eqn:Hcond.
  - assert (Hlt : 60 * h + m < 60 * eh + em) by lia.
    assert (Hstep : forall h2 m2 : Z,
               0 <= m2 < 60 -> 60 * h2 + m2 = 60 * h + m + 30 ->
               (1 <= fuel)%nat ->
               2 * (eh - h2) + (if m2 <? 30 then 1 else 0) + 2 <= Z.of_nat fuel ->
               match slotLoop fuel (Some h2) (Some m2) (Some eh) (Some em) with
               | Some rest =>
                   if (h2 <? eh) || ((h2 =? eh) && (m2 <=? em))
                   then Some ({| start := formatTime (Some h) (Some m);
                                 end_ := formatTime (Some h2) (Some m2) |} :: rest)
                   else Some rest
               | None => None
               end
               = Some (List.map (slotFrom (60 * h + m))
                         (List.seq 0 (slotCount (60 * h + m) (60 * eh + em))))).
    { intros h2 m2 Hm2 Ht2 Hpos2 Hfuel2.
      rewrite (IH h2 m2 eh em Hm2 Hem Hpos2 Hfuel2), Ht2.
      destruct ((h2 <? eh) || ((h2 =? eh) && (m2 <=? em))) eqn:Hpush.
      - assert (Hle : 60 * h + m + 30 <= 60 * eh + em) by lia.
        rewrite (slotCount_next _ _ Hle). cbn [List.seq List.map].
        rewrite slotFrom_shift. do 2 f_equal.
        unfold slotFrom. rewrite !timeOfMinute_split, Ht2 by lia.
        f_equal; f_equal; lia.
      - assert (Hgt : 60 * eh + em < 60 * h + m + 30) by lia.
        rewrite (slotCount_none (60 * h + m)),
          (slotCount_none (60 * h + m + 30)) by lia.
        reflexivity. }
    destruct (60 <=? m + 30) eqn:Hc; cbn [JS.lt JS.seq JS.le].
    + apply Hstep; try lia;
        destruct (m <? 30) eqn:?; destruct (m + 30 - 60 <? 30) eqn:?; lia.
    + apply Hstep; try lia;
        destruct (m <? 30) eqn:?; destruct (m + 30 <? 30) eqn:?; lia.
  - rewrite slotCount_none by lia. reflexivity.
Qed.

(** The slots of a period whose bounds parse to hours and minutes with the
    minutes below sixty. *)
Lemma periodSlots_numeric (period : Slot) (sh sm eh em : Z) :
  JS.splitNumbers (start period) = (Some sh, Some sm) ->
  JS.splitNumbers (end_ period) = (Some eh, Some em) ->
  0 <= sm < 60 -> 0 <= em < 60 ->
  periodSlots period
  = Some (List.map (slotFrom (60 * sh + sm))
            (List.seq 0 (slotCount (60 * sh + sm) (60 * eh + em)))).
Proof.
  intros Hs He Hsm Hem. unfold periodSlots. rewrite Hs, He.
  apply slotLoop_spec; try assumption; unfold loopFuel; [lia|].
  destruct (sm <? 30); lia.
Qed.

Lemma forEachPeriod_concat (periods : list Slot) (outs : list (list Slot)) :
  Forall2 (fun period out => periodSlots period = Some out) periods outs ->
  forEachPeriod periods = Some (concat outs).
Proof.
  induction 1 as [|period out periods outs Hp _ IH]; cbn [forEachPeriod concat];
    [reflexivity|].
  now rewrite Hp, IH.
Qed.

Lemma forEachPeriod_None (periods : list Slot) :
  forEachPeriod periods = None
  <-> Exists (fun period => periodSlots period = None) periods.
Proof.
  induction periods as [|period periods IH]; cbn [forEachPeriod].
  - split; [discriminate | intros H; inversion H].
  - destruct (periodSlots period) as [here|] eqn:Hp.
    + destruct (forEachPeriod periods) as [there|].
      * split; [discriminate|]. intros H. inversion H as [? ? H1|? ? H1]; subst.
        -- congruence.
        -- apply IH in H1. discriminate.
      * split; [intros _; apply Exists_cons_tl; now apply IH | reflexivity].
    + split; [intros _; now apply Exists_cons_hd | reflexivity].
Qed.

(** C4. For an open interval whose bounds read as [sh:sm] and [eh:em] (minutes
    below sixty), with [s] and [e] the bounds in minutes, the generator emits
    the slot [[t, t + 30)] for exactly the step points [t = s + 30 k] with
    [t + 30 <= e], in increasing order of [k].  It does so for each open
    interval of the day: the slots of the periods follow one another in the
    order of the periods, none is dropped, and the generator returns unless
    the loop of some period does not; with no pending or confirmed booking of
    the provider on the date these are the slots offered.  For 09:00-17:00
    that is 16 slots, from 09:00-09:30 to 16:30-17:00; for 09:00-12:00 and
    13:00-17:00 it is 6 slots followed by 8. *)
Theorem period_slots_are_the_steps :
  (forall (period : Slot) (sh sm eh em : Z),
      JS.splitNumbers (start period) = (Some sh, Some sm) ->
      JS.splitNumbers (end_ period) = (Some eh, Some em) ->
      0 <= sm < 60 -> 0 <= em < 60 ->
      let s := 60 * sh + sm in
      let e := 60 * eh + em in
      exists n : nat,
        periodSlots period = Some (List.map (slotFrom s) (List.seq 0 n))
        /\ forall k : nat, (k < n)%nat <-> s + 30 * Z.of_nat k + 30 <= e)
  /\ (forall (periods : list Slot) (outs : list (list Slot)),
        Forall2 (fun period out => periodSlots period = Some out) periods outs ->
        forEachPeriod periods = Some (concat outs))
  /\ (forall periods : list Slot,
        forEachPeriod periods = None
        <-> Exists (fun period => periodSlots period = None) periods)
  /\ (forall (weekdayKey : string -> string) (st : State) (providerId date_ : string)
             (provider : Provider) (day : WorkingDay),
        findProvider providerId (mockProviders st) = Some provider ->
        workingHours provider !! weekdayKey date_ = Some day ->
        isOpen day = true ->
        List.filter (occupies providerId date_) (mockBookings st) = [] ->
        generateAvailableSlots weekdayKey st providerId date_
        = forEachPeriod (slots day))
  /\ (exists l : list Slot,
        forEachPeriod [ {| start := "09:00"; end_ := "17:00" |} ] = Some l
        /\ length l = 16%nat
        /\ head l = Some {| start := "09:00"; end_ := "09:30" |}
        /\ last l = Some {| start := "16:30"; end_ := "17:00" |})
  /\ (exists l1 l2 : list Slot,
        forEachPeriod [ {| start := "09:00"; end_ := "12:00" |};
                        {| start := "13:00"; end_ := "17:00" |} ] = Some (l1 ++ l2)
        /\ length l1 = 6%nat /\ length l2 = 8%nat
        /\ last l1 = Some {| start := "11:30"; end_ := "12:00" |}
        /\ head l2 = Some {| start := "13:00"; end_ := "13:30" |}
        /\ last l2 = Some {| start := "16:30"; end_ := "17:00" |}).
Proof.
  split; [|split; [exact forEachPeriod_concat|split; [exact forEachPeriod_None|split;
    [|split]]]].
  - intros period sh sm eh em Hs He Hsm Hem s e.
    exists (slotCount s e). split.
    + now apply periodSlots_numeric.
    + intros k. rewrite slotCount_spec. lia.
  - intros weekdayKey st providerId date_ provider day Hp Hday Hopen Hfree.
    unfold generateAvailableSlots. rewrite Hp, Hday, Hopen, Hfree. cbn [negb].
    destruct (forEachPeriod (slots day)) as [l|]; [|reflexivity].
    f_equal. induction l as [|slot l IH]; [reflexivity|].
    simpl. simpl in IH. now rewrite IH.
  - eexists. split; [vm_compute; reflexivity|]. repeat split.
  - exists (List.map (slotFrom 540) (List.seq 0 6)), (List.map (slotFrom 780) (List.seq 0 8)).
    split; [vm_compute; reflexivity|]. repeat split.
Qed.

Lemma period_slots_are_the_steps_witness :
  (exists n : nat,
      periodSlots {| start := "09:15"; end_ := "10:50" |}
      = Some (List.map (slotFrom 555) (List.seq 0 n))
      /\ forall k : nat, (k < n)%nat <-> 555 + 30 * Z.of_nat k + 30 <= 650)
  /\ forEachPeriod [ {| start := "09:15"; end_ := "10:50" |};
                     {| start := "13:00"; end_ := "14:00" |} ]
     = Some (concat [ List.map (slotFrom 555) (List.seq 0 3);
                      List.map (slotFrom 780) (List.seq 0 2) ]).
Proof.
  split.
  - apply (proj1 period_slots_are_the_steps
             {| start := "09:15"; end_ := "10:50" |} 9 15 10 50);
      [reflexivity | reflexivity | lia | lia].
  - apply (proj1 (proj2 period_slots_are_the_steps)).
    repeat constructor.
Defined.

(** *** The iteration bound is never the reason for [None] *)

Lemma digitsValue_nonneg (s : string) :
  forall acc z, 0 <= acc -> JS.digitsValue acc s = Some z -> 0 <= z.
Proof.
  induction s as [|c s IH]; intros acc z Hacc; cbn [JS.digitsValue].
  - intros [= <-]. assumption.
  - destruct (JS.isDigit c) eqn:Hc; [|discriminate].
    apply IH. unfold JS.isDigit in Hc. unfold JS.digitValue.
    apply andb_true_iff in Hc as [H1%N.leb_le H2%N.leb_le]. lia.
Qed.

Lemma splitNumbers_nonneg (s : string) (h m : JS.num) :
  JS.splitNumbers s = (h, m) ->
  (forall z, h = Some z -> 0 <= z) /\ (forall z, m = Some z -> 0 <= z).
Proof.
  unfold JS.splitNumbers.
  destruct (JS.split s) as [|a [|b l]]; cbn [List.map]; intros [= <- <-];
    split; intros z Hz; try discriminate;
    apply (digitsValue_nonneg _ 0 z ltac:(lia) Hz).
Qed.

(** With a numeric, non-negative minute the loop returns within the bound. *)
Lemma slotLoop_returns (fuel : nat) :
  forall (h m : Z) (endHour endMinute : JS.num),
    0 <= m ->
    (1 <= fuel)%nat ->
    (forall eh, endHour = Some eh ->
                2 * (eh - h) + (if m <? 30 then 1 else 0) + 2 <= Z.of_nat fuel) ->
    exists l, slotLoop fuel (Some h) (Some m) endHour endMinute = Some l.
Proof.
  induction fuel as [|fuel IH]; intros h m endHour endMinute Hm Hpos Hfuel; [lia|].
  cbn [slotLoop JS.add JS.sub JS.ge].
  destruct (JS.lt (Some h) endHour
            || JS.seq (Some h) endHour && JS.lt (Some m) endMinute) eqn:Hcond;
    [|eauto].
  destruct endHour as [eh|]; [|discriminate Hcond].
  specialize (Hfuel eh eq_refl). cbn [JS.lt JS.seq] in Hcond.
  assert (Hle : h <= eh) by lia.
  assert (Hstep : forall h2 m2 : Z,
             0 <= m2 -> (1 <= fuel)%nat ->
             2 * (eh - h2) + (if m2 <? 30 then 1 else 0) + 2 <= Z.of_nat fuel ->
             exists l,
               match slotLoop fuel (Some h2) (Some m2) (Some eh) endMinute with
               | Some rest =>
                   if JS.lt (Some h2) (Some eh)
                      || JS.seq (Some h2) (Some eh) && JS.le (Some m2) endMinute
                   then Some ({| start := formatTime (Some h) (Some m);
                                 end_ := formatTime (Some h2) (Some m2) |} :: rest)
                   else Some rest
               | None => None
               end = Some l).
  { intros h2 m2 Hm2 Hpos2 Hfuel2.
    destruct (IH h2 m2 (Some eh) endMinute Hm2 Hpos2) as (rest & ->).
    - intros eh' [= <-]. exact Hfuel2.
    - match goal with |- context [if ?c then _ else _] => destruct c end; eauto. }
  destruct (60 <=? m + 30) eqn:Hc.
  - apply Hstep; try lia;
      destruct (m <? 30) eqn:?; destruct (m + 30 - 60 <? 30) eqn:?; lia.
  - apply Hstep; try lia;
      destruct (m <? 30) eqn:?; destruct (m + 30 <? 30) eqn:?; lia.
Qed.

(** A [NaN] minute below the closing hour is never advanced: no iteration
    bound is enough. *)
Lemma slotLoop_stuck (fuel : nat) (h eh : Z) (endMinute : JS.num) :
  h < eh -> slotLoop fuel (Some h) None (Some eh) endMinute = None.
Proof.
  intros Hlt. induction fuel as [|fuel IH]; [reflexivity|].
  cbn [slotLoop JS.lt JS.seq JS.add JS.ge JS.sub].
  replace (h <? eh) with true by lia. cbn [orb]. now rewrite IH.
Qed.

(** [periodSlots] is [None] exactly when the source loop does not return:
    the opening minute is not a number and the opening hour is below the
    closing hour. *)
Lemma periodSlots_None (period : Slot) :
  periodSlots period = None <->
  exists sh eh em,
    JS.splitNumbers (start period) = (Some sh, None)
    /\ JS.splitNumbers (end_ period) = (Some eh, em) /\ sh < eh.
Proof.
  unfold periodSlots.
  destruct (JS.splitNumbers (start period)) as [startHour startMinute] eqn:Hs.
  destruct (JS.splitNumbers (end_ period)) as [endHour endMinute] eqn:He.
  destruct (splitNumbers_nonneg _ _ _ Hs) as [_ Hm].
  split.
  - destruct startHour as [sh|]; [|discriminate].
    destruct startMinute as [sm|].
    + intros Hnone. exfalso.
      destruct (slotLoop_returns (loopFuel (Some sh) endHour) sh sm endHour endMinute)
        as (l & Hl); [now apply Hm| | |congruence].
      * destruct endHour; cbn; lia.
      * intros eh ->. cbn. destruct (sm <? 30); lia.
    + destruct endHour as [eh|]; [|discriminate].
      destruct (Z.ltb_spec sh eh) as [Hlt|Hge]; [eauto 6|].
      cbn. replace (sh <? eh) with false by lia.
      rewrite andb_false_r. discriminate.
  - intros (sh & eh & em & [= -> ->] & [= -> ->] & Hlt).
    now apply slotLoop_stuck.
Qed.

(** ** Times of day as text *)

Lemma minutes_checked : forallb minuteChecks (List.seq 0 1440) = true.
Proof. vm_compute. reflexivity. Qed.

Lemma minuteChecks_at (t : Z) : 0 <= t < 1440 -> minuteChecks (Z.to_nat t) = true.
Proof.
  intros Ht. pose proof minutes_checked as H. rewrite forallb_forall in H.
  apply H. apply in_seq. lia.
Qed.

Lemma timeOfMinute_facts (t : Z) :
  0 <= t < 1440 ->
  timeOfMinute t = fiveChars (t / 600) ((t / 60) mod 10) ((t mod 60) / 10) (t mod 10)
  /\ isHHmm (timeOfMinute t) = true
  /\ minutesOf (timeOfMinute t) = t
  /\ JS.splitNumbers (timeOfMinute t) = (Some (t / 60), Some (t mod 60)).
Proof.
  intros Ht. pose proof (minuteChecks_at t Ht) as H. unfold minuteChecks in H.
  rewrite Z2Nat.id in H by lia.
  apply andb_true_iff in H as [H H4]. apply andb_true_iff in H as [H H3].
  apply andb_true_iff in H as [H1 H2].
  apply String.eqb_eq in H1. apply Z.eqb_eq in H3.
  destruct (JS.splitNumbers (timeOfMinute t)) as [[h|] [m|]]; try discriminate.
  apply andb_true_iff in H4 as [Hh Hm%Z.eqb_eq]. apply Z.eqb_eq in Hh. subst h m.
  auto.
Qed.

Lemma isDigit_digitChar (c : ascii) :
  JS.isDigit c = true -> c = digitChar (JS.digitValue c) /\ 0 <= JS.digitValue c <= 9.
Proof.
  unfold JS.isDigit, digitChar, JS.digitValue. intros H.
  apply andb_true_iff in H as [H1%N.leb_le H2%N.leb_le]. split; [|lia].
  replace (Z.to_N (48 + (Z.of_N (N_of_ascii c) - 48))) with (N_of_ascii c) by lia.
  now rewrite ascii_N_embedding.
Qed.

(** An [HH:mm] string is the text of the minute it encodes. *)
Lemma isHHmm_timeOfMinute (s : string) :
  isHHmm s = true -> 0 <= minutesOf s < 1440 /\ s = timeOfMinute (minutesOf s).
Proof.
  destruct s as [|a [|b [|c [|d [|e [|]]]]]]; try discriminate. cbn [isHHmm minutesOf].
  intros H. do 6 (apply andb_true_iff in H as [H ?]).
  destruct (isDigit_digitChar a) as [Ea Ha]; [assumption|].
  destruct (isDigit_digitChar b) as [Eb Hb]; [assumption|].
  destruct (isDigit_digitChar d) as [Ed Hd]; [assumption|].
  destruct (isDigit_digitChar e) as [Ee He]; [assumption|].
  assert (c = ":"%char) as -> by (now apply Ascii.eqb_eq).
  set (va := JS.digitValue a) in *. set (vb := JS.digitValue b) in *.
  set (vd := JS.digitValue d) in *. set (ve := JS.digitValue e) in *.
  assert (Hh : 10 * va + vb < 24) by lia. assert (Hm : 10 * vd + ve < 60) by lia.
  set (t := 60 * (10 * va + vb) + 10 * vd + ve).
  assert (Ht : 0 <= t < 1440) by (unfold t; lia).
  split; [exact Ht|].
  destruct (timeOfMinute_facts t Ht) as (-> & _).
  assert (t / 600 = va) as -> by (symmetry; apply (Z.div_unique t 600 va (60 * vb + 10 * vd + ve)); unfold t; lia).
  assert (t / 60 = 10 * va + vb) as -> by (symmetry; apply (Z.div_unique t 60 _ (10 * vd + ve)); unfold t; lia).
  assert (t mod 60 = 10 * vd + ve) as -> by (symmetry; apply (Z.mod_unique t 60 (10 * va + vb)); unfold t; lia).
  assert ((10 * va + vb) mod 10 = vb) as -> by (symmetry; apply (Z.mod_unique _ 10 va); lia).
  assert ((10 * vd + ve) / 10 = vd) as -> by (symmetry; apply (Z.div_unique _ 10 vd ve); lia).
  assert (t mod 10 = ve) as -> by (symmetry; apply (Z.mod_unique t 10 (6 * (10 * va + vb) + vd)); unfold t; lia).
  unfold fiveChars. congruence.
Qed.

(** ** C10: the order on [HH:mm] strings is the order on minutes *)

Lemma hhmm_compare (s1 s2 : string) :
  isHHmm s1 = true -> isHHmm s2 = true ->
  String.compare s1 s2 = Z.compare (minutesOf s1) (minutesOf s2).
Proof.
  destruct s1 as [|a1 [|b1 [|c1 [|d1 [|e1 [|]]]]]]; try discriminate.
  destruct s2 as [|a2 [|b2 [|c2 [|d2 [|e2 [|]]]]]]; try discriminate.
  cbn [isHHmm minutesOf]. intros H1 H2.
  do 6 (apply andb_true_iff in H1 as [H1 ?]).
  do 6 (apply andb_true_iff in H2 as [H2 ?]).
  assert (c1 = ":"%char) as -> by (now apply Ascii.eqb_eq).
  assert (c2 = ":"%char) as -> by (now apply Ascii.eqb_eq).
  repeat match goal with
         | H : JS.isDigit ?c = true |- _ =>
             unfold JS.isDigit in H; apply andb_true_iff in H as [?%N.leb_le ?%N.leb_le]
         end.
  unfold JS.digitValue in *. cbn [String.compare]. unfold Ascii.compare.
  symmetry.
  destruct (N.compare_spec (N_of_ascii a1) (N_of_ascii a2));
    [|apply Z.compare_lt_iff; lia|apply Z.compare_gt_iff; lia].
  destruct (N.compare_spec (N_of_ascii b1) (N_of_ascii b2));
    [|apply Z.compare_lt_iff; lia|apply Z.compare_gt_iff; lia].
  rewrite N.compare_refl.
  destruct (N.compare_spec (N_of_ascii d1) (N_of_ascii d2));
    [|apply Z.compare_lt_iff; lia|apply Z.compare_gt_iff; lia].
  destruct (N.compare_spec (N_of_ascii e1) (N_of_ascii e2));
    [apply Z.compare_eq_iff; lia|apply Z.compare_lt_iff; lia|apply Z.compare_gt_iff; lia].
Qed.

Lemma hhmm_ltb (s1 s2 : string) :
  isHHmm s1 = true -> isHHmm s2 = true ->
  String.ltb s1 s2 = (minutesOf s1 <? minutesOf s2).
Proof.
  intros H1 H2. unfold String.ltb, Z.ltb. now rewrite hhmm_compare.
Qed.

Lemma hhmm_leb (s1 s2 : string) :
  isHHmm s1 = true -> isHHmm s2 = true ->
  String.leb s1 s2 = (minutesOf s1 <=? minutesOf s2).
Proof.
  intros H1 H2. unfold String.leb, Z.leb. now rewrite hhmm_compare.
Qed.

Lemma hhmm_conflicts (slot : Slot) (booking : Booking) :
  isHHmm (start slot) = true -> isHHmm (end_ slot) = true ->
  isHHmm (startTime booking) = true -> isHHmm (endTime booking) = true ->
  conflicts slot booking
  = conflictsMinutes (minutesOf (start slot)) (minutesOf (end_ slot))
      (minutesOf (startTime booking)) (minutesOf (endTime booking)).
Proof.
  intros. unfold conflicts, conflictsMinutes.
  now rewrite !hhmm_leb, !hhmm_ltb by assumption.
Qed.

(** ** Slots of well-formed working hours *)

Lemma slotFrom_wellFormed (s e : Z) (k : nat) :
  0 <= s -> e < 1440 -> s + 30 * Z.of_nat k + 30 <= e ->
  slotWellFormed (slotFrom s k)
  /\ s <= minutesOf (start (slotFrom s k))
  /\ minutesOf (end_ (slotFrom s k)) <= e.
Proof.
  intros Hs He Hk. unfold slotWellFormed, slotFrom. cbn [start end_].
  destruct (timeOfMinute_facts (s + 30 * Z.of_nat k)) as (_ & H1 & H2 & _); [lia|].
  destruct (timeOfMinute_facts (s + 30 * (Z.of_nat k + 1))) as (_ & H3 & H4 & _); [lia|].
  rewrite H1, H2, H3, H4. repeat split; lia.
Qed.

Lemma periodSlots_within (period : Slot) :
  periodWellFormed period ->
  exists l, periodSlots period = Some l /\ Forall (slotWithin period) l.
Proof.
  intros [Hs He].
  destruct (isHHmm_timeOfMinute _ Hs) as [Hsr Hst].
  destruct (isHHmm_timeOfMinute _ He) as [Her Het].
  unfold slotWithin.
  set (s := minutesOf (start period)) in *. set (e := minutesOf (end_ period)) in *.
  destruct (timeOfMinute_facts s Hsr) as (_ & _ & _ & Hsplit_s).
  destruct (timeOfMinute_facts e Her) as (_ & _ & _ & Hsplit_e).
  rewrite <- Hst in Hsplit_s. rewrite <- Het in Hsplit_e.
  pose proof (Z.mod_pos_bound s 60 ltac:(lia)) as Hsm.
  pose proof (Z.mod_pos_bound e 60 ltac:(lia)) as Hem.
  rewrite (periodSlots_numeric period _ _ _ _ Hsplit_s Hsplit_e Hsm Hem).
  rewrite <- !Z.div_mod by lia. fold s e.
  eexists. split; [reflexivity|].
  apply List.Forall_forall. intros slot Hin.
  apply in_map_iff in Hin as (k & <- & Hk). apply in_seq in Hk.
  apply (slotFrom_wellFormed s e); [lia|lia|].
  assert (Hk' : (k < slotCount s e)%nat) by lia.
  apply slotCount_spec in Hk'. lia.
Qed.

Lemma forEachPeriod_within (periods : list Slot) :
  Forall periodWellFormed periods ->
  exists l, forEachPeriod periods = Some l
            /\ Forall (fun slot => exists period,
                           In period periods /\ slotWithin period slot) l.
Proof.
  induction 1 as [|period periods Hp _ IH]; cbn [forEachPeriod].
  - exists []. split; [reflexivity|constructor].
  - destruct (periodSlots_within _ Hp) as (here & -> & Hhere).
    destruct IH as (there & -> & Hthere).
    eexists. split; [reflexivity|]. apply Forall_app. split.
    + eapply Forall_impl; [exact Hhere|]. cbn. intros slot Hw.
      exists period. split; [now left|assumption].
    + eapply Forall_impl; [exact Hthere|]. cbn. intros slot (q & Hq & Hw).
      exists q. split; [now right|assumption].
Qed.

Lemma forEachPeriod_wellFormed (periods : list Slot) :
  Forall periodWellFormed periods ->
  exists l, forEachPeriod periods = Some l /\ Forall slotWellFormed l.
Proof.
  intros H. destruct (forEachPeriod_within _ H) as (l & Hl & Hw).
  exists l. split; [assumption|].
  eapply Forall_impl; [exact Hw|]. cbn. intros slot (q & _ & Hq & _). exact Hq.
Qed.

Lemma findProvider_Some (providerId : string) (ps : list Provider) (p : Provider) :
  findProvider providerId ps = Some p -> In p ps /\ p_id p = providerId.
Proof.
  unfold findProvider. intros H. apply find_some in H as [Hin Heq].
  split; [assumption|]. now apply String.eqb_eq.
Qed.

(** On well-formed working hours the slot computation returns, and every
    slot it offers is a half-hour between two [HH:mm] times. *)
Lemma generateAvailableSlots_wellFormed (weekdayKey : string -> string)
  (st : State) (providerId date_ : string) :
  hoursWellFormed (mockProviders st) ->
  exists l, generateAvailableSlots weekdayKey st providerId date_ = Some l
            /\ Forall slotWellFormed l.
Proof.
  intros Hwf. unfold generateAvailableSlots.
  destruct (findProvider providerId (mockProviders st)) as [p|] eqn:Hp;
    [|exists []; split; [reflexivity|constructor]].
  apply findProvider_Some in Hp as [Hin _].
  destruct (workingHours p !! weekdayKey date_) as [hours|] eqn:Hday;
    [|exists []; split; [reflexivity|constructor]].
  destruct (isOpen hours); cbn [negb];
    [|exists []; split; [reflexivity|constructor]].
  unfold hoursWellFormed in Hwf. rewrite List.Forall_forall in Hwf.
  specialize (Hwf p Hin _ _ Hday).
  destruct (forEachPeriod_wellFormed _ Hwf) as (l & -> & Hl).
  eexists. split; [reflexivity|].
  rewrite List.Forall_forall in *. intros slot Hs. apply filter_In in Hs as [Hs _]. auto.
Qed.

Lemma week_Forall (P : WorkingDay -> Prop) (d0 d1 d2 d3 d4 d5 d6 : WorkingDay) :
  P d0 -> P d1 -> P d2 -> P d3 -> P d4 -> P d5 -> P d6 ->
  map_Forall (fun (_ : string) (day : WorkingDay) => P day) (week d0 d1 d2 d3 d4 d5 d6).
Proof.
  intros. unfold week.
  repeat (apply map_Forall_insert_2; [assumption|]). apply map_Forall_empty.
Qed.

Lemma initialProviders_wellFormed : hoursWellFormed initialProviders.
Proof.
  unfold hoursWellFormed, initialProviders.
  repeat constructor; cbn [workingHours];
    apply week_Forall; repeat constructor.
Qed.

Lemma setRating_wellFormed (ps : list Provider) (i : nat) (p : Provider) (q : JS.double) (n : Z) :
  hoursWellFormed ps -> ps !! i = Some p -> hoursWellFormed (<[i := setRating p q n]> ps).
Proof.
  unfold hoursWellFormed. intros Hps Hi.
  apply Forall_insert; [assumption|]. cbn [setRating workingHours].
  exact (Forall_lookup_1 _ _ _ _ Hps Hi).
Qed.

Lemma recompute_wellFormed (providerId : string) (setCount : bool)
  (ps : list Provider) (rs : list Review) :
  hoursWellFormed ps -> hoursWellFormed (recompute providerId setCount ps rs).
Proof.
  intros H. unfold recompute.
  repeat case_match; try assumption; now apply setRating_wellFormed.
Qed.

Lemma postBooking_providers (weekdayKey : string -> string) (st st' : State)
  (data : BookingData) (now1 now2 : string) (r : Response (Booking * Service)) :
  postBooking weekdayKey st data now1 now2 = Some (st', r) ->
  mockProviders st' = mockProviders st /\ mockServices st' = mockServices st
  /\ mockReviews st' = mockReviews st.
Proof.
  unfold postBooking. intros H. repeat case_match; simplify_eq; auto.
Qed.

Lemma handle_wellFormed (weekdayKey : string -> string) (st st' : State) (ev : Event) :
  handle weekdayKey st ev = Some st' ->
  hoursWellFormed (mockProviders st) -> hoursWellFormed (mockProviders st').
Proof.
  intros H Hwf. destruct ev; cbn [handle] in H.
  - destruct (postBooking weekdayKey st data now1 now2) as [[st1 r]|] eqn:E;
      [|discriminate]. simplify_eq.
    apply postBooking_providers in E as (-> & _). assumption.
  - simplify_eq. unfold putBooking. repeat case_match; assumption.
  - simplify_eq. unfold deleteBooking. repeat case_match; assumption.
  - destruct (getAvailability _ _ _ _); simplify_eq. assumption.
  - simplify_eq. unfold postReview. repeat case_match; try assumption;
      cbn [fst withReviews mockProviders]; now apply recompute_wellFormed.
  - simplify_eq. unfold putReview. repeat case_match; try assumption;
      cbn [fst withReviews mockProviders]; now apply recompute_wellFormed.
  - simplify_eq. unfold deleteReview. repeat case_match; try assumption;
      cbn [fst withReviews mockProviders]; try assumption;
      now apply setRating_wellFormed.
Qed.

Lemma reachable_wellFormed (allowed : Event -> Prop) (weekdayKey : string -> string)
  (c : Clock) (st : State) :
  reachableBy allowed weekdayKey c st -> hoursWellFormed (mockProviders st).
Proof.
  induction 1 as [|st ev st' _ IH _ Hstep].
  - apply initialProviders_wellFormed.
  - eapply handle_wellFormed; eauto.
Qed.

Lemma run_reachable (allowed : Event -> Prop) (weekdayKey : string -> string)
  (c : Clock) (evs : list Event) :
  forall st st', reachableBy allowed weekdayKey c st ->
                 Forall allowed evs ->
                 run weekdayKey st evs = Some st' ->
                 reachableBy allowed weekdayKey c st'.
Proof.
  induction evs as [|ev evs IH]; intros st st' Hst Hall Hrun; cbn [run] in Hrun.
  - now simplify_eq.
  - destruct (handle weekdayKey st ev) as [st1|] eqn:Hev; [|discriminate].
    inversion Hall; subst. apply (IH st1 st'); [|assumption|assumption].
    now apply (reachable_step allowed weekdayKey c st ev st1).
Qed.

(** C10. In every reachable state, every start and end time the slot
    generator emits is a zero-padded five-character [HH:mm] string; on such
    strings the lexicographic order the filter compares with is the order of
    the encoded minutes of the day, so the conflict test of the filter is the
    same test on minutes. *)
Theorem slot_times_embed_in_minutes (weekdayKey : string -> string) (c : Clock)
  (st : State) (providerId date_ : string) :
  reachable weekdayKey c st ->
  (exists l, generateAvailableSlots weekdayKey st providerId date_ = Some l
             /\ forall slot, In slot l ->
                  isHHmm (start slot) = true /\ String.length (start slot) = 5%nat
                  /\ isHHmm (end_ slot) = true /\ String.length (end_ slot) = 5%nat)
  /\ (forall s1 s2 : string,
        isHHmm s1 = true -> isHHmm s2 = true ->
        String.ltb s1 s2 = (minutesOf s1 <? minutesOf s2)
        /\ String.leb s1 s2 = (minutesOf s1 <=? minutesOf s2)
        /\ (s1 = s2 <-> minutesOf s1 = minutesOf s2))
  /\ (forall (slot : Slot) (booking : Booking),
        isHHmm (start slot) = true -> isHHmm (end_ slot) = true ->
        isHHmm (startTime booking) = true -> isHHmm (endTime booking) = true ->
        conflicts slot booking
        = conflictsMinutes (minutesOf (start slot)) (minutesOf (end_ slot))
            (minutesOf (startTime booking)) (minutesOf (endTime booking))).
Proof.
  intros Hreach. split; [|split].
  - apply reachable_wellFormed in Hreach.
    destruct (generateAvailableSlots_wellFormed weekdayKey st providerId date_ Hreach)
      as (l & Hl & Hall).
    exists l. split; [assumption|]. intros slot Hin.
    rewrite List.Forall_forall in Hall. destruct (Hall slot Hin) as (Hs & He & _).
    assert (Hlen : forall s, isHHmm s = true -> String.length s = 5%nat).
    { intros s. destruct s as [|a [|b [|x [|d [|e [|]]]]]]; try discriminate. reflexivity. }
    auto.
  - intros s1 s2 H1 H2. split; [now apply hhmm_ltb|]. split; [now apply hhmm_leb|].
    split; [now intros ->|]. intros Heq.
    destruct (isHHmm_timeOfMinute _ H1) as [_ E1].
    destruct (isHHmm_timeOfMinute _ H2) as [_ E2]. congruence.
  - intros. now apply hhmm_conflicts.
Qed.

(** ** Array search *)

Lemma findIndex_Some {A : Type} (pred : A -> bool) (l : list A) :
  forall i, findIndex pred l = Some i ->
            exists x, l !! i = Some x /\ pred x = true
                      /\ forall j y, (j < i)%nat -> l !! j = Some y -> pred y = false.
Proof.
  induction l as [|a l IH]; intros i H; cbn [findIndex] in H; [discriminate|].
  destruct (pred a) eqn:Ha.
  - simplify_eq. exists a. repeat split; [assumption|]. intros j y Hj. lia.
  - destruct (findIndex pred l) as [k|] eqn:Hk; [|discriminate]. cbn in H. simplify_eq.
    destruct (IH k eq_refl) as (x & Hx & Hpx & Hbefore).
    exists x. repeat split; [assumption..|].
    intros [|j] y Hj Hy; cbn in Hy; [now simplify_eq|].
    apply (Hbefore j y); [lia|assumption].
Qed.

Lemma findIndex_find {A : Type} (pred : A -> bool) (l : list A) (i : nat) (x : A) :
  findIndex pred l = Some i -> l !! i = Some x -> List.find pred l = Some x.
Proof.
  revert i. induction l as [|a l IH]; intros i H Hx; cbn [findIndex] in H; [discriminate|].
  cbn [List.find]. destruct (pred a) eqn:Ha.
  - simplify_eq. cbn in Hx. congruence.
  - destruct (findIndex pred l) as [k|] eqn:Hk; [|discriminate]. cbn in H. simplify_eq.
    cbn in Hx. eauto.
Qed.

Lemma findIndex_None_find {A : Type} (pred : A -> bool) (l : list A) :
  findIndex pred l = None -> List.find pred l = None.
Proof.
  induction l as [|a l IH]; cbn [findIndex List.find]; [reflexivity|].
  destruct (pred a); [discriminate|].
  destruct (findIndex pred l); [discriminate|]. auto.
Qed.

Lemma find_findIndex {A : Type} (pred : A -> bool) (l : list A) (x : A) :
  List.find pred l = Some x -> exists i, findIndex pred l = Some i /\ l !! i = Some x.
Proof.
  induction l as [|a l IH]; cbn [findIndex List.find]; [discriminate|].
  destruct (pred a).
  - intros [= ->]. exists 0%nat. auto.
  - intros H. destruct (IH H) as (i & -> & Hi). exists (S i). auto.
Qed.

(** Writing at the found index an element that still satisfies the
    predicate leaves it the first match. *)
Lemma find_insert_found {A : Type} (pred : A -> bool) (l : list A) (i : nat) (x x' : A) :
  findIndex pred l = Some i -> l !! i = Some x -> pred x' = true ->
  List.find pred (<[i := x']> l) = Some x'.
Proof.
  revert i. induction l as [|a l IH]; intros i H Hx Hp; cbn [findIndex] in H; [discriminate|].
  destruct (pred a) eqn:Ha.
  - simplify_eq. cbn. now rewrite Hp.
  - destruct (findIndex pred l) as [k|] eqn:Hk; [|discriminate]. cbn in H. simplify_eq.
    cbn. rewrite Ha. cbn in Hx. eauto.
Qed.

(** ** C9: cancellation *)

(** C9. Cancelling an existing booking (the one [findIndex] finds for the
    id) succeeds, keeps the ledger's length, replaces that record by a record
    that differs from it only in [status] (now cancelled) and [updatedAt],
    and leaves every other booking, and the other arrays, unchanged. *)
Theorem cancellation_only_marks_the_booking (st : State) (id now : string)
  (i : nat) (b : Booking) :
  findIndex (fun b => String.eqb (b_id b) id) (mockBookings st) = Some i ->
  mockBookings st !! i = Some b ->
  exists (st' : State) (b' : Booking),
    deleteBooking st id now = (st', Json 200 "Booking cancelled successfully"%string)
    /\ length (mockBookings st') = length (mockBookings st)
    /\ mockBookings st' !! i = Some b'
    /\ status b' = cancelled /\ b_updatedAt b' = now
    /\ b_id b' = b_id b /\ b_customerId b' = b_customerId b
    /\ b_providerId b' = b_providerId b /\ b_serviceId b' = b_serviceId b
    /\ date b' = date b /\ startTime b' = startTime b /\ endTime b' = endTime b
    /\ totalPrice b' = totalPrice b /\ currency b' = currency b
    /\ notes b' = notes b /\ b_createdAt b' = b_createdAt b
    /\ (forall j : nat, j <> i -> mockBookings st' !! j = mockBookings st !! j)
    /\ mockProviders st' = mockProviders st /\ mockServices st' = mockServices st
    /\ mockReviews st' = mockReviews st.
Proof.
  intros Hfind Hb. unfold deleteBooking. rewrite Hfind, Hb.
  eexists _, (cancel now b). split; [reflexivity|].
  cbn [withBookings mockBookings mockProviders mockServices mockReviews].
  split; [apply length_insert|].
  split; [apply list_lookup_insert_eq; now apply lookup_lt_Some with b|].
  repeat (split; [reflexivity|]).
  split; [|auto]. intros j Hj. now apply list_lookup_insert_ne.
Qed.

Lemma cancellation_only_marks_the_booking_witness :
  exists (st' : State) (b' : Booking),
    deleteBooking demoState "2" "2024-01-10T09:00:00.000Z"
    = (st', Json 200 "Booking cancelled successfully"%string)
    /\ length (mockBookings st') = 5%nat
    /\ mockBookings st' !! 1%nat = Some b'
    /\ status b' = cancelled /\ startTime b' = "14:00"%string.
Proof.
  destruct (cancellation_only_marks_the_booking demoState "2"
              "2024-01-10T09:00:00.000Z" 1
              secondBooking eq_refl eq_refl)
    as (st' & b' & H1 & H2 & H3 & H4 & _ & _ & _ & _ & _ & _ & H5 & _).
  exists st', b'. repeat split; assumption.
Defined.

(** ** C5: status updates *)

(** The stated transition table is not enforced: on the mock data, booking
    ["1"] is completed, a PUT asking for [pending] is answered 200 and the
    stored status becomes [pending]. *)
Lemma completed_booking_reopened :
  status <$> (mockBookings demoState !! 0%nat) = Some completed
  /\ exists b',
       putBooking demoState "1" (statusPatch pending) "2024-01-10T09:00:00.000Z"
       = (withBookings demoState (<[0%nat := b']> (mockBookings demoState)), Json 200 b')
       /\ status b' = pending.
Proof.
  split; [reflexivity|]. eexists. split; reflexivity.
Qed.

(** C5, as the code has it. For every existing booking and every requested
    status, the update is answered 200 and the stored booking carries the
    requested status, whatever the status it had; the update fails only for
    an unknown id (404). *)
Theorem update_sets_any_status (st : State) (id now : string) (data : BookingPatch)
  (i : nat) (b : Booking) (s : Status) :
  findIndex (fun b => String.eqb (b_id b) id) (mockBookings st) = Some i ->
  mockBookings st !! i = Some b ->
  u_status data = Some s ->
  (exists (st' : State) (b' : Booking),
      putBooking st id data now = (st', Json 200 b')
      /\ mockBookings st' !! i = Some b'
      /\ status b' = s)
  /\ (forall (st1 : State) (id1 now1 : string) (data1 : BookingPatch) (code : Z)
             (message : string),
         snd (putBooking st1 id1 data1 now1) = Failure code message ->
         code = 404
         /\ findIndex (fun b => String.eqb (b_id b) id1) (mockBookings st1) = None
         /\ fst (putBooking st1 id1 data1 now1) = st1).
Proof.
  intros Hfind Hb Hs. split.
  - unfold putBooking. rewrite Hfind, Hb.
    eexists _, (applyPatch b data now). split; [reflexivity|].
    cbn [withBookings mockBookings]. split.
    + apply list_lookup_insert_eq. now apply lookup_lt_Some with b.
    + cbn [applyPatch status]. now rewrite Hs.
  - intros st1 id1 now1 data1 code message. unfold putBooking.
    destruct (findIndex _ (mockBookings st1)) as [k|] eqn:Hk.
    + destruct (findIndex_Some _ _ _ Hk) as (x & -> & _). discriminate.
    + cbn. intros [= <- <-]. auto.
Qed.

Lemma update_sets_any_status_witness :
  exists (st' : State) (b' : Booking),
    putBooking demoState "2" (statusPatch completed) "2024-01-10T09:00:00.000Z"
    = (st', Json 200 b')
    /\ mockBookings st' !! 1%nat = Some b'
    /\ status b' = completed.
Proof.
  exact (proj1 (update_sets_any_status demoState "2" "2024-01-10T09:00:00.000Z"
                  (statusPatch completed) 1 secondBooking completed
                  eq_refl eq_refl eq_refl)).
Defined.

(** ** C6: availability of an unknown provider *)

(** An unknown provider is not an error: the query for provider ["999"] on
    the mock data is answered 200 with an empty slot list. *)
Lemma unknown_provider_is_empty_success :
  findProvider "999" (mockProviders demoState) = None
  /\ getAvailability Calendar.weekdayKey demoState (Some "999"%string)
       (Some "2024-01-15"%string)
     = Some (Json 200 ("999"%string, "2024-01-15"%string, [])).
Proof. split; reflexivity. Qed.

(** C6, as the code has it. A query with both parameters present whose
    provider id matches no stored provider succeeds with an empty slot list;
    the only error answer of the availability handler is the 400 for a
    missing parameter; on the working hours of every reachable state the
    handler returns; and it changes no state. *)
Theorem availability_of_unknown_provider (weekdayKey : string -> string)
  (st : State) (providerId date_ : option string) :
  JS.truthy providerId = true ->
  JS.truthy date_ = true ->
  findProvider (text providerId) (mockProviders st) = None ->
  getAvailability weekdayKey st providerId date_
  = Some (Json 200 (text providerId, text date_, []))
  /\ (forall (st1 : State) (p d : option string) (code : Z) (message : string),
         getAvailability weekdayKey st1 p d = Some (Failure code message) ->
         code = 400 /\ (JS.truthy p = false \/ JS.truthy d = false))
  /\ (forall (c : Clock) (st1 : State) (p d : option string),
         reachable weekdayKey c st1 ->
         exists r, getAvailability weekdayKey st1 p d = Some r)
  /\ (forall (st1 st2 : State) (p d : option string),
         handle weekdayKey st1 (GetAvailability p d) = Some st2 -> st2 = st1).
Proof.
  intros Hp Hd Hnone. split; [|split; [|split]].
  - unfold getAvailability, generateAvailableSlots. now rewrite Hp, Hd, Hnone.
  - intros st1 p d code message. unfold getAvailability.
    destruct (JS.truthy p), (JS.truthy d); cbn [negb orb];
      try (intros [= <- <-]; auto).
    destruct (generateAvailableSlots _ _ _ _); discriminate.
  - intros c st1 p d Hreach. unfold getAvailability.
    destruct (negb (JS.truthy p) || negb (JS.truthy d)); [eauto|].
    apply reachable_wellFormed in Hreach.
    destruct (generateAvailableSlots_wellFormed weekdayKey st1 (text p) (text d) Hreach)
      as (l & -> & _). eauto.
  - intros st1 st2 p d. cbn [handle].
    destruct (getAvailability _ _ _ _); [now intros [= <-]|discriminate].
Qed.

Lemma availability_of_unknown_provider_witness :
  getAvailability Calendar.weekdayKey demoState (Some "42"%string)
    (Some "2024-01-15"%string)
  = Some (Json 200 ("42"%string, "2024-01-15"%string, [])).
Proof.
  exact (proj1 (availability_of_unknown_provider Calendar.weekdayKey demoState
                  (Some "42"%string) (Some "2024-01-15"%string)
                  eq_refl eq_refl eq_refl)).
Defined.

(** ** C2: what the availability filter excludes *)

(** No offered slot conflicts with an occupying booking of the provider and
    date. *)
Lemma offered_slot_no_conflict (weekdayKey : string -> string) (st : State)
  (providerId date_ : string) (l : list Slot) (slot : Slot) (b : Booking) :
  generateAvailableSlots weekdayKey st providerId date_ = Some l ->
  In slot l -> In b (mockBookings st) -> occupies providerId date_ b = true ->
  conflicts slot b = false.
Proof.
  unfold generateAvailableSlots. intros H Hslot Hb Hocc.
  repeat case_match; simplify_eq; try contradiction.
  apply filter_In in Hslot as [_ Hfree]. apply negb_true_iff in Hfree.
  destruct (conflicts slot b) eqn:Hc; [|reflexivity].
  assert (Hex : existsb (conflicts slot)
                  (List.filter (occupies providerId date_) (mockBookings st)) = true).
  { apply existsb_exists. exists b. split; [|assumption]. now apply filter_In. }
  congruence.
Qed.

(** The service duration is not consulted.  In the specification's scenario
    (open 09:00-10:00, one 45-minute service) the candidate 09:30 is offered,
    and booking it is accepted with an end time of 10:15, after closing.  On
    the mock data, provider 1 closes at 17:00 on Mondays, 16:30 is offered,
    and the 90-minute service 3 is booked at 16:30, to end at 18:00. *)
Lemma short_day_offers_0930 :
  (generateAvailableSlots Calendar.weekdayKey shortDayState "1" "2024-01-15"
   = Some [ {| start := "09:00"; end_ := "09:30" |};
            {| start := "09:30"; end_ := "10:00" |} ]
   /\ exists st' b svc,
        postBooking Calendar.weekdayKey shortDayState (request "11" "09:30")
          "2024-01-10T09:00:00.000Z" "2024-01-10T09:00:00.000Z"
        = Some (st', Json 201 (b, svc))
        /\ duration svc = 45 /\ startTime b = "09:30"%string
        /\ endTime b = "10:15"%string)
  /\ (exists l,
        generateAvailableSlots Calendar.weekdayKey demoState "1" "2024-01-15" = Some l
        /\ last l = Some {| start := "16:30"; end_ := "17:00" |})
  /\ (exists st' b svc,
        postBooking Calendar.weekdayKey demoState (request "3" "16:30")
          "2024-01-10T09:00:00.000Z" "2024-01-10T09:00:00.000Z"
        = Some (st', Json 201 (b, svc))
        /\ duration svc = 90 /\ startTime b = "16:30"%string
        /\ endTime b = "18:00"%string).
Proof.
  split; [split|split].
  - vm_compute. reflexivity.
  - eexists _, _, _. split; [vm_compute; reflexivity|]. repeat split.
  - eexists. split; [vm_compute; reflexivity|]. reflexivity.
  - eexists _, _, _. split; [vm_compute; reflexivity|]. repeat split.
Qed.

(** C2, as the code has it. The computation takes a provider and a date, no
    service.  On an open day it offers exactly the half-hour candidates of
    the day's periods that the conflict test matches against no occupying
    booking of the provider and date; the answer does not depend on the
    service catalogue; on well-formed hours each candidate [[start, start +
    30)] lies inside one of the day's periods, so it ends by that period's
    close.  With the open interval 09:00-10:00 both 09:00 and 09:30 are
    offered, a 45-minute service being the only one in the catalogue. *)
Theorem availability_ignores_service_duration :
  (forall (weekdayKey : string -> string) (st : State) (providerId date_ : string)
          (p : Provider) (hours : WorkingDay) (candidates : list Slot),
      findProvider providerId (mockProviders st) = Some p ->
      workingHours p !! weekdayKey date_ = Some hours ->
      isOpen hours = true ->
      forEachPeriod (slots hours) = Some candidates ->
      exists l,
        generateAvailableSlots weekdayKey st providerId date_ = Some l
        /\ (forall slot,
               In slot l <->
               In slot candidates
               /\ forall b, In b (mockBookings st) ->
                            occupies providerId date_ b = true ->
                            conflicts slot b = false)
        /\ (forall services_ : list Service,
               generateAvailableSlots weekdayKey (withServices st services_)
                 providerId date_
               = Some l)
        /\ (Forall periodWellFormed (slots hours) ->
            forall slot, In slot candidates ->
              exists period, In period (slots hours)
                /\ minutesOf (end_ slot) = minutesOf (start slot) + 30
                /\ minutesOf (start period) <= minutesOf (start slot)
                /\ minutesOf (end_ slot) <= minutesOf (end_ period)))
  /\ (List.map duration (mockServices shortDayState) = [45]
      /\ generateAvailableSlots Calendar.weekdayKey shortDayState "1" "2024-01-15"
         = Some [ {| start := "09:00"; end_ := "09:30" |};
                  {| start := "09:30"; end_ := "10:00" |} ]).
Proof.
  split; [|split; [reflexivity|vm_compute; reflexivity]].
  intros weekdayKey st providerId date_ p hours candidates Hp Hday Hopen Hcands.
  assert (Hgen : forall s, mockProviders s = mockProviders st ->
             mockBookings s = mockBookings st ->
             generateAvailableSlots weekdayKey s providerId date_
             = Some (List.filter
                       (fun slot => negb (existsb (conflicts slot)
                          (List.filter (occupies providerId date_) (mockBookings st))))
                       candidates)).
  { intros s Hps Hbs. unfold generateAvailableSlots.
    now rewrite Hps, Hbs, Hp, Hday, Hopen, Hcands. }
  eexists. split; [apply Hgen; reflexivity|]. split; [|split].
  - intros slot. rewrite filter_In, negb_true_iff. split.
    + intros [Hin Hfree]. split; [assumption|]. intros b Hb Hocc.
      destruct (conflicts slot b) eqn:Hc; [|reflexivity].
      assert (existsb (conflicts slot)
                (List.filter (occupies providerId date_) (mockBookings st)) = true);
        [|congruence].
      apply existsb_exists. exists b. split; [|assumption]. now apply filter_In.
    + intros [Hin Hfree]. split; [assumption|].
      destruct (existsb _ _) eqn:Hex; [|reflexivity].
      apply existsb_exists in Hex as (b & Hb & Hc).
      apply filter_In in Hb as [Hb Hocc]. rewrite (Hfree b Hb Hocc) in Hc. discriminate.
  - intros services_. apply Hgen; reflexivity.
  - intros Hwf slot Hin.
    destruct (forEachPeriod_within _ Hwf) as (l' & Hl' & Hall).
    rewrite Hcands in Hl'. simplify_eq.
    rewrite List.Forall_forall in Hall.
    destruct (Hall slot Hin) as (period & Hper & (_ & _ & Hlen) & Hlo & Hhi).
    exists period. auto.
Qed.

Lemma availability_ignores_service_duration_witness :
  exists l,
    generateAvailableSlots Calendar.weekdayKey demoState "1" "2024-01-15" = Some l
    /\ (In {| start := "16:30"; end_ := "17:00" |} l <->
        In {| start := "16:30"; end_ := "17:00" |}
           (List.map (slotFrom 540) (List.seq 0 16))
        /\ forall b, In b (mockBookings demoState) ->
                     occupies "1" "2024-01-15" b = true ->
                     conflicts {| start := "16:30"; end_ := "17:00" |} b = false).
Proof.
  assert (Hp : findProvider "1" (mockProviders demoState)
               = Some (default shortDayProvider (mockProviders demoState !! 0%nat)))
    by reflexivity.
  assert (Hc : forEachPeriod (slots (openDay "09:00" "17:00"))
               = Some (List.map (slotFrom 540) (List.seq 0 16)))
    by (vm_compute; reflexivity).
  destruct (proj1 availability_ignores_service_duration Calendar.weekdayKey demoState
              "1" "2024-01-15" _ (openDay "09:00" "17:00") _ Hp eq_refl eq_refl Hc)
    as (l & Hl & Hiff & _).
  exists l. split; [exact Hl|]. apply Hiff.
Defined.

(** ** C1: the ledger invariant *)

Lemma postBooking_inv (weekdayKey : string -> string) (st st' : State)
  (data : BookingData) (now1 now2 : string) (r : Response (Booking * Service)) :
  postBooking weekdayKey st data now1 now2 = Some (st', r) ->
  (st' = st /\ exists code message, r = Failure code message)
  \/ exists (b : Booking) (svc : Service) (avail : list Slot),
       st' = withBookings st (mockBookings st ++ [b])
       /\ r = Json 201 (b, svc)
       /\ List.find (fun s => String.eqb (s_id s) (text (d_serviceId data)))
                    (mockServices st) = Some svc
       /\ generateAvailableSlots weekdayKey st (b_providerId b) (date b) = Some avail
       /\ existsb (fun slot => String.eqb (start slot) (startTime b)) avail = true
       /\ startTime b = text (d_startTime data)
       /\ status b = pending
       /\ totalPrice b = price svc /\ currency b = s_currency svc
       /\ endTime b = computeEndTime (startTime b) (duration svc).
Proof.
  unfold postBooking. intros H.
  destruct (negb _ || _ || _ || _ || _); [simplify_eq; left; eauto|].
  destruct (List.find _ (mockServices st)) as [svc|] eqn:Hsvc;
    [|simplify_eq; left; eauto].
  destruct (generateAvailableSlots _ _ _ _) as [avail|] eqn:Havail; [|discriminate].
  destruct (existsb _ avail) eqn:Hex; cbn [negb] in H; [|simplify_eq; left; eauto].
  simplify_eq. right. eexists _, svc, avail. cbn.
  repeat split; assumption.
Qed.

Lemma deleteBooking_bookings (st : State) (id now : string) :
  mockBookings (fst (deleteBooking st id now)) = mockBookings st
  \/ exists i b, mockBookings st !! i = Some b
       /\ mockBookings (fst (deleteBooking st id now))
          = <[i := cancel now b]> (mockBookings st).
Proof.
  unfold deleteBooking. repeat case_match; cbn; eauto.
Qed.

Lemma postReview_bookings (st : State) (data : ReviewData) (now1 now2 : string) :
  mockBookings (fst (postReview st data now1 now2)) = mockBookings st
  /\ mockServices (fst (postReview st data now1 now2)) = mockServices st.
Proof. unfold postReview. repeat case_match; cbn; auto. Qed.

Lemma putReview_bookings (st : State) (id : string) (data : ReviewPatch) (now : string) :
  mockBookings (fst (putReview st id data now)) = mockBookings st
  /\ mockServices (fst (putReview st id data now)) = mockServices st.
Proof. unfold putReview. repeat case_match; cbn; auto. Qed.

Lemma deleteReview_bookings (st : State) (id : string) :
  mockBookings (fst (deleteReview st id)) = mockBookings st
  /\ mockServices (fst (deleteReview st id)) = mockServices st.
Proof. unfold deleteReview. repeat case_match; cbn; auto. Qed.









(** ** C7: the created booking *)

Lemma putBooking_bookings (st : State) (id : string) (data : BookingPatch) (now : string) :
  mockBookings (fst (putBooking st id data now)) = mockBookings st
  \/ exists i b, mockBookings st !! i = Some b
       /\ mockBookings (fst (putBooking st id data now))
          = <[i := applyPatch b data now]> (mockBookings st).
Proof.
  unfold putBooking. repeat case_match; cbn; eauto.
Qed.



Lemma computeEndTime_minutes (t d : Z) :
  0 <= t < 1440 ->
  computeEndTime (timeOfMinute t) d = timeOfMinute ((t + d) mod 1440).
Proof.
  intros Ht. unfold computeEndTime.
  destruct (timeOfMinute_facts t Ht) as (_ & _ & _ & ->).
  rewrite <- Z.div_mod by lia. reflexivity.
Qed.



(** ** C8: reviews and the provider's rating *)


Lemma totalRating_sum (rs : list Review) :
  totalRating rs = fold_right Z.add 0 (List.map r_rating rs).
Proof.
  unfold totalRating.
  assert (H : forall acc, fold_left (fun sum review => sum + r_rating review) rs acc
                          = acc + fold_right Z.add 0 (List.map r_rating rs)).
  { induction rs as [|r rs IH]; intros acc; cbn [fold_left fold_right List.map]; [lia|].
    rewrite IH. lia. }
  now rewrite H.
Qed.

(** The quotient the handlers compute is the mean of the ratings. *)
Lemma meanRating_spec (rs : list Review) :
  meanRating rs = meanOfRatings (List.map r_rating rs).
Proof.
  unfold meanRating, meanOfRatings, JS.divide, JS.ofInt.
  now rewrite totalRating_sum, length_map.
Qed.

(** The mean of 5, 4 and 4 as the handlers store it: 4.333333333333333, the
    double [4878899596318037 * 2^-50]. *)
Example meanOfRatings_thirds :
  meanOfRatings [5; 4; 4] = S754_finite false 4878899596318037 (-50)
  /\ meanOfRatings [5; 4] = S754_finite false 5066549580791808 (-50)
  /\ meanOfRatings [] = S754_nan.
Proof. repeat split. Qed.


(** ** Instances on the sample inputs *)

Lemma slot_times_embed_in_minutes_witness :
  exists l,
    generateAvailableSlots Calendar.weekdayKey bookedState "1" "2024-01-15" = Some l
    /\ forall slot, In slot l ->
         isHHmm (start slot) = true /\ String.length (start slot) = 5%nat
         /\ isHHmm (end_ slot) = true /\ String.length (end_ slot) = 5%nat.
Proof.
  apply (slot_times_embed_in_minutes Calendar.weekdayKey demoClock bookedState).
  apply (reachable_step _ _ _ demoState
           (PostBooking (request "1" "10:00") "2024-01-10T09:00:00.000Z"
              "2024-01-10T09:00:00.000Z"));
    [apply reachable_init|exact I|vm_compute; reflexivity].
Defined.



(** * Further properties of the handlers *)

(** ** Failures change nothing *)

(** X1. A handler that answers with an error leaves the four arrays as they
    were, and the error status is 400 or 404: creating a booking or a review
    (400, 404), updating or cancelling a booking and editing or deleting a
    review (404 only). *)
Theorem failures_change_nothing :
  (forall (weekdayKey : string -> string) (st st' : State) (data : BookingData)
          (now1 now2 : string) (code : Z) (message : string),
      postBooking weekdayKey st data now1 now2 = Some (st', Failure code message) ->
      st' = st /\ (code = 400 \/ code = 404))
  /\ (forall (st st' : State) (id now : string) (data : BookingPatch) (code : Z)
             (message : string),
        putBooking st id data now = (st', Failure code message) ->
        st' = st /\ code = 404)
  /\ (forall (st st' : State) (id now : string) (code : Z) (message : string),
        deleteBooking st id now = (st', Failure code message) ->
        st' = st /\ code = 404)
  /\ (forall (st st' : State) (data : ReviewData) (now1 now2 : string) (code : Z)
             (message : string),
        postReview st data now1 now2 = (st', Failure code message) ->
        st' = st /\ (code = 400 \/ code = 404))
  /\ (forall (st st' : State) (id now : string) (data : ReviewPatch) (code : Z)
             (message : string),
        putReview st id data now = (st', Failure code message) ->
        st' = st /\ code = 404)
  /\ (forall (st st' : State) (id : string) (code : Z) (message : string),
        deleteReview st id = (st', Failure code message) ->
        st' = st /\ code = 404).
Proof.
  repeat split.
  all: try (match goal with H : _ = _ |- _ => revert H end).
  all: try (unfold postBooking, putBooking, deleteBooking, postReview, putReview,
             deleteReview; intros H; repeat case_match; simplify_eq; auto; fail).
Qed.

Lemma failures_change_nothing_witness :
  fst (postReview demoState (reviewOf "5" "1" "2" 4)
         "2024-01-10T09:00:00.000Z" "2024-01-10T09:00:00.000Z") = demoState
  /\ fst (putBooking demoState "77" emptyPatch "2024-01-10T09:00:00.000Z") = demoState.
Proof.
  split.
  - assert (H : postReview demoState (reviewOf "5" "1" "2" 4)
                  "2024-01-10T09:00:00.000Z" "2024-01-10T09:00:00.000Z"
                = (demoState, Failure 400 "Can only review completed bookings"))
      by reflexivity.
    rewrite H. exact (proj1 (proj1 (proj2 (proj2 (proj2 failures_change_nothing)))
                               _ _ _ _ _ _ _ H)).
  - assert (H : putBooking demoState "77" emptyPatch "2024-01-10T09:00:00.000Z"
                = (demoState, Failure 404 "Booking not found")) by reflexivity.
    rewrite H. exact (proj1 (proj1 (proj2 failures_change_nothing) _ _ _ _ _ _ _ H)).
Defined.

(** ** Booking ids *)

Lemma to_int_nonnil (z : Z) : Z.to_int z <> Decimal.Pos Decimal.Nil
                              /\ Z.to_int z <> Decimal.Neg Decimal.Nil.
Proof.
  destruct z as [|p|p]; cbn; split; try discriminate; intros [= H];
    now apply DecimalPos.Unsigned.to_uint_nonnil in H.
Qed.

(** [toString] is injective on numbers. *)
Lemma toString_inj (a b : Z) : JS.toString (Some a) = JS.toString (Some b) -> a = b.
Proof.
  unfold JS.toString. intros H. apply DecimalZ.to_int_inj.
  destruct (to_int_nonnil a) as [Ha1 Ha2]. destruct (to_int_nonnil b) as [Hb1 Hb2].
  pose proof (NilZero.isi _ Ha1 Ha2) as Ea. pose proof (NilZero.isi _ Hb1 Hb2) as Eb.
  rewrite H in Ea. congruence.
Qed.

Lemma findIndex_unique {A : Type} (pred : A -> bool) (l : list A) (i : nat) (x : A) :
  l !! i = Some x -> pred x = true ->
  (forall j y, l !! j = Some y -> pred y = true -> j = i) ->
  findIndex pred l = Some i.
Proof.
  intros Hx Hp Huniq.
  destruct (findIndex pred l) as [j|] eqn:Hj.
  - destruct (findIndex_Some _ _ _ Hj) as (y & Hy & Hpy & _).
    f_equal. eauto.
  - apply findIndex_None_find in Hj.
    eapply find_none in Hj; [|apply list_elem_of_In; eapply list_elem_of_lookup_2; eauto].
    congruence.
Qed.

Lemma idsFollowPositions_initial (c : Clock) : idsFollowPositions (initialState c).
Proof.
  intros i b H. cbn [initialState mockBookings initialBookings] in H.
  destruct i as [|[|[|[|[|i]]]]]; cbn in H; simplify_eq; reflexivity.
Qed.

Lemma handle_idsFollowPositions (weekdayKey : string -> string) (st st' : State)
  (ev : Event) :
  ~ isUpdate ev -> handle weekdayKey st ev = Some st' ->
  idsFollowPositions st -> idsFollowPositions st'.
Proof.
  intros Hev H Hinv. destruct ev; cbn [handle] in H.
  - destruct (postBooking weekdayKey st data now1 now2) as [[st1 r]|] eqn:E;
      [|discriminate]. simplify_eq.
    unfold postBooking in E. repeat case_match; simplify_eq; try assumption;
      (intros i b Hb; cbn [withBookings mockBookings] in Hb;
       apply lookup_app_Some in Hb as [Hb|[Hlen Hb]]; [now apply Hinv|];
       apply list_lookup_singleton_Some in Hb as [Hz <-]; cbn [b_id];
       assert (i = length (mockBookings st)) as -> by lia; reflexivity).
  - exfalso. apply Hev. exact I.
  - simplify_eq.
    destruct (deleteBooking_bookings st id now) as [Hs|(k & b & Hk & Hs)];
      intros i x Hx; rewrite Hs in Hx; [now apply Hinv|].
    apply list_lookup_insert_Some in Hx as [(-> & <- & _)|[_ Hx]];
      [|now apply Hinv].
    cbn [cancel b_id]. now apply Hinv.
  - destruct (getAvailability _ _ _ _); simplify_eq. assumption.
  - simplify_eq. intros i x Hx. rewrite (proj1 (postReview_bookings _ _ _ _)) in Hx.
    now apply Hinv.
  - simplify_eq. intros i x Hx. rewrite (proj1 (putReview_bookings _ _ _ _)) in Hx.
    now apply Hinv.
  - simplify_eq. intros i x Hx. rewrite (proj1 (deleteReview_bookings _ _)) in Hx.
    now apply Hinv.
Qed.

(** X2. In every state reachable without booking updates, the booking at
    position [i] of the ledger has id [i + 1]; so ids are never reused, and a
    search by a booking's id finds exactly that booking. *)
Theorem booking_ids_follow_positions (weekdayKey : string -> string) (c : Clock)
  (st : State) :
  reachableBy (fun ev => ~ isUpdate ev) weekdayKey c st ->
  forall (i : nat) (b : Booking),
    mockBookings st !! i = Some b ->
    b_id b = JS.toString (Some (Z.of_nat i + 1))
    /\ findIndex (fun x => String.eqb (b_id x) (b_id b)) (mockBookings st) = Some i
    /\ forall (j : nat) (b' : Booking),
         mockBookings st !! j = Some b' -> b_id b' = b_id b -> j = i.
Proof.
  intros Hreach.
  assert (Hinv : idsFollowPositions st).
  { induction Hreach as [|st ev st' _ IH Hev Hstep].
    - apply idsFollowPositions_initial.
    - eapply handle_idsFollowPositions; eauto. }
  intros i b Hb.
  assert (Huniq : forall j b', mockBookings st !! j = Some b' -> b_id b' = b_id b -> j = i).
  { intros j b' Hj Heq. rewrite (Hinv _ _ Hj), (Hinv _ _ Hb) in Heq.
    apply toString_inj in Heq. lia. }
  split; [now apply Hinv|]. split; [|exact Huniq].
  apply (findIndex_unique _ _ _ b Hb); [apply String.eqb_refl|].
  intros j y Hj Hy. apply String.eqb_eq in Hy. eauto.
Qed.

Lemma booking_ids_follow_positions_witness :
  b_id secondRequestBooking = JS.toString (Some (Z.of_nat 6 + 1))
  /\ findIndex (fun x => String.eqb (b_id x) (b_id secondRequestBooking))
       (mockBookings doubleBookedState) = Some 6%nat.
Proof.
  assert (Hreach : reachableBy (fun ev => ~ isUpdate ev) Calendar.weekdayKey demoClock
                     doubleBookedState).
  { apply (run_reachable _ _ _ doubleBookingTrace demoState);
      [apply reachable_init| |vm_compute; reflexivity].
    repeat constructor; intros []. }
  destruct (booking_ids_follow_positions Calendar.weekdayKey demoClock
              doubleBookedState Hreach 6%nat secondRequestBooking eq_refl)
    as (H1 & H2 & _).
  split; assumption.
Defined.

(** ** Booking an occupied start *)

Lemma string_leb_refl (s : string) : String.leb s s = true.
Proof. now rewrite string_leb_nlt, string_lt_irrefl. Qed.

(** The times of a booking just created, on well-formed working hours. *)
Lemma created_booking_times (weekdayKey : string -> string) (st st' : State)
  (data : BookingData) (now1 now2 : string) (b : Booking) (svc : Service) :
  postBooking weekdayKey st data now1 now2 = Some (st', Json 201 (b, svc)) ->
  hoursWellFormed (mockProviders st) ->
  isHHmm (startTime b) = true /\ isHHmm (endTime b) = true
  /\ minutesOf (endTime b) = (minutesOf (startTime b) + duration svc) mod 1440.
Proof.
  intros Hpost Hwf.
  destruct (postBooking_inv _ _ _ _ _ _ _ Hpost)
    as [[_ (code & message & Hr)]|(b' & svc' & avail & -> & Hr & Hsvc & Havail & Hex
                                   & Hstart & Hstatus & Hprice & Hcur & Hend)];
    [discriminate Hr|].
  assert (b' = b /\ svc' = svc) as [-> ->] by (inversion Hr; auto). clear Hr.
  destruct (generateAvailableSlots_wellFormed weekdayKey st (b_providerId b) (date b) Hwf)
    as (l & Hl & Hall).
  rewrite Havail in Hl. simplify_eq.
  apply existsb_exists in Hex as (slot & Hslot & Heq). apply String.eqb_eq in Heq.
  rewrite List.Forall_forall in Hall. destruct (Hall slot Hslot) as (Hs & _).
  rewrite Heq in Hs.
  destruct (isHHmm_timeOfMinute _ Hs) as [Hrange Htext].
  remember (minutesOf (startTime b)) as t eqn:Et.
  assert (Hmod : 0 <= (t + duration svc) mod 1440 < 1440)
    by (apply Z.mod_pos_bound; lia).
  destruct (timeOfMinute_facts _ Hmod) as (_ & Hok & Hmin & _).
  assert (Hend' : endTime b = timeOfMinute ((t + duration svc) mod 1440)).
  { rewrite Hend, Htext. now apply computeEndTime_minutes. }
  rewrite Hend', Hok, Hmin. auto.
Qed.

Lemma occupied_start_rejected (weekdayKey : string -> string) (st st' : State)
  (data : BookingData) (now1 now2 : string) (b : Booking)
  (r : Response (Booking * Service)) :
  In b (mockBookings st) ->
  occupies (text (d_providerId data)) (text (d_date data)) b = true ->
  String.leb (startTime b) (text (d_startTime data))
  && String.ltb (text (d_startTime data)) (endTime b) = true ->
  postBooking weekdayKey st data now1 now2 = Some (st', r) ->
  st' = st
  /\ r = (if negb (JS.truthy (d_customerId data)) || negb (JS.truthy (d_providerId data))
             || negb (JS.truthy (d_serviceId data)) || negb (JS.truthy (d_date data))
             || negb (JS.truthy (d_startTime data))
          then Failure 400 "Missing required booking information"
          else match List.find (fun s => String.eqb (s_id s) (text (d_serviceId data)))
                               (mockServices st) with
               | None => Failure 404 "Service not found"
               | Some _ => Failure 400 "Selected time slot is not available"
               end).
Proof.
  intros Hb Hocc Hin Hpost. unfold postBooking in Hpost.
  repeat case_match; simplify_eq; eauto; exfalso.
  all: match goal with
       | H : negb (existsb _ ?l) = false |- _ =>
           apply negb_false_iff, existsb_exists in H as (slot & Hslot & Hstart);
           apply String.eqb_eq in Hstart
       end.
  all: assert (Hc : conflicts slot b = false)
         by (eapply offered_slot_no_conflict; eauto).
  all: unfold conflicts in Hc; rewrite Hstart, Hin in Hc; discriminate Hc.
Qed.

(** X3. A request whose start time lies in the window [[startTime, endTime)]
    (in the string order) of a pending or confirmed booking with the same
    provider id and the same [date] text is never accepted and changes
    nothing: it is answered 400 "Missing required booking information" when
    a required field is absent, else 404 "Service not found" when the service
    is unknown, else 400 "Selected time slot is not available".  When the
    working hours are [HH:mm] texts, the service lasts more than zero minutes
    and the booking ends before midnight, a request that was accepted is
    answered 400 "Selected time slot is not available" when it is sent
    again. *)
Theorem occupied_start_is_rejected :
  (forall (weekdayKey : string -> string) (st st' : State) (data : BookingData)
          (now1 now2 : string) (b : Booking) (r : Response (Booking * Service)),
      In b (mockBookings st) ->
      occupies (text (d_providerId data)) (text (d_date data)) b = true ->
      String.leb (startTime b) (text (d_startTime data))
      && String.ltb (text (d_startTime data)) (endTime b) = true ->
      postBooking weekdayKey st data now1 now2 = Some (st', r) ->
      st' = st
      /\ r = (if negb (JS.truthy (d_customerId data))
                 || negb (JS.truthy (d_providerId data))
                 || negb (JS.truthy (d_serviceId data))
                 || negb (JS.truthy (d_date data))
                 || negb (JS.truthy (d_startTime data))
              then Failure 400 "Missing required booking information"
              else match List.find (fun s => String.eqb (s_id s) (text (d_serviceId data)))
                                   (mockServices st) with
                   | None => Failure 404 "Service not found"
                   | Some _ => Failure 400 "Selected time slot is not available"
                   end))
  /\ (forall (weekdayKey : string -> string) (st st' : State) (data : BookingData)
             (now1 now2 now3 now4 : string) (b : Booking) (svc : Service),
        postBooking weekdayKey st data now1 now2 = Some (st', Json 201 (b, svc)) ->
        hoursWellFormed (mockProviders st) ->
        0 < duration svc ->
        minutesOf (startTime b) + duration svc < 1440 ->
        postBooking weekdayKey st' data now3 now4
        = Some (st', Failure 400 "Selected time slot is not available")).
Proof.
  split; [exact occupied_start_rejected|].
  intros weekdayKey st st' data now1 now2 now3 now4 b svc Hpost Hwf Hdur Hfit.
  destruct (created_booking_times _ _ _ _ _ _ _ _ Hpost Hwf) as (Hs & He & Hmin).
  destruct (postBooking_inv _ _ _ _ _ _ _ Hpost)
    as [[_ (code & message & Hr)]|(b' & svc' & avail & Hst' & Hr & Hsvc & _ & _
                                   & Hstart & Hstatus & _)];
    [discriminate Hr|].
  assert (b' = b /\ svc' = svc) as [-> ->] by (inversion Hr; auto). clear Hr.
  assert (Hprov : b_providerId b = text (d_providerId data)
                  /\ date b = text (d_date data)).
  { unfold postBooking in Hpost. repeat case_match; simplify_eq; auto. }
  destruct Hprov as [Hprov Hdate].
  assert (Hwf' : hoursWellFormed (mockProviders st')) by (now subst st').
  destruct (generateAvailableSlots_wellFormed weekdayKey st'
              (text (d_providerId data)) (text (d_date data)) Hwf') as (l' & Hl' & _).
  assert (Hin : In b (mockBookings st')).
  { subst st'. cbn [withBookings mockBookings]. apply in_or_app. right. now left. }
  assert (Hocc : occupies (text (d_providerId data)) (text (d_date data)) b = true).
  { unfold occupies. rewrite Hprov, Hdate, !String.eqb_refl, Hstatus. reflexivity. }
  assert (Hwin : String.leb (startTime b) (text (d_startTime data))
                 && String.ltb (text (d_startTime data)) (endTime b) = true).
  { rewrite <- Hstart, string_leb_refl, (hhmm_ltb _ _ Hs He), Hmin.
    rewrite Z.mod_small by (destruct (isHHmm_timeOfMinute _ Hs); lia).
    cbn. apply Z.ltb_lt. lia. }
  assert (Hvalid : negb (JS.truthy (d_customerId data))
                   || negb (JS.truthy (d_providerId data))
                   || negb (JS.truthy (d_serviceId data))
                   || negb (JS.truthy (d_date data))
                   || negb (JS.truthy (d_startTime data)) = false).
  { unfold postBooking in Hpost. repeat case_match; simplify_eq; auto. }
  destruct (postBooking weekdayKey st' data now3 now4) as [[st2 r]|] eqn:Hagain.
  - destruct (occupied_start_rejected _ _ _ _ _ _ _ _ Hin Hocc Hwin Hagain)
      as [-> ->].
    assert (Hsvc' : mockServices st' = mockServices st) by (now subst st').
    now rewrite Hvalid, Hsvc', Hsvc.
  - exfalso. unfold postBooking in Hagain. rewrite Hvalid in Hagain.
    assert (Hsvc' : mockServices st' = mockServices st) by (now subst st').
    rewrite Hsvc', Hsvc, Hl' in Hagain.
    match type of Hagain with context [if ?c then _ else _] => destruct c end;
      discriminate.
Qed.

Lemma occupied_start_is_rejected_witness :
  postBooking Calendar.weekdayKey bookedState (request "1" "10:00")
    "2024-01-10T09:10:00.000Z" "2024-01-10T09:10:00.000Z"
  = Some (bookedState, Failure 400 "Selected time slot is not available").
Proof.
  assert (H : postBooking Calendar.weekdayKey demoState (request "1" "10:00")
                "2024-01-10T09:00:00.000Z" "2024-01-10T09:00:00.000Z"
              = Some (bookedState, Json 201 (firstBooking, mkService "1" "1" 75 "USD" 60)))
    by (vm_compute; reflexivity).
  apply (proj2 occupied_start_is_rejected _ _ _ _ _ _ _ _ _ _ H).
  - apply initialProviders_wellFormed.
  - reflexivity.
  - vm_compute. reflexivity.
Defined.

(** ** How the ledger drives availability *)

(** The slot computation reads the providers and the occupying bookings of
    the provider and date, nothing else. *)
Lemma generateAvailableSlots_ext (weekdayKey : string -> string) (s1 s2 : State)
  (providerId date_ : string) :
  mockProviders s1 = mockProviders s2 ->
  List.filter (occupies providerId date_) (mockBookings s1)
  = List.filter (occupies providerId date_) (mockBookings s2) ->
  generateAvailableSlots weekdayKey s1 providerId date_
  = generateAvailableSlots weekdayKey s2 providerId date_.
Proof. intros Hp Hb. unfold generateAvailableSlots. now rewrite Hp, Hb. Qed.

(** Fewer occupying bookings, more slots. *)
Lemma generateAvailableSlots_antitone (weekdayKey : string -> string) (s1 s2 : State)
  (providerId date_ : string) (l1 l2 : list Slot) :
  mockProviders s1 = mockProviders s2 ->
  (forall b, In b (mockBookings s2) -> occupies providerId date_ b = true ->
             In b (mockBookings s1)) ->
  generateAvailableSlots weekdayKey s1 providerId date_ = Some l1 ->
  generateAvailableSlots weekdayKey s2 providerId date_ = Some l2 ->
  forall slot, In slot l1 -> In slot l2.
Proof.
  unfold generateAvailableSlots. intros Hp Hsub H1 H2 slot Hin. rewrite Hp in H1.
  repeat case_match; simplify_eq; try contradiction.
  apply filter_In in Hin as [Hc Hfree]. apply filter_In. split; [assumption|].
  apply negb_true_iff in Hfree. apply negb_true_iff.
  destruct (existsb _ (List.filter _ (mockBookings s2))) eqn:Hex; [|reflexivity].
  apply existsb_exists in Hex as (b & Hb & Hconf).
  apply filter_In in Hb as [Hb Hocc].
  assert (existsb (conflicts slot)
            (List.filter (occupies providerId date_) (mockBookings s1)) = true);
    [|congruence].
  apply existsb_exists. exists b. split; [|assumption]. apply filter_In. auto.
Qed.

Lemma filter_insert_dropped {A : Type} (f : A -> bool) (l : list A) (i : nat) (x : A) :
  f x = false -> (i < length l)%nat ->
  List.filter f (<[i := x]> l) = List.filter f (delete i l).
Proof.
  revert i. induction l as [|a l IH]; intros i Hx Hi; cbn in Hi; [lia|].
  destruct i as [|i]; cbn.
  - now rewrite Hx.
  - rewrite IH by (assumption || lia). reflexivity.
Qed.

Lemma In_delete {A : Type} (l : list A) (i : nat) (x : A) :
  In x (delete i l) -> In x l.
Proof.
  revert i. induction l as [|a l IH]; intros i; [now destruct i|].
  destruct i as [|i]; cbn; [auto|]. intros [->|H]; eauto.
Qed.

(** X4. Cancelling a booking frees what it occupied: after a successful
    DELETE the slots offered for any provider and date are those the ledger
    would give with the cancelled record taken out, and every slot that was
    offered before is still offered. *)
Theorem cancelling_frees_the_slot (weekdayKey : string -> string) (st : State)
  (id now : string) (i : nat) (b : Booking) :
  findIndex (fun b => String.eqb (b_id b) id) (mockBookings st) = Some i ->
  mockBookings st !! i = Some b ->
  forall providerId date_ : string,
    generateAvailableSlots weekdayKey (fst (deleteBooking st id now)) providerId date_
    = generateAvailableSlots weekdayKey (withoutBooking st i) providerId date_
    /\ forall l l' : list Slot,
         generateAvailableSlots weekdayKey st providerId date_ = Some l ->
         generateAvailableSlots weekdayKey (fst (deleteBooking st id now))
           providerId date_ = Some l' ->
         forall slot, In slot l -> In slot l'.
Proof.
  intros Hfind Hb providerId date_.
  assert (Hst' : fst (deleteBooking st id now)
                 = withBookings st (<[i := cancel now b]> (mockBookings st))).
  { unfold deleteBooking. now rewrite Hfind, Hb. }
  assert (Hfilter : List.filter (occupies providerId date_)
                      (<[i := cancel now b]> (mockBookings st))
                    = List.filter (occupies providerId date_)
                        (delete i (mockBookings st))).
  { apply filter_insert_dropped; [|now apply lookup_lt_Some with b].
    unfold occupies. cbn. now rewrite andb_false_r. }
  rewrite Hst'. split.
  - apply generateAvailableSlots_ext; [reflexivity|exact Hfilter].
  - intros l l' Hl Hl' slot Hin.
    apply (generateAvailableSlots_antitone weekdayKey st
             (withBookings st (<[i := cancel now b]> (mockBookings st)))
             providerId date_ l l' eq_refl); try assumption.
    cbn [withBookings mockBookings]. intros x Hx Hocc.
    assert (Hx' : In x (List.filter (occupies providerId date_)
                          (<[i := cancel now b]> (mockBookings st))))
      by (apply filter_In; auto).
    rewrite Hfilter in Hx'. apply filter_In in Hx' as [Hx' _].
    now apply In_delete in Hx'.
Qed.

Lemma cancelling_frees_the_slot_witness :
  generateAvailableSlots Calendar.weekdayKey
    (fst (deleteBooking bookedState "6" "2024-01-10T09:30:00.000Z")) "1" "2024-01-15"
  = generateAvailableSlots Calendar.weekdayKey (withoutBooking bookedState 5)
      "1" "2024-01-15".
Proof.
  exact (proj1 (cancelling_frees_the_slot Calendar.weekdayKey bookedState "6"
                  "2024-01-10T09:30:00.000Z" 5 firstBooking eq_refl eq_refl
                  "1" "2024-01-15")).
Defined.

(** X5. Accepting a booking never adds a slot: for every provider and date
    the slots offered afterwards were already offered, the answer for another
    provider or another date is unchanged, and no slot that conflicts with the
    new booking is offered for its provider and date. *)
Theorem accepted_booking_only_removes_slots (weekdayKey : string -> string)
  (st st' : State) (data : BookingData) (now1 now2 : string) (b : Booking)
  (svc : Service) :
  postBooking weekdayKey st data now1 now2 = Some (st', Json 201 (b, svc)) ->
  forall providerId date_ : string,
    (forall l l' : list Slot,
        generateAvailableSlots weekdayKey st providerId date_ = Some l ->
        generateAvailableSlots weekdayKey st' providerId date_ = Some l' ->
        (forall slot, In slot l' -> In slot l)
        /\ (providerId = b_providerId b -> date_ = date b ->
            forall slot, In slot l' -> conflicts slot b = false))
    /\ (providerId <> b_providerId b \/ date_ <> date b ->
        generateAvailableSlots weekdayKey st' providerId date_
        = generateAvailableSlots weekdayKey st providerId date_).
Proof.
  intros Hpost providerId date_.
  destruct (postBooking_inv _ _ _ _ _ _ _ Hpost)
    as [[_ (code & message & Hr)]|(b' & svc' & avail & -> & Hr & _ & _ & _ & _
                                   & Hstatus & _)];
    [discriminate Hr|].
  assert (b' = b /\ svc' = svc) as [-> ->] by (inversion Hr; auto). clear Hr.
  split.
  - intros l l' Hl Hl'. split.
    + apply (generateAvailableSlots_antitone weekdayKey
               (withBookings st (mockBookings st ++ [b])) st
               providerId date_ l' l eq_refl); try assumption.
      cbn [withBookings mockBookings]. intros x Hx _. apply in_or_app. now left.
    + intros -> -> slot Hslot.
      apply (offered_slot_no_conflict weekdayKey _ _ _ _ slot b Hl' Hslot).
      * cbn [withBookings mockBookings]. apply in_or_app. right. now left.
      * unfold occupies. rewrite !String.eqb_refl, Hstatus. reflexivity.
  - intros Hother. apply generateAvailableSlots_ext; [reflexivity|].
    cbn [withBookings mockBookings]. rewrite List.filter_app. cbn [List.filter].
    assert (Hno : occupies providerId date_ b = false).
    { unfold occupies.
      destruct Hother as [H|H]; apply not_eq_sym, String.eqb_neq in H; rewrite H;
        [reflexivity|now rewrite andb_false_r]. }
    rewrite Hno. apply app_nil_r.
Qed.

Lemma accepted_booking_only_removes_slots_witness :
  generateAvailableSlots Calendar.weekdayKey bookedState "2" "2024-01-15"
  = generateAvailableSlots Calendar.weekdayKey demoState "2" "2024-01-15".
Proof.
  assert (H : postBooking Calendar.weekdayKey demoState (request "1" "10:00")
                "2024-01-10T09:00:00.000Z" "2024-01-10T09:00:00.000Z"
              = Some (bookedState, Json 201 (firstBooking, mkService "1" "1" 75 "USD" 60)))
    by (vm_compute; reflexivity).
  apply (proj2 (accepted_booking_only_removes_slots _ _ _ _ _ _ _ _ H
                  "2" "2024-01-15")).
  left. discriminate.
Defined.

(** ** What no handler writes *)

Lemma setRating_ids_hours (ps : list Provider) (i : nat) (p : Provider) (q : JS.double) (n : Z) :
  ps !! i = Some p ->
  List.map p_id (<[i := setRating p q n]> ps) = List.map p_id ps
  /\ List.map workingHours (<[i := setRating p q n]> ps) = List.map workingHours ps.
Proof.
  intros Hp. split; apply list_eq; intros j; rewrite !list_lookup_fmap;
    (destruct (decide (j = i)) as [->|Hne];
     [rewrite list_lookup_insert_eq by (eapply lookup_lt_Some; eauto);
      rewrite Hp; reflexivity
     |now rewrite list_lookup_insert_ne by congruence]).
Qed.

Lemma recompute_ids_hours (providerId : string) (setCount : bool) (ps : list Provider)
  (rs : list Review) :
  List.map p_id (recompute providerId setCount ps rs) = List.map p_id ps
  /\ List.map workingHours (recompute providerId setCount ps rs)
     = List.map workingHours ps.
Proof.
  unfold recompute.
  destruct (findIndex _ ps) as [i|]; [|auto].
  destruct (ps !! i) as [p|] eqn:Hp; [|auto].
  now apply setRating_ids_hours.
Qed.

Lemma handle_frame (weekdayKey : string -> string) (st st' : State) (ev : Event) :
  handle weekdayKey st ev = Some st' ->
  mockServices st' = mockServices st
  /\ List.map p_id (mockProviders st') = List.map p_id (mockProviders st)
  /\ List.map workingHours (mockProviders st')
     = List.map workingHours (mockProviders st)
  /\ (length (mockBookings st) <= length (mockBookings st')
      <= S (length (mockBookings st)))%nat.
Proof.
  intros H. destruct ev; cbn [handle] in H.
  - destruct (postBooking weekdayKey st data now1 now2) as [[st1 r]|] eqn:E;
      [|discriminate]. simplify_eq.
    destruct (postBooking_inv _ _ _ _ _ _ _ E) as [[-> _]|(b & _ & _ & -> & _)];
      cbn [withBookings mockBookings mockServices mockProviders];
      rewrite ?length_app; cbn [length]; repeat split; lia.
  - simplify_eq.
    destruct (putBooking_bookings st id data now) as [Hs|(k & b & _ & Hs)];
      rewrite Hs, ?length_insert;
      (split; [|split; [|split; [|lia]]]);
      unfold putBooking; repeat case_match; reflexivity.
  - simplify_eq.
    destruct (deleteBooking_bookings st id now) as [Hs|(k & b & _ & Hs)];
      rewrite Hs, ?length_insert;
      (split; [|split; [|split; [|lia]]]);
      unfold deleteBooking; repeat case_match; reflexivity.
  - destruct (getAvailability _ _ _ _); simplify_eq. repeat split; lia.
  - simplify_eq. destruct (postReview_bookings st data now1 now2) as [-> ->].
    split; [reflexivity|].
    assert (Hp : List.map p_id (mockProviders (fst (postReview st data now1 now2)))
                 = List.map p_id (mockProviders st)
                 /\ List.map workingHours (mockProviders (fst (postReview st data now1 now2)))
                    = List.map workingHours (mockProviders st)).
    { unfold postReview. repeat case_match; auto;
        cbn [fst withReviews mockProviders]; apply recompute_ids_hours. }
    destruct Hp as [-> ->]. repeat split; lia.
  - simplify_eq. destruct (putReview_bookings st id data now) as [-> ->].
    split; [reflexivity|].
    assert (Hp : List.map p_id (mockProviders (fst (putReview st id data now)))
                 = List.map p_id (mockProviders st)
                 /\ List.map workingHours (mockProviders (fst (putReview st id data now)))
                    = List.map workingHours (mockProviders st)).
    { unfold putReview. repeat case_match; auto;
        cbn [fst withReviews mockProviders]; apply recompute_ids_hours. }
    destruct Hp as [-> ->]. repeat split; lia.
  - simplify_eq. destruct (deleteReview_bookings st id) as [-> ->].
    split; [reflexivity|].
    assert (Hp : List.map p_id (mockProviders (fst (deleteReview st id)))
                 = List.map p_id (mockProviders st)
                 /\ List.map workingHours (mockProviders (fst (deleteReview st id)))
                    = List.map workingHours (mockProviders st)).
    { unfold deleteReview. repeat case_match; auto;
        cbn [fst withReviews mockProviders]; auto; now apply setRating_ids_hours. }
    destruct Hp as [-> ->]. repeat split; lia.
Qed.

Lemma reachable_frame (allowed : Event -> Prop) (weekdayKey : string -> string)
  (c : Clock) (st : State) :
  reachableBy allowed weekdayKey c st ->
  mockServices st = initialServices
  /\ List.map p_id (mockProviders st) = List.map p_id initialProviders
  /\ List.map workingHours (mockProviders st) = List.map workingHours initialProviders
  /\ (5 <= length (mockBookings st))%nat.
Proof.
  induction 1 as [|st ev st' _ IH _ Hstep].
  - repeat split. cbn. lia.
  - destruct (handle_frame _ _ _ _ Hstep) as (-> & -> & -> & Hlen).
    destruct IH as (? & ? & ? & ?). repeat split; try assumption. lia.
Qed.

(** X10. No operation writes the service catalogue, a provider's id or a
    provider's working hours, and none removes a booking: each handler run
    keeps the ledger's length or adds one record, and in every reachable
    state the services are the twelve mock services, the providers are
    providers 1, 2 and 3 with their initial working hours, and the ledger
    holds at least the five mock bookings. *)
Theorem catalogue_and_hours_are_read_only :
  (forall (weekdayKey : string -> string) (st st' : State) (ev : Event),
      handle weekdayKey st ev = Some st' ->
      mockServices st' = mockServices st
      /\ List.map p_id (mockProviders st') = List.map p_id (mockProviders st)
      /\ List.map workingHours (mockProviders st')
         = List.map workingHours (mockProviders st)
      /\ (length (mockBookings st) <= length (mockBookings st')
          <= S (length (mockBookings st)))%nat)
  /\ (forall (weekdayKey : string -> string) (c : Clock) (st : State),
        reachable weekdayKey c st ->
        mockServices st = initialServices
        /\ List.map p_id (mockProviders st) = ["1"; "2"; "3"]%string
        /\ List.map workingHours (mockProviders st)
           = List.map workingHours initialProviders
        /\ (5 <= length (mockBookings st))%nat).
Proof.
  split; [exact handle_frame|].
  intros weekdayKey c st Hreach. exact (reachable_frame _ _ _ _ Hreach).
Qed.

Lemma catalogue_and_hours_are_read_only_witness :
  mockServices doubleBookedState = initialServices
  /\ List.map p_id (mockProviders doubleBookedState) = ["1"; "2"; "3"]%string.
Proof.
  assert (Hreach : reachable Calendar.weekdayKey demoClock doubleBookedState).
  { apply (run_reachable _ _ _ doubleBookingTrace demoState);
      [apply reachable_init|repeat constructor|vm_compute; reflexivity]. }
  destruct (proj2 catalogue_and_hours_are_read_only Calendar.weekdayKey demoClock
              doubleBookedState Hreach) as (H1 & H2 & _).
  split; assumption.
Defined.

(** ** The order of the offered slots *)

Lemma StronglySorted_map_seq {A : Type} (R : A -> A -> Prop) (f : nat -> A) (n : nat) :
  forall a,
    (forall i j, (a <= i)%nat -> (i < j)%nat -> (j < a + n)%nat -> R (f i) (f j)) ->
    StronglySorted R (List.map f (List.seq a n)).
Proof.
  induction n as [|n IH]; intros a H; cbn; constructor.
  - apply IH. intros i j Hi Hij Hj. apply H; lia.
  - apply List.Forall_forall. intros x Hx. apply in_map_iff in Hx as (j & <- & Hj).
    apply in_seq in Hj. apply H; lia.
Qed.

Lemma StronglySorted_list_filter {A : Type} (R : A -> A -> Prop) (f : A -> bool)
  (l : list A) :
  StronglySorted R l -> StronglySorted R (List.filter f l).
Proof.
  induction 1 as [|a l _ IH Ha]; cbn; [constructor|].
  destruct (f a); [|assumption]. constructor; [assumption|].
  rewrite List.Forall_forall in *. intros x Hx. apply filter_In in Hx as [Hx _]. auto.
Qed.

Lemma periodSlots_chronological (period : Slot) :
  periodWellFormed period ->
  exists l, periodSlots period = Some l
            /\ chronologicalSlots l /\ Forall (slotWithin period) l.
Proof.
  intros Hwf. destruct (periodSlots_within _ Hwf) as (l & Hl & Hin).
  exists l. split; [assumption|]. split; [|assumption].
  destruct Hwf as [Hs He].
  destruct (isHHmm_timeOfMinute _ Hs) as [Hsr Hst].
  destruct (isHHmm_timeOfMinute _ He) as [Her Het].
  set (s := minutesOf (start period)) in *. set (e := minutesOf (end_ period)) in *.
  destruct (timeOfMinute_facts s Hsr) as (_ & _ & _ & Hsplit_s).
  destruct (timeOfMinute_facts e Her) as (_ & _ & _ & Hsplit_e).
  rewrite <- Hst in Hsplit_s. rewrite <- Het in Hsplit_e.
  pose proof (Z.mod_pos_bound s 60 ltac:(lia)) as Hsm.
  pose proof (Z.mod_pos_bound e 60 ltac:(lia)) as Hem.
  rewrite (periodSlots_numeric period _ _ _ _ Hsplit_s Hsplit_e Hsm Hem) in Hl.
  rewrite <- !Z.div_mod in Hl by lia. fold s e in Hl. simplify_eq.
  apply StronglySorted_map_seq. intros i j _ Hij Hj. cbn in Hj.
  apply slotCount_spec in Hj.
  unfold slotFrom. cbn [start end_].
  destruct (timeOfMinute_facts (s + 30 * Z.of_nat i)) as (_ & _ & -> & _); [lia|].
  destruct (timeOfMinute_facts (s + 30 * (Z.of_nat i + 1))) as (_ & _ & -> & _); [lia|].
  destruct (timeOfMinute_facts (s + 30 * Z.of_nat j)) as (_ & _ & -> & _); [lia|].
  lia.
Qed.

Lemma forEachPeriod_chronological (periods : list Slot) :
  chronologicalPeriods periods ->
  exists l, forEachPeriod periods = Some l
            /\ chronologicalSlots l
            /\ Forall (fun slot => exists period,
                           In period periods /\ slotWithin period slot) l.
Proof.
  intros [Hwf Hsorted]. induction Hsorted as [|period periods Hs IH Hnext];
    cbn [forEachPeriod].
  - exists []. repeat split; constructor.
  - apply Forall_cons in Hwf as [Hp Hwf].
    destruct (periodSlots_chronological _ Hp) as (here & -> & Hhere & Hin).
    destruct (IH Hwf) as (there & -> & Hthere & Hin').
    eexists. split; [reflexivity|]. split.
    + apply StronglySorted_app. split; [|split; assumption].
      intros a b Ha Hb.
      rewrite List.Forall_forall in Hin, Hin', Hnext.
      apply list_elem_of_In in Ha, Hb.
      destruct (Hin a Ha) as ((_ & _ & Hlen) & _ & Hhi).
      destruct (Hin' b Hb) as (q & Hq & _ & Hlo & _).
      specialize (Hnext q Hq). cbn in Hnext. lia.
    + apply Forall_app. split.
      * eapply Forall_impl; [exact Hin|]. cbn. intros slot Hw.
        exists period. split; [now left|assumption].
      * eapply Forall_impl; [exact Hin'|]. cbn. intros slot (q & Hq & Hw).
        exists q. split; [now right|assumption].
Qed.

Lemma chronologicalSlots_NoDup (l : list Slot) : chronologicalSlots l -> NoDup l.
Proof.
  induction 1 as [|a l _ IH Ha]; constructor; [|assumption].
  intros Hin. apply list_elem_of_In in Hin.
  rewrite List.Forall_forall in Ha. specialize (Ha a Hin). lia.
Qed.

Lemma initial_hours_chronological :
  Forall (fun hours : gmap string WorkingDay =>
            map_Forall (fun (_ : string) (day : WorkingDay) =>
                          chronologicalPeriods (slots day)) hours)
         (List.map workingHours initialProviders).
Proof.
  unfold initialProviders. cbn [List.map workingHours].
  repeat (apply List.Forall_cons; [apply week_Forall; repeat constructor|]).
  apply List.Forall_nil.
Qed.

(** X6. The slots offered for a provider and date are in chronological order
    and pairwise disjoint (each ends by the start of the next), hence without
    repetition, whenever the periods of the day are well formed and in
    chronological order; this is so in every reachable state. *)
Theorem offered_slots_are_chronological :
  (forall (weekdayKey : string -> string) (st : State) (providerId date_ : string)
          (p : Provider) (hours : WorkingDay) (l : list Slot),
      findProvider providerId (mockProviders st) = Some p ->
      workingHours p !! weekdayKey date_ = Some hours ->
      chronologicalPeriods (slots hours) ->
      generateAvailableSlots weekdayKey st providerId date_ = Some l ->
      chronologicalSlots l /\ NoDup l)
  /\ (forall (weekdayKey : string -> string) (c : Clock) (st : State)
             (providerId date_ : string) (l : list Slot),
        reachable weekdayKey c st ->
        generateAvailableSlots weekdayKey st providerId date_ = Some l ->
        chronologicalSlots l /\ NoDup l).
Proof.
  assert (Hgen : forall (weekdayKey : string -> string) (st : State)
                   (providerId date_ : string) (p : Provider) (hours : WorkingDay)
                   (l : list Slot),
             findProvider providerId (mockProviders st) = Some p ->
             workingHours p !! weekdayKey date_ = Some hours ->
             chronologicalPeriods (slots hours) ->
             generateAvailableSlots weekdayKey st providerId date_ = Some l ->
             chronologicalSlots l /\ NoDup l).
  { intros weekdayKey st providerId date_ p hours l Hp Hday Hchron Hl.
    unfold generateAvailableSlots in Hl. rewrite Hp, Hday in Hl.
    assert (Hs : chronologicalSlots l).
    { destruct (isOpen hours); cbn [negb] in Hl; [|simplify_eq; constructor].
      destruct (forEachPeriod_chronological _ Hchron) as (cands & Hc & Hsorted & _).
      rewrite Hc in Hl. simplify_eq. now apply StronglySorted_list_filter. }
    split; [assumption|now apply chronologicalSlots_NoDup]. }
  split; [exact Hgen|].
  intros weekdayKey c st providerId date_ l Hreach Hl.
  destruct (findProvider providerId (mockProviders st)) as [p|] eqn:Hp.
  - destruct (workingHours p !! weekdayKey date_) as [hours|] eqn:Hday.
    + apply (Hgen weekdayKey st providerId date_ p hours l Hp Hday); [|assumption].
      destruct (reachable_frame _ _ _ _ Hreach) as (_ & _ & Hhours & _).
      apply findProvider_Some in Hp as [Hin _].
      pose proof initial_hours_chronological as Hall.
      rewrite <- Hhours in Hall. rewrite List.Forall_forall in Hall.
      exact (Hall (workingHours p) (in_map workingHours _ _ Hin) _ _ Hday).
    + unfold generateAvailableSlots in Hl. rewrite Hp, Hday in Hl. simplify_eq.
      split; constructor.
  - unfold generateAvailableSlots in Hl. rewrite Hp in Hl. simplify_eq.
    split; constructor.
Qed.

Lemma offered_slots_are_chronological_witness :
  exists l,
    generateAvailableSlots Calendar.weekdayKey bookedState "1" "2024-01-15" = Some l
    /\ chronologicalSlots l /\ NoDup l.
Proof.
  assert (Hreach : reachable Calendar.weekdayKey demoClock bookedState).
  { apply (reachable_step _ _ _ demoState
             (PostBooking (request "1" "10:00") "2024-01-10T09:00:00.000Z"
                "2024-01-10T09:00:00.000Z"));
      [apply reachable_init|exact I|vm_compute; reflexivity]. }
  destruct (generateAvailableSlots_wellFormed Calendar.weekdayKey bookedState
              "1" "2024-01-15" (reachable_wellFormed _ _ _ _ Hreach)) as (l & Hl & _).
  exists l. split; [exact Hl|].
  exact (proj2 offered_slots_are_chronological Calendar.weekdayKey demoClock
           bookedState "1" "2024-01-15" l Hreach Hl).
Defined.

(** ** Updating a booking *)

(** X7. An update of an existing booking rewrites one record, the first with
    that id: every field takes the value the body carries and keeps the
    stored value otherwise, [updatedAt] is the clock reading, the ledger keeps
    its length, every other record and the other arrays are unchanged; with
    an empty body only [updatedAt] changes. *)
Theorem update_touches_one_record (st : State) (id now : string) (data : BookingPatch)
  (i : nat) (b : Booking) :
  findIndex (fun b => String.eqb (b_id b) id) (mockBookings st) = Some i ->
  mockBookings st !! i = Some b ->
  exists (st' : State) (b' : Booking),
    putBooking st id data now = (st', Json 200 b')
    /\ length (mockBookings st') = length (mockBookings st)
    /\ mockBookings st' !! i = Some b'
    /\ (forall j : nat, j <> i -> mockBookings st' !! j = mockBookings st !! j)
    /\ mockProviders st' = mockProviders st /\ mockServices st' = mockServices st
    /\ mockReviews st' = mockReviews st
    /\ b_updatedAt b' = now
    /\ b_id b' = default (b_id b) (u_id data)
    /\ b_customerId b' = default (b_customerId b) (u_customerId data)
    /\ b_providerId b' = default (b_providerId b) (u_providerId data)
    /\ b_serviceId b' = default (b_serviceId b) (u_serviceId data)
    /\ date b' = default (date b) (u_date data)
    /\ startTime b' = default (startTime b) (u_startTime data)
    /\ endTime b' = default (endTime b) (u_endTime data)
    /\ status b' = default (status b) (u_status data)
    /\ totalPrice b' = default (totalPrice b) (u_totalPrice data)
    /\ currency b' = default (currency b) (u_currency data)
    /\ notes b' = match u_notes data with Some n => Some n | None => notes b end
    /\ b_createdAt b' = default (b_createdAt b) (u_createdAt data)
    /\ (data = emptyPatch ->
        b' = {| b_id := b_id b; b_customerId := b_customerId b;
                b_providerId := b_providerId b; b_serviceId := b_serviceId b;
                date := date b; startTime := startTime b; endTime := endTime b;
                status := status b; totalPrice := totalPrice b;
                currency := currency b; notes := notes b;
                b_createdAt := b_createdAt b; b_updatedAt := now |}).
Proof.
  intros Hfind Hb. unfold putBooking. rewrite Hfind, Hb.
  eexists _, (applyPatch b data now). split; [reflexivity|].
  cbn [withBookings mockBookings mockProviders mockServices mockReviews].
  split; [apply length_insert|].
  split; [apply list_lookup_insert_eq; now apply lookup_lt_Some with b|].
  split; [intros j Hj; now apply list_lookup_insert_ne|].
  repeat (split; [reflexivity|]). intros ->. reflexivity.
Qed.

Lemma update_touches_one_record_witness :
  exists (st' : State) (b' : Booking),
    putBooking demoState "3" movePatch "2024-01-10T09:00:00.000Z" = (st', Json 200 b')
    /\ length (mockBookings st') = 5%nat
    /\ mockBookings st' !! 2%nat = Some b'
    /\ mockBookings st' !! 1%nat = mockBookings demoState !! 1%nat.
Proof.
  assert (Hb : mockBookings demoState !! 2%nat = Some thirdBooking) by reflexivity.
  destruct (update_touches_one_record demoState "3" "2024-01-10T09:00:00.000Z"
              movePatch 2 thirdBooking eq_refl Hb)
    as (st' & b' & H1 & H2 & H3 & H4 & _).
  exists st', b'. repeat split; try assumption. apply H4. discriminate.
Defined.

(** ** Reviews and the other providers *)

Lemma recompute_other (providerId : string) (setCount : bool) (ps : list Provider)
  (rs : list Review) (j : nat) (p : Provider) :
  ps !! j = Some p -> p_id p <> providerId ->
  recompute providerId setCount ps rs !! j = Some p.
Proof.
  intros Hj Hne. unfold recompute.
  destruct (findIndex _ ps) as [i|] eqn:Hi; [|assumption].
  destruct (findIndex_Some _ _ _ Hi) as (q & Hq & Hid & _). rewrite Hq.
  apply String.eqb_eq in Hid.
  rewrite list_lookup_insert_ne; [assumption|]. intros ->. congruence.
Qed.

(** X8. Editing a review rewrites that review only: a rating of zero or a
    missing rating keeps the stored rating, an empty or missing comment keeps
    the stored comment, the ids and [createdAt] are kept; the provider of the
    review gets the mean of its reviews as rating ([meanOfRatings] of the
    ratings of the stored reviews that carry its id: their sum divided by
    their number, as a double) while its [reviewCount] is left as it was;
    bookings and services are untouched. *)
Theorem review_edit_recomputes_mean_only (st : State) (id now : string)
  (data : ReviewPatch) (i : nat) (r : Review) :
  findIndex (fun r => String.eqb (r_id r) id) (mockReviews st) = Some i ->
  mockReviews st !! i = Some r ->
  exists (st' : State) (r' : Review),
    putReview st id data now = (st', Json 200 r')
    /\ mockReviews st' = <[i := r']> (mockReviews st)
    /\ r_rating r' = (if truthyNumber (w_rating data)
                      then default 0 (w_rating data) else r_rating r)
    /\ comment r' = (if JS.truthy (w_comment data)
                     then text (w_comment data) else comment r)
    /\ r_id r' = r_id r /\ bookingId r' = bookingId r
    /\ r_customerId r' = r_customerId r /\ r_providerId r' = r_providerId r
    /\ r_serviceId r' = r_serviceId r /\ r_createdAt r' = r_createdAt r
    /\ r_updatedAt r' = now
    /\ mockBookings st' = mockBookings st /\ mockServices st' = mockServices st
    /\ (forall p : Provider,
           findProvider (r_providerId r) (mockProviders st) = Some p ->
           exists p',
             findProvider (r_providerId r) (mockProviders st') = Some p'
             /\ rating p'
                = meanOfRatings
                    (List.map r_rating
                       (List.filter
                          (fun x => String.eqb (r_providerId x) (r_providerId r))
                          (mockReviews st')))
             /\ reviewCount p' = reviewCount p)
    /\ (forall (j : nat) (p : Provider),
           mockProviders st !! j = Some p -> p_id p <> r_providerId r ->
           mockProviders st' !! j = Some p).
Proof.
  intros Hfind Hr. unfold putReview. rewrite Hfind, Hr.
  eexists _, _. split; [reflexivity|].
  cbn [withReviews mockReviews mockBookings mockServices mockProviders
       r_rating comment r_id bookingId r_customerId r_providerId r_serviceId
       r_createdAt r_updatedAt].
  do 12 (split; [reflexivity|]). split.
  - intros p Hp. unfold findProvider in *.
    destruct (find_findIndex _ _ _ Hp) as (k & Hk & Hpk).
    destruct (findIndex_Some _ _ _ Hk) as (q & Hq & Hqid & _).
    assert (q = p) as -> by congruence.
    unfold recompute. rewrite Hk, Hpk.
    eexists. split; [eapply find_insert_found; eauto|].
    split; [|reflexivity]. rewrite <- meanRating_spec. reflexivity.
  - intros j p Hj Hne. now apply recompute_other.
Qed.

Lemma review_edit_recomputes_mean_only_witness :
  exists (st' : State) (r' : Review),
    putReview demoState "1" {| w_rating := Some 0; w_comment := Some "Fine"%string |}
      "2024-01-10T09:00:00.000Z" = (st', Json 200 r')
    /\ r_rating r' = 5 /\ comment r' = "Fine"%string
    /\ exists p' : Provider,
         findProvider "1" (mockProviders st') = Some p'
         /\ rating p' = meanOfRatings [5] /\ reviewCount p' = 124.
Proof.
  assert (Hr : mockReviews demoState !! 0%nat = Some firstReview) by reflexivity.
  assert (Hp : findProvider (r_providerId firstReview) (mockProviders demoState)
               = Some (default shortDayProvider (mockProviders demoState !! 0%nat)))
    by reflexivity.
  destruct (review_edit_recomputes_mean_only demoState "1" "2024-01-10T09:00:00.000Z"
              {| w_rating := Some 0; w_comment := Some "Fine"%string |} 0
              firstReview eq_refl Hr)
    as (st' & r' & H1 & _ & H2 & H3 & _ & _ & _ & _ & _ & _ & _ & _ & _ & H4 & _).
  exists st', r'. do 3 (split; [assumption|]).
  destruct (H4 _ Hp) as (p' & Hp' & Hrate & Hcount).
  exists p'. split; [exact Hp'|].
  pose proof (f_equal fst H1) as E. cbn [fst] in E. subst st'.
  split; [rewrite Hrate; vm_compute; reflexivity | rewrite Hcount; reflexivity].
Defined.

(** X9. Creating or deleting a review leaves every provider whose id is not
    the review's provider id exactly as it was (rating and count included),
    and never touches bookings or services. *)
Theorem review_writes_one_provider :
  (forall (st : State) (data : ReviewData) (now1 now2 : string) (j : nat)
          (p : Provider),
      mockProviders st !! j = Some p ->
      p_id p <> text (v_providerId data) ->
      mockProviders (fst (postReview st data now1 now2)) !! j = Some p
      /\ mockBookings (fst (postReview st data now1 now2)) = mockBookings st
      /\ mockServices (fst (postReview st data now1 now2)) = mockServices st)
  /\ (forall (st : State) (id : string) (i j : nat) (r : Review) (p : Provider),
        findIndex (fun r => String.eqb (r_id r) id) (mockReviews st) = Some i ->
        mockReviews st !! i = Some r ->
        mockProviders st !! j = Some p ->
        p_id p <> r_providerId r ->
        mockProviders (fst (deleteReview st id)) !! j = Some p
        /\ mockBookings (fst (deleteReview st id)) = mockBookings st
        /\ mockServices (fst (deleteReview st id)) = mockServices st).
Proof.
  split.
  - intros st data now1 now2 j p Hj Hne.
    split; [|apply postReview_bookings].
    unfold postReview. repeat case_match; try assumption;
      cbn [fst withReviews mockProviders]; now apply recompute_other.
  - intros st id i j r p Hi Hr Hj Hne.
    split; [|apply deleteReview_bookings].
    unfold deleteReview. rewrite Hi, Hr. cbn [fst withReviews mockProviders].
    destruct (findIndex _ (mockProviders st)) as [k|] eqn:Hk; [|assumption].
    destruct (findIndex_Some _ _ _ Hk) as (q & Hq & Hid & _). rewrite Hq.
    apply String.eqb_eq in Hid.
    rewrite list_lookup_insert_ne; [assumption|]. intros ->. congruence.
Qed.

Lemma review_writes_one_provider_witness :
  mockProviders (fst (postReview completedState (reviewOf "5" "1" "2" 4)
                        "2024-01-15T09:00:00.000Z" "2024-01-15T09:00:00.000Z"))
    !! 1%nat
  = Some secondProvider.
Proof.
  assert (H : mockProviders completedState !! 1%nat = Some secondProvider)
    by reflexivity.
  refine (proj1 (proj1 review_writes_one_provider completedState
                   (reviewOf "5" "1" "2" 4)
                   "2024-01-15T09:00:00.000Z" "2024-01-15T09:00:00.000Z" 1%nat _ H _)).
  discriminate.
Defined.

(** ** Registration and login *)

Lemma find_app_fresh {A : Type} (f : A -> bool) (l : list A) (x : A) :
  List.find f l = None -> f x = true -> List.find f (l ++ [x]) = Some x.
Proof.
  induction l as [|a l IH]; cbn; intros Hnone Hx.
  - now rewrite Hx.
  - destruct (f a); [discriminate|]. auto.
Qed.

(** X11. Registration refuses an email that a user already has (400, users
    unchanged) and otherwise appends one user with the next id, the role
    customer, the language English and no favourites unless the body says
    otherwise; pairwise distinct emails stay pairwise distinct; and a login
    with the registered email and password then succeeds as that user. *)
Theorem register_then_login :
  (forall (users : list User) (data : RegisterData) (now : string) (nowMs : Z)
          (u : User),
      In u users -> email u = g_email data ->
      register users data now nowMs = (users, Failure 400 "Email already in use"))
  /\ (forall (users : list User) (data : RegisterData) (now : string) (nowMs : Z),
        (forall u, In u users -> email u <> g_email data) ->
        exists (u : User) (token : string),
          register users data now nowMs
          = (users ++ [u], Json 201 (withoutPassword u, token))
          /\ user_id u = JS.toString (Some (Z.of_nat (length users) + 1))
          /\ email u = g_email data /\ password u = g_password data
          /\ role u = default roleCustomer (g_role data)
          /\ language u = default langEn (g_language data)
          /\ favorites u = []
          /\ (NoDup (List.map email users) -> NoDup (List.map email (users ++ [u])))
          /\ forall nowMs' : Z,
               login (users ++ [u]) (g_email data) (g_password data) nowMs'
               = Json 200 (withoutPassword u, generateToken u nowMs')).
Proof.
  split.
  - intros users data now nowMs u Hin Hemail. unfold register.
    destruct (List.find _ users) eqn:Hfind; [reflexivity|].
    eapply find_none in Hfind; [|exact Hin]. cbn in Hfind.
    rewrite Hemail, String.eqb_refl in Hfind. discriminate.
  - intros users data now nowMs Hfresh. unfold register.
    assert (Hnone : List.find (fun user => String.eqb (email user) (g_email data)) users
                    = None).
    { destruct (List.find _ users) as [u|] eqn:Hfind; [|reflexivity].
      apply find_some in Hfind as [Hin Heq]. apply String.eqb_eq in Heq.
      now destruct (Hfresh u Hin). }
    rewrite Hnone. eexists _, _. split; [reflexivity|].
    cbn [user_id email password role language favorites].
    do 6 (split; [reflexivity|]). split.
    + intros Hnd. rewrite map_app. cbn [List.map email].
      apply NoDup_app. split; [|split].
      * exact Hnd.
      * intros e He Hs. apply list_elem_of_singleton in Hs as ->.
        apply list_elem_of_In, in_map_iff in He as (u & Hu & Hin).
        exact (Hfresh u Hin Hu).
      * apply NoDup_singleton.
    + intros nowMs'. unfold login, findUserByCredentials.
      rewrite find_app_fresh; [reflexivity| |].
      * destruct (List.find
                    (fun user => String.eqb (email user) (g_email data)
                                 && String.eqb (password user) (g_password data))
                    users) as [u|] eqn:Hfind; [|reflexivity].
        apply find_some in Hfind as [Hin Heq].
        apply andb_true_iff in Heq as [Heq%String.eqb_eq _].
        now destruct (Hfresh u Hin).
      * cbn. now rewrite !String.eqb_refl.
Qed.

Lemma register_then_login_witness :
  exists (u : User) (token : string),
    register demoUsers newcomer "2024-01-10T09:00:00.000Z" 1704877200000
    = (demoUsers ++ [u], Json 201 (withoutPassword u, token))
    /\ user_id u = "5"%string
    /\ login (demoUsers ++ [u]) "new@example.com" "s3cret" 1704877260000
       = Json 200 (withoutPassword u, generateToken u 1704877260000).
Proof.
  destruct (proj2 register_then_login demoUsers newcomer "2024-01-10T09:00:00.000Z"
              1704877200000) as (u & token & H1 & H2 & _ & _ & _ & _ & _ & _ & H3).
  - intros u Hin.
    repeat (destruct Hin as [<-|Hin]; [discriminate|]). contradiction.
  - exists u, token. split; [exact H1|]. split; [exact H2|]. apply H3.
Defined.

(** ** Profile updates *)

Lemma find_unique {A : Type} (pred : A -> bool) (l : list A) (i : nat) (x : A) :
  l !! i = Some x -> pred x = true ->
  (forall j y, l !! j = Some y -> pred y = true -> j = i) ->
  List.find pred l = Some x.
Proof.
  intros Hx Hp Huniq.
  apply (findIndex_find pred l i x); [|assumption].
  now apply (findIndex_unique pred l i x).
Qed.

(** X12. A profile update never changes the id, the password, the role or
    the creation time of the user, whatever the body carries; the email
    changes only to a non-empty email of the body; the other users are
    untouched.  So, with pairwise distinct emails and no email in the body,
    the user still logs in with the same email and password. *)
Theorem profile_update_keeps_credentials (users : list User) (id : string)
  (data : UserPatch) (i : nat) (u : User) :
  findIndex (fun u => String.eqb (user_id u) id) users = Some i ->
  users !! i = Some u ->
  exists (users' : list User) (u' : User),
    putUser users id data = (users', Json 200 (withoutPassword u'))
    /\ users' = <[i := u']> users
    /\ user_id u' = user_id u /\ password u' = password u
    /\ role u' = role u /\ user_createdAt u' = user_createdAt u
    /\ email u' = (if JS.truthy (y_email data) then text (y_email data) else email u)
    /\ (forall j : nat, j <> i -> users' !! j = users !! j)
    /\ (NoDup (List.map email users) -> JS.truthy (y_email data) = false ->
        forall nowMs : Z,
          login users' (email u) (password u) nowMs
          = Json 200 (withoutPassword u', generateToken u' nowMs)).
Proof.
  intros Hfind Hu. unfold putUser. rewrite Hfind, Hu.
  eexists _, _. split; [reflexivity|].
  cbn [user_id password role user_createdAt email].
  do 6 (split; [reflexivity|]).
  split; [intros j Hj; now apply list_lookup_insert_ne|].
  intros Hnd Hemail nowMs. rewrite Hemail.
  unfold login, findUserByCredentials.
  erewrite (find_unique _ _ i); [reflexivity| | |].
  - apply list_lookup_insert_eq. now apply lookup_lt_Some with u.
  - cbn. now rewrite !String.eqb_refl.
  - intros j y Hj Hy.
    destruct (decide (j = i)) as [|Hne]; [assumption|exfalso].
    rewrite list_lookup_insert_ne in Hj by congruence.
    apply andb_true_iff in Hy as [Hy%String.eqb_eq _].
    apply Hne. apply (NoDup_lookup (List.map email users) j i (email u) Hnd);
      rewrite list_lookup_fmap; [rewrite Hj; cbn; congruence|now rewrite Hu].
Qed.

Lemma profile_update_keeps_credentials_witness :
  exists (users' : list User) (u' : User),
    putUser demoUsers "1" intrusivePatch = (users', Json 200 (withoutPassword u'))
    /\ user_id u' = "1"%string /\ password u' = "password123"%string
    /\ role u' = roleCustomer.
Proof.
  assert (Hu : demoUsers !! 0%nat = Some firstUser) by reflexivity.
  destruct (profile_update_keeps_credentials demoUsers "1" intrusivePatch
              0 firstUser eq_refl Hu) as (users' & u' & H1 & _ & H2 & H3 & H4 & _).
  exists users', u'. repeat split; assumption.
Defined.

(** ** Favourites *)

Lemma includes_In (l : list string) (x : string) : includes l x = true <-> In x l.
Proof.
  unfold includes. rewrite existsb_exists. split.
  - intros (y & Hy & Heq). apply String.eqb_eq in Heq. now subst.
  - intros H. exists x. split; [assumption|apply String.eqb_refl].
Qed.

Lemma setFavorites_same (u : User) : setFavorites u (favorites u) = u.
Proof. now destruct u. Qed.

Lemma findIndex_insert_same {A : Type} (pred : A -> bool) (l : list A) (i : nat)
  (x x' : A) :
  findIndex pred l = Some i -> l !! i = Some x -> pred x' = true ->
  findIndex pred (<[i := x']> l) = Some i.
Proof.
  revert i. induction l as [|a l IH]; intros i H Hx Hp; cbn [findIndex] in H;
    [discriminate|].
  destruct (pred a) eqn:Ha.
  - simplify_eq. cbn. now rewrite Hp.
  - destruct (findIndex pred l) as [k|] eqn:Hk; [|discriminate]. cbn in H. simplify_eq.
    cbn in Hx. specialize (IH k eq_refl Hx Hp).
    replace (<[S k := x']> (a :: l)) with (a :: <[k := x']> l) by reflexivity.
    cbn [findIndex]. now rewrite Ha, IH.
Qed.

(** X13. Adding a favourite for an existing user and provider puts the
    provider's id in the user's list once: ids already there stay, nothing is
    duplicated, adding it again changes nothing, and the favourites page then
    lists the provider.  Removing a favourite removes every occurrence of the
    id and nothing else, so removing after adding gives the same users as
    removing directly.  An unknown provider is refused (404) with the users
    unchanged. *)
Theorem favourites_behave_as_a_set :
  (forall (users : list User) (providers : list Provider) (id providerId : string)
          (i : nat) (u : User) (p : Provider),
      findIndex (fun u => String.eqb (user_id u) id) users = Some i ->
      users !! i = Some u ->
      findProvider providerId providers = Some p ->
      exists (users' : list User) (fs : list string),
        postFavorite users providers id providerId = (users', Json 200 fs)
        /\ users' = <[i := setFavorites u fs]> users
        /\ In providerId fs
        /\ (forall x, In x (favorites u) -> In x fs)
        /\ (forall x, In x fs -> x = providerId \/ In x (favorites u))
        /\ (NoDup (favorites u) -> NoDup fs)
        /\ (In providerId (favorites u) -> fs = favorites u)
        /\ postFavorite users' providers id providerId = (users', Json 200 fs)
        /\ (exists l, getFavorites users' providers id = Json 200 l /\ In p l)
        /\ fst (deleteFavorite users' id providerId)
           = fst (deleteFavorite users id providerId))
  /\ (forall (users : list User) (userId providerId : string) (i : nat) (u : User),
        findIndex (fun u => String.eqb (user_id u) userId) users = Some i ->
        users !! i = Some u ->
        exists fs : list string,
          deleteFavorite users userId providerId
          = (<[i := setFavorites u fs]> users, Json 200 fs)
          /\ ~ In providerId fs
          /\ (forall x, In x fs <-> In x (favorites u) /\ x <> providerId))
  /\ (forall (users : list User) (providers : list Provider) (id providerId : string)
             (i : nat),
        findIndex (fun u => String.eqb (user_id u) id) users = Some i ->
        findProvider providerId providers = None ->
        postFavorite users providers id providerId
        = (users, Failure 404 "Provider not found")).
Proof.
  split; [|split].
  - intros users providers id providerId i u p Hi Hu Hp.
    destruct (findIndex_Some _ _ _ Hi) as (u0 & Hu0 & Hid & _).
    assert (u0 = u) as -> by congruence.
    set (fs := if includes (favorites u) providerId then favorites u
               else favorites u ++ [providerId]).
    assert (Hin : includes fs providerId = true).
    { unfold fs. destruct (includes (favorites u) providerId) eqn:E; [assumption|].
      apply includes_In, in_or_app. right. now left. }
    assert (Hlen : (i < length users)%nat) by (now apply lookup_lt_Some with u).
    exists (<[i := setFavorites u fs]> users), fs.
    split; [unfold postFavorite; now rewrite Hi, Hu, Hp|].
    split; [reflexivity|].
    split; [now apply includes_In|].
    split.
    { intros x Hx. unfold fs.
      destruct (includes (favorites u) providerId); [assumption|].
      apply in_or_app. now left. }
    split.
    { intros x Hx. unfold fs in Hx.
      destruct (includes (favorites u) providerId); [now right|].
      apply in_app_or in Hx as [Hx|[<-|[]]]; auto. }
    split.
    { intros Hnd. unfold fs. destruct (includes (favorites u) providerId) eqn:E;
        [assumption|].
      apply NoDup_app. split; [assumption|]. split; [|apply NoDup_singleton].
      intros x Hx Hs. apply list_elem_of_singleton in Hs as ->.
      apply list_elem_of_In, includes_In in Hx. congruence. }
    split.
    { intros Hx. unfold fs. apply includes_In in Hx. now rewrite Hx. }
    split.
    { unfold postFavorite.
      rewrite (findIndex_insert_same _ _ _ u _ Hi Hu) by exact Hid.
      rewrite list_lookup_insert_eq by assumption. rewrite Hp.
      cbn [setFavorites favorites]. rewrite Hin.
      rewrite list_insert_insert_eq. reflexivity. }
    split.
    { unfold getFavorites.
      erewrite find_insert_found; [|exact Hi|exact Hu|exact Hid].
      eexists. split; [reflexivity|].
      apply findProvider_Some in Hp as [Hp <-].
      apply filter_In. split; [assumption|]. exact Hin. }
    unfold deleteFavorite.
    rewrite (findIndex_insert_same _ _ _ u _ Hi Hu) by exact Hid.
    rewrite list_lookup_insert_eq by assumption. rewrite Hi, Hu.
    cbn [fst setFavorites favorites]. rewrite list_insert_insert_eq.
    do 2 f_equal. unfold fs.
    destruct (includes (favorites u) providerId); [reflexivity|].
    rewrite List.filter_app. cbn. rewrite String.eqb_refl. cbn. apply app_nil_r.
  - intros users userId providerId i u Hi Hu.
    eexists. split; [unfold deleteFavorite; now rewrite Hi, Hu|].
    split.
    + intros Hin. apply filter_In in Hin as [_ Hne].
      now rewrite String.eqb_refl in Hne.
    + intros x. rewrite filter_In, negb_true_iff, String.eqb_neq. reflexivity.
  - intros users providers id providerId i Hi Hp.
    destruct (findIndex_Some _ _ _ Hi) as (u & Hu & _).
    unfold postFavorite. now rewrite Hi, Hu, Hp.
Qed.

Lemma favourites_behave_as_a_set_witness :
  exists (users' : list User) (fs : list string),
    postFavorite demoUsers initialProviders "1" "2" = (users', Json 200 fs)
    /\ In "2"%string fs
    /\ postFavorite users' initialProviders "1" "2" = (users', Json 200 fs).
Proof.
  assert (Hu : demoUsers !! 0%nat = Some firstUser) by reflexivity.
  assert (Hp : findProvider "2" initialProviders = Some secondProvider) by reflexivity.
  destruct (proj1 favourites_behave_as_a_set demoUsers initialProviders "1" "2"
              0%nat firstUser secondProvider eq_refl Hu Hp)
    as (users' & fs & H1 & _ & H2 & _ & _ & _ & _ & H3 & _).
  exists users', fs. repeat split; assumption.
Defined.

(** ** Query parameters and pages *)

Lemma digitsPrefix_acc (d : Decimal.uint) (acc : positive) :
  digitsPrefix 10 (Z.pos acc) true (NilEmpty.string_of_uint d)
  = Some (Z.pos (Pos.of_uint_acc d acc)).
Proof.
  revert acc. induction d; intros acc;
    cbn [NilEmpty.string_of_uint digitsPrefix Pos.of_uint_acc]; [reflexivity|..];
    match goal with
    | |- context [digitOf 10 ?c] =>
        let v := eval vm_compute in (digitOf 10 c) in change (digitOf 10 c) with v
    end; cbv iota beta; rewrite <- IHd; f_equal; lia.
Qed.

Lemma digitsPrefix_uint (d : Decimal.uint) :
  digitsPrefix 10 0 true (NilEmpty.string_of_uint d) = Some (Z.of_N (Pos.of_uint d)).
Proof.
  induction d; cbn [NilEmpty.string_of_uint digitsPrefix Pos.of_uint]; [reflexivity|..];
    match goal with
    | |- context [digitOf 10 ?c] =>
        let v := eval vm_compute in (digitOf 10 c) in change (digitOf 10 c) with v
    end; cbv iota beta; [exact IHd|..]; apply digitsPrefix_acc.
Qed.

Lemma parseInt_digits (d : Decimal.uint) :
  d <> Decimal.Nil ->
  parseInt (NilEmpty.string_of_uint d) = Some (Z.of_N (Pos.of_uint d))
  /\ parseInt (String "-" (NilEmpty.string_of_uint d)) = Some (- Z.of_N (Pos.of_uint d)).
Proof.
  intros Hd.
  assert (H : digitsPrefix 10 0 false (NilEmpty.string_of_uint d)
              = Some (Z.of_N (Pos.of_uint d))).
  { destruct d; [congruence|..];
      cbn [NilEmpty.string_of_uint digitsPrefix];
      match goal with
      | |- context [digitOf 10 ?c] =>
          let v := eval vm_compute in (digitOf 10 c) in change (digitOf 10 c) with v
      end; cbv iota beta;
      first [apply (digitsPrefix_uint (Decimal.D0 d)) | apply digitsPrefix_acc]. }
  assert (Hplain : forall s, s = NilEmpty.string_of_uint d ->
            parseInt s = digitsPrefix 10 0 false s
            /\ parseInt (String "-" s) =
               match digitsPrefix 10 0 false s with
               | Some v => Some (-1 * v) | None => None end).
  { intros s ->. destruct d as [|l|l|l|l|l|l|l|l|l|l]; [congruence|..];
      try (split; reflexivity || (unfold parseInt; cbn [NilEmpty.string_of_uint trimStart];
           repeat match goal with
           | |- context [isSpace ?c] =>
               let v := eval vm_compute in (isSpace c) in change (isSpace c) with v
           end; cbv iota beta;
           destruct (digitsPrefix _ _ _ _); [f_equal; lia | reflexivity])).
    destruct l; split; unfold parseInt; cbn [NilEmpty.string_of_uint trimStart];
      repeat match goal with
      | |- context [isSpace ?c] =>
          let v := eval vm_compute in (isSpace c) in change (isSpace c) with v
      end; cbv iota beta;
      repeat match goal with
      | |- context [Ascii.eqb ?a ?b] =>
          let v := eval vm_compute in (Ascii.eqb a b) in change (Ascii.eqb a b) with v
      end; cbv iota beta; cbn [orb];
      destruct (digitsPrefix _ _ _ _); try reflexivity; f_equal; lia. }
  destruct (Hplain _ eq_refl) as [-> ->]. rewrite H. split; [reflexivity | f_equal; lia].
Qed.

Lemma parseInt_toString (z : Z) : parseInt (JS.toString (Some z)) = Some z.
Proof.
  destruct z as [|p|p]; [reflexivity|..];
    unfold JS.toString, Z.to_int, NilZero.string_of_int, NilZero.string_of_uint;
    pose proof (DecimalPos.Unsigned.to_uint_nonnil p) as Hn;
    pose proof (DecimalPos.Unsigned.of_to p) as Hp;
    destruct (parseInt_digits (Pos.to_uint p) Hn) as [H1 H2];
    destruct (Pos.to_uint p) eqn:E; try congruence;
    rewrite ?H1, ?H2, Hp; reflexivity.
Qed.

Lemma intParam_toString (p : Z) (fallback : string) :
  intParam (Some (JS.toString (Some p))) fallback = Some p.
Proof.
  unfold intParam. cbn [JS.truthy].
  replace (negb (String.eqb (JS.toString (Some p)) EmptyString)) with true.
  - cbn [text default]. apply parseInt_toString.
  - symmetry. apply negb_true_iff, String.eqb_neq. intros E.
    pose proof (parseInt_toString p) as Hp. rewrite E in Hp. discriminate.
Qed.

Lemma slice_page {A : Type} (l : list A) (n p : Z) :
  0 <= n -> 1 <= p ->
  slice l (Some ((p - 1) * n)) (Some (p * n))
  = take (Z.to_nat n) (drop (Z.to_nat ((p - 1) * n)) l).
Proof.
  intros Hn Hp. unfold slice, relativeIndex.
  assert (H1 : 0 <= (p - 1) * n) by nia.
  assert (H2 : (p - 1) * n + n = p * n) by lia.
  destruct (Z.ltb_spec ((p - 1) * n) 0); [lia|].
  destruct (Z.ltb_spec (p * n) 0); [lia|].
  destruct (Z_le_gt_dec (Z.of_nat (length l)) ((p - 1) * n)) as [Hout|Hin].
  - rewrite !drop_ge by lia. now rewrite !take_nil.
  - rewrite (Z.min_l ((p - 1) * n)) by lia.
    destruct (Z_le_gt_dec (p * n) (Z.of_nat (length l))).
    + rewrite Z.min_l by lia. f_equal. lia.
    + rewrite Z.min_r by lia. rewrite !take_ge; [reflexivity|..];
        rewrite length_drop; lia.
Qed.

Lemma concat_pages {A : Type} (l : list A) (n : nat) (k : nat) :
  concat (List.map (fun j => take n (drop ((j - 1) * n) l)) (seq 1 k)) = take (k * n) l.
Proof.
  induction k as [|k IH]; [reflexivity|].
  rewrite seq_S, List.map_app, concat_app, IH. cbn [List.map concat seq Nat.add].
  rewrite app_nil_r.
  replace (S k - 1)%nat with k by lia.
  rewrite take_take_drop. f_equal. lia.
Qed.

(** X14.  The pagination block of [GET /api/bookings] (the listings of
    providers, services and reviews repeat it).  For a limit that parses to
    [n >= 1], the pages 1 to [totalPages], in order, are exactly the filtered
    list, each item on one page; a page holds at most [n] items, and a page
    after the last is empty.  [total] is the length of the list. *)
Theorem pages_partition_the_listing {A B : Type} (filtered : list A) (enrich : A -> B)
  (limitParam : option string) (n : Z) :
  intParam limitParam "10" = Some n ->
  1 <= n ->
  let answer p := paginate filtered enrich limitParam (Some (JS.toString (Some p))) in
  exists k : Z,
    (forall p, totalPages (answer p) = Some k
               /\ total (answer p) = Z.of_nat (length filtered)
               /\ limit (answer p) = Some n /\ page (answer p) = Some p)
    /\ (k - 1) * n < Z.of_nat (length filtered) <= k * n
    /\ concat (List.map (fun j => items (answer (Z.of_nat j))) (seq 1 (Z.to_nat k)))
       = List.map enrich filtered
    /\ (forall p, 1 <= p -> Z.of_nat (length (items (answer p))) <= n)
    /\ (forall p, k < p -> items (answer p) = []).
Proof.
  intros Hl Hn answer.
  set (len := Z.of_nat (length filtered)).
  exists (- ((- len) / n)).
  assert (Hk : (- ((- len) / n) - 1) * n < len <= - ((- len) / n) * n).
  { pose proof (Z.div_mod (- len) n ltac:(lia)) as Hd.
    pose proof (Z.mod_pos_bound (- len) n ltac:(lia)). nia. }
  assert (Hk0 : 0 <= - ((- len) / n)) by (unfold len in *; nia).
  assert (Hitems : forall p, 1 <= p ->
            items (answer p)
            = List.map enrich (take (Z.to_nat n) (drop (Z.to_nat ((p - 1) * n)) filtered))).
  { intros p Hp. unfold answer, paginate. cbn [items].
    rewrite intParam_toString, Hl. cbn [jsMinus jsTimes].
    now rewrite slice_page by lia. }
  repeat split.
  - unfold answer, paginate. cbn [totalPages]. rewrite Hl. cbn [pageCount].
    destruct (Z.eqb_spec n 0); [lia|reflexivity].
  - unfold answer, paginate. cbn [limit]. exact Hl.
  - unfold answer, paginate. cbn [page]. apply intParam_toString.
  - apply Hk.
  - apply Hk.
  - rewrite (List.map_ext_in _
      (fun j => List.map enrich
                  (take (Z.to_nat n) (drop ((j - 1) * Z.to_nat n) filtered)))).
    2:{ intros j Hj. apply in_seq in Hj. rewrite Hitems by lia. do 3 f_equal. nia. }
    rewrite <- (List.map_map
                  (fun j => take (Z.to_nat n) (drop ((j - 1) * Z.to_nat n) filtered))
                  (List.map enrich)), <- List.concat_map.
    rewrite (concat_pages filtered (Z.to_nat n) (Z.to_nat (- ((- len) / n)))).
    rewrite take_ge; [reflexivity|]. unfold len in Hk.
    rewrite <- Z2Nat.inj_mul by lia. unfold len in *. lia.
  - intros p Hp. rewrite Hitems by exact Hp.
    rewrite length_map, length_take. lia.
  - intros p Hp. rewrite Hitems by lia.
    rewrite drop_ge; [now rewrite take_nil|]. unfold len in Hk.
    assert (- ((- len) / n) * n <= (p - 1) * n) by nia. unfold len in *. lia.
Qed.

Lemma pages_partition_the_listing_witness :
  exists k : Z,
    concat (List.map
              (fun j => items (paginate (mockBookings demoState) b_id (Some "2"%string)
                                 (Some (JS.toString (Some (Z.of_nat j))))))
              (seq 1 (Z.to_nat k)))
    = List.map b_id (mockBookings demoState).
Proof.
  assert (Hl : intParam (Some "2"%string) "10" = Some 2) by reflexivity.
  destruct (pages_partition_the_listing (mockBookings demoState) b_id
              (Some "2"%string) 2 Hl ltac:(lia)) as (k & _ & _ & H & _).
  exists k. exact H.
Defined.

Lemma slice_empty {A : Type} (l : list A) (s e : JS.num) :
  relativeIndex (Z.of_nat (length l)) e <= relativeIndex (Z.of_nat (length l)) s ->
  slice l s e = [].
Proof.
  intros H. unfold slice. replace (Z.to_nat _) with 0%nat by lia. reflexivity.
Qed.

(** X15.  The pagination block on degenerate parameters: a [limit] that is
    not a number or is 0 gives an empty page whose [totalPages] is [null],
    and a [page] that is not a number or is 0 gives an empty page, while
    [total] still counts the whole list. *)
Theorem degenerate_pages_are_empty {A B : Type} (filtered : list A) (enrich : A -> B)
  (limitParam pageParam : option string) :
  let answer := paginate filtered enrich limitParam pageParam in
  let degenerate (n : JS.num) := n = None \/ n = Some 0 in
  degenerate (intParam limitParam "10") \/ degenerate (intParam pageParam "1") ->
  items answer = []
  /\ total answer = Z.of_nat (length filtered)
  /\ (degenerate (intParam limitParam "10") -> totalPages answer = None).
Proof.
  intros answer degenerate H. unfold answer, paginate. cbn [items total totalPages].
  split; [|split; [reflexivity|]].
  - replace (slice _ _ _) with (@nil A); [reflexivity|]. symmetry. apply slice_empty.
    pose proof (Nat2Z.is_nonneg (length filtered)) as Hlen.
    destruct (intParam limitParam "10") as [n|], (intParam pageParam "1") as [p|];
      cbn [jsMinus jsTimes relativeIndex]; try lia.
    assert (Hz : n = 0 \/ p = 0)
      by (destruct H as [[H|H]|[H|H]]; try discriminate; injection H; auto).
    destruct Hz as [-> | ->].
    + rewrite !Z.mul_0_r. lia.
    + replace ((0 - 1) * n) with (- n) by lia. rewrite Z.mul_0_l.
      change (0 <? 0) with false. cbv iota.
      destruct (Z.ltb_spec (- n) 0); lia.
  - intros [-> | ->]; reflexivity.
Qed.

Lemma degenerate_pages_are_empty_witness :
  items (paginate (mockBookings demoState) b_id (Some "0"%string) None) = []
  /\ items (paginate (mockBookings demoState) b_id None (Some "first"%string)) = [].
Proof.
  assert (H1 : intParam (Some "0"%string) "10" = Some 0) by reflexivity.
  assert (H2 : intParam (Some "first"%string) "1" = None) by reflexivity.
  split.
  - apply (degenerate_pages_are_empty (mockBookings demoState) b_id (Some "0"%string) None).
    left. right. exact H1.
  - apply (degenerate_pages_are_empty (mockBookings demoState) b_id None
             (Some "first"%string)).
    right. left. exact H2.
Defined.

(** ** The booking listing *)


Lemma insertSorted_Permutation (getTime : string -> JS.num) (x : Booking) (l : list Booking) :
  Permutation (insertSorted (mostRecentFirst getTime) x l) (x :: l).
Proof.
  induction l as [|y l IH]; cbn [insertSorted]; [reflexivity|].
  destruct (JS.lt _ _); [|reflexivity].
  rewrite IH. apply perm_swap.
Qed.

Lemma sort_Permutation (getTime : string -> JS.num) (l : list Booking) :
  Permutation (sort (mostRecentFirst getTime) l) l.
Proof.
  induction l as [|x l IH]; cbn [sort]; [reflexivity|].
  rewrite insertSorted_Permutation. now constructor.
Qed.

Lemma insertSorted_sorted (getTime : string -> JS.num) (x : Booking) (l : list Booking) :
  (exists t, bookingTime getTime x = Some t) ->
  List.Forall (fun b => exists t, bookingTime getTime b = Some t) l ->
  StronglySorted (notEarlier getTime) l ->
  StronglySorted (notEarlier getTime) (insertSorted (mostRecentFirst getTime) x l).
Proof.
  intros [tx Hx] Hv Hs. induction Hs as [|y l Hs IH Hy]; cbn [insertSorted].
  - constructor; constructor.
  - inversion Hv as [|? ? [ty Hty] Hv']; subst.
    unfold mostRecentFirst at 1. rewrite Hx, Hty. cbn [jsMinus JS.lt].
    destruct (Z.ltb_spec 0 (ty - tx)) as [Hlt|Hge].
    + constructor; [now apply IH|].
      eapply Permutation_Forall; [symmetry; apply insertSorted_Permutation|].
      constructor; [|exact Hy]. exists ty, tx. repeat split; try assumption. lia.
    + constructor; [now constructor|].
      constructor; [exists tx, ty; repeat split; try assumption; lia|].
      eapply List.Forall_impl; [|exact Hy].
      intros b (ta & tb & Ha & Hb & Hle). exists tx, tb.
      rewrite Hty in Ha. injection Ha as <-. repeat split; try assumption. lia.
Qed.

Lemma sort_sorted (getTime : string -> JS.num) (l : list Booking) :
  List.Forall (fun b => exists t, bookingTime getTime b = Some t) l ->
  StronglySorted (notEarlier getTime) (sort (mostRecentFirst getTime) l).
Proof.
  induction l as [|x l IH]; intros Hv; cbn [sort]; [constructor|].
  inversion Hv; subst. apply insertSorted_sorted; [assumption| |now apply IH].
  eapply Permutation_Forall; [symmetry; apply sort_Permutation|assumption].
Qed.

Lemma insertSorted_stable (getTime : string -> JS.num) (t : Z) (x : Booking) (l : list Booking) :
  List.filter (startsAt getTime t) (insertSorted (mostRecentFirst getTime) x l)
  = List.filter (startsAt getTime t) (x :: l).
Proof.
  induction l as [|y l IH]; cbn [insertSorted]; [reflexivity|].
  unfold mostRecentFirst at 1.
  destruct (bookingTime getTime y) as [ty|] eqn:Hy,
           (bookingTime getTime x) as [tx|] eqn:Hx; cbn [jsMinus JS.lt]; try reflexivity.
  destruct (Z.ltb_spec 0 (ty - tx)); [|reflexivity].
  cbn [List.filter] in *. rewrite IH. unfold startsAt. rewrite Hx, Hy.
  destruct (Z.eqb_spec tx t), (Z.eqb_spec ty t); try reflexivity. lia.
Qed.

Lemma sort_stable (getTime : string -> JS.num) (t : Z) (l : list Booking) :
  List.filter (startsAt getTime t) (sort (mostRecentFirst getTime) l) = List.filter (startsAt getTime t) l.
Proof.
  induction l as [|x l IH]; cbn [sort]; [reflexivity|].
  rewrite insertSorted_stable. cbn [List.filter]. now rewrite IH.
Qed.

(** X16.  [GET /api/bookings], when the start of every matching booking is a
    valid date: the bookings are listed most recent first, every matching
    booking once, bookings with the same start in their stored order; page
    [p] of limit [n] shows the bookings [(p-1)n] to [pn] of that order, each
    with the service and the provider its ids name. *)
Theorem bookings_are_listed_most_recent_first (getTime : string -> JS.num) (st : State)
  (customerId providerId status_ limitParam : option string) (n : Z) :
  let matching := matchingBookings st customerId providerId status_ in
  List.Forall (fun b => exists t, bookingTime getTime b = Some t) matching ->
  intParam limitParam "10" = Some n ->
  1 <= n ->
  exists listed : list Booking,
    Permutation listed matching
    /\ StronglySorted (notEarlier getTime) listed
    /\ (forall t, List.filter (startsAt getTime t) listed = List.filter (startsAt getTime t) matching)
    /\ forall p, 1 <= p ->
         items (getBookings getTime st customerId providerId status_ limitParam
                  (Some (JS.toString (Some p))))
         = List.map
             (fun b => (b,
                        List.find (fun s => String.eqb (s_id s) (b_serviceId b))
                                  (mockServices st),
                        findProvider (b_providerId b) (mockProviders st)))
             (take (Z.to_nat n) (drop (Z.to_nat ((p - 1) * n)) listed)).
Proof.
  intros matching Hv Hl Hn.
  exists (sort (mostRecentFirst getTime) matching).
  split; [apply sort_Permutation|].
  split; [now apply sort_sorted|].
  split; [intros t; apply sort_stable|].
  intros p Hp. unfold getBookings, paginate. cbn [items].
  rewrite intParam_toString, Hl. cbn [jsMinus jsTimes].
  now rewrite slice_page by lia.
Qed.

Lemma bookings_are_listed_most_recent_first_witness :
  exists listed : list Booking,
    Permutation listed (mockBookings demoState)
    /\ StronglySorted (notEarlier utcTime) listed
    /\ List.map (fun item => item.1.1)
         (items (getBookings utcTime demoState None None None None
                   (Some (JS.toString (Some 1)))))
       = take 10 listed.
Proof.
  assert (Hb : forallb (fun b => match bookingTime utcTime b with
                                 | Some _ => true | None => false end)
                 (matchingBookings demoState None None None) = true)
    by (vm_compute; reflexivity).
  assert (Hv : List.Forall (fun b => exists t, bookingTime utcTime b = Some t)
                 (matchingBookings demoState None None None)).
  { apply List.Forall_forall. intros b Hin.
    rewrite forallb_forall in Hb. specialize (Hb b Hin).
    destruct (bookingTime utcTime b) as [t|]; [now exists t | discriminate]. }
  assert (Hl : intParam None "10" = Some 10) by reflexivity.
  destruct (bookings_are_listed_most_recent_first utcTime demoState None None None None
              10 Hv Hl ltac:(lia)) as (listed & Hperm & Hsorted & _ & Hpage).
  exists listed. split; [exact Hperm|]. split; [exact Hsorted|].
  rewrite (Hpage 1 ltac:(lia)), List.map_map. cbn [fst].
  change (Z.to_nat ((1 - 1) * 10)) with 0%nat. change (Z.to_nat 10) with 10%nat.
  rewrite drop_0. apply List.map_id.
Defined.

(** ** The provider profile and its reviews *)











Lemma initial_profile_differs (c : Clock) : ~ profileMatchesReviews (initialState c) "1".
Proof. intros [H _]. discriminate H. Qed.



(** ** Bookings and the records they name *)

Lemma findProvider_ids (id : string) (ps : list Provider) :
  is_Some (findProvider id ps) <-> In id (List.map p_id ps).
Proof.
  unfold findProvider. induction ps as [|p ps IH]; cbn [List.find List.map In].
  - split; [intros [? ?]; discriminate | tauto].
  - destruct (String.eqb_spec (p_id p) id) as [E|E].
    + split; [auto | eauto].
    + rewrite IH. tauto.
Qed.

Lemma In_insert {A : Type} (l : list A) (i : nat) (x y : A) :
  In y (<[i := x]> l) -> y = x \/ In y l.
Proof.
  revert i. induction l as [|a l IH]; intros [|i] H; cbn in H; try tauto.
  - destruct H as [<-|H]; [auto | right; now right].
  - change (In y (a :: <[i := x]> l)) in H. destruct H as [<-|H]; [right; now left|].
    destruct (IH i H); [auto | right; now right].
Qed.

Lemma bookingsResolve_initial (c : Clock) : bookingsResolve (initialState c).
Proof.
  intros b Hb. cbn [initialState mockBookings initialBookings In] in Hb.
  repeat (destruct Hb as [<-|Hb]; [split; eexists; reflexivity|]). destruct Hb.
Qed.

Lemma handle_bookingsResolve (weekdayKey : string -> string) (st st' : State)
  (ev : Event) :
  ~ isUpdate ev -> bookingsResolve st -> handle weekdayKey st ev = Some st' ->
  bookingsResolve st'.
Proof.
  intros Hev H Hstep.
  destruct (handle_frame _ _ _ _ Hstep) as (Hs & Hp & _).
  assert (Hkeep : forall b,
            is_Some (List.find (fun s => String.eqb (s_id s) (b_serviceId b))
                               (mockServices st))
            /\ is_Some (findProvider (b_providerId b) (mockProviders st)) ->
            is_Some (List.find (fun s => String.eqb (s_id s) (b_serviceId b))
                               (mockServices st'))
            /\ is_Some (findProvider (b_providerId b) (mockProviders st'))).
  { intros b [H1 H2]. rewrite Hs. split; [exact H1|].
    apply findProvider_ids. rewrite Hp. now apply findProvider_ids. }
  intros b Hb. apply Hkeep. destruct ev; cbn [handle isUpdate] in Hstep, Hev.
  - unfold postBooking in Hstep.
    destruct (negb _ || _ || _ || _ || _); [simplify_eq; now apply H|].
    destruct (List.find _ (mockServices st)) as [svc|] eqn:Hsvc;
      [|simplify_eq; now apply H].
    destruct (generateAvailableSlots _ _ _ _) as [avail|] eqn:Havail; [|discriminate].
    destruct (existsb _ avail) eqn:Hex; cbn [negb] in Hstep; [|simplify_eq; now apply H].
    simplify_eq. cbn [mockBookings withBookings] in Hb.
    apply in_app_or in Hb as [Hb|[<-|[]]]; [now apply H|].
    cbn [b_serviceId b_providerId]. split; [now rewrite Hsvc|].
    unfold generateAvailableSlots in Havail.
    destruct (findProvider (text (d_providerId data)) (mockProviders st)); [eauto|].
    injection Havail as <-. discriminate.
  - tauto.
  - injection Hstep as <-.
    destruct (deleteBooking_bookings st id now) as [E|(i & b0 & Hi & E)];
      rewrite E in Hb; [now apply H|].
    apply In_insert in Hb as [->|Hb]; [|now apply H].
    cbn [cancel b_serviceId b_providerId]. apply H.
    apply list_elem_of_In. eapply list_elem_of_lookup_2, Hi.
  - destruct (getAvailability _ _ _ _); [|discriminate]. simplify_eq. now apply H.
  - injection Hstep as <-. rewrite (proj1 (postReview_bookings _ _ _ _)) in Hb.
    now apply H.
  - injection Hstep as <-. rewrite (proj1 (putReview_bookings _ _ _ _)) in Hb.
    now apply H.
  - injection Hstep as <-. rewrite (proj1 (deleteReview_bookings _ _)) in Hb.
    now apply H.
Qed.

Lemma In_slice {A : Type} (l : list A) (s e : JS.num) (x : A) :
  In x (slice l s e) -> In x l.
Proof.
  unfold slice. intros H. apply list_elem_of_In in H. apply list_elem_of_In.
  eapply subseteq_drop, subseteq_take, H.
Qed.

Lemma In_filterIf {A : Type} (param : option string) (pred : string -> A -> bool)
  (l : list A) (x : A) :
  In x (filterIf param pred l) -> In x l.
Proof.
  unfold filterIf. destruct (JS.truthy param); [|auto].
  intros H. now apply List.filter_In in H.
Qed.

Lemma In_sort {A : Type} (compare : A -> A -> JS.num) (l : list A) (x : A) :
  In x (sort compare l) -> In x l.
Proof.
  assert (Hins : forall y k, In x (insertSorted compare y k) -> x = y \/ In x k).
  { intros y k. induction k as [|z k IH]; cbn [insertSorted].
    - intros [<-|[]]. now left.
    - destruct (JS.lt _ _).
      + intros [<-|Hk]; [right; now left|]. destruct (IH Hk); [auto | right; now right].
      + intros [<-|Hk]; [now left | now right]. }
  induction l as [|y l IH]; cbn [sort]; [auto|].
  intros H. apply Hins in H as [->|H]; [now left | right; auto].
Qed.

(** X18.  As long as no booking was rewritten by [PUT /api/bookings/:id],
    every booking names a service and a provider that exist: [GET
    /api/bookings/:id] answers 404 or shows the booking with both, and every
    item of every page of [GET /api/bookings] carries both, whatever the
    filters and the [limit] and [page] parameters are. *)
Theorem bookings_are_shown_with_service_and_provider (weekdayKey : string -> string)
  (c : Clock) (st : State) :
  reachableBy (fun ev => ~ isUpdate ev) weekdayKey c st ->
  (forall (users : list User) (id : string),
      match getBooking st users id with
      | Json code (booking, service, provider, _) =>
          code = 200 /\ b_id booking = id /\ is_Some service /\ is_Some provider
      | Failure code _ => code = 404
      end)
  /\ (forall (getTime : string -> JS.num)
             (customerId providerId status_ limitParam pageParam : option string),
        List.Forall (fun item => is_Some item.1.2 /\ is_Some item.2)
          (items (getBookings getTime st customerId providerId status_
                    limitParam pageParam))).
Proof.
  intros Hreach.
  assert (H : bookingsResolve st).
  { induction Hreach as [|st ev st' _ IH Hev Hstep];
      [apply bookingsResolve_initial | eapply handle_bookingsResolve; eassumption]. }
  split.
  - intros users id. unfold getBooking.
    destruct (List.find _ (mockBookings st)) as [b|] eqn:Hb; [|reflexivity].
    apply List.find_some in Hb as [Hin Hid]. apply String.eqb_eq in Hid.
    destruct (H b Hin). auto.
  - intros. unfold getBookings, paginate. cbn [items].
    apply List.Forall_forall. intros item Hitem.
    apply List.in_map_iff in Hitem as (b & <- & Hb). cbn [fst snd].
    apply H. apply In_slice, In_sort in Hb. unfold matchingBookings in Hb.
    now do 3 apply In_filterIf in Hb.
Qed.

Lemma bookings_are_shown_with_service_and_provider_witness :
  List.Forall (fun item => is_Some item.1.2 /\ is_Some item.2)
    (items (getBookings utcTime doubleBookedState None (Some "1"%string) None
              (Some "3"%string) (Some "2"%string))).
Proof.
  assert (Hreach : reachableBy (fun ev => ~ isUpdate ev) Calendar.weekdayKey demoClock
                     doubleBookedState).
  { apply (run_reachable _ _ _ doubleBookingTrace demoState);
      [apply reachable_init| |vm_compute; reflexivity].
    repeat constructor; intros []. }
  apply (bookings_are_shown_with_service_and_provider Calendar.weekdayKey demoClock
           doubleBookedState Hreach).
Defined.

(** ** The time-slot utility *)

Lemma hourSlots_last (i h m : Z) :
  0 <= m < 60 -> 60 <= m + i -> hourSlots i h m = [formatTime (Some h) (Some m)].
Proof.
  intros Hm Hi. unfold hourSlots.
  rewrite Z.div_small by lia. change (Z.to_nat (0 + 1)) with 1%nat.
  cbn [seq List.map]. change (Z.of_nat 0) with 0.
  now rewrite Z.mul_0_l, Z.add_0_r.
Qed.

Lemma hourSlots_next (i h m : Z) :
  1 <= i -> 0 <= m -> m + i < 60 ->
  hourSlots i h m = formatTime (Some h) (Some m) :: hourSlots i h (m + i).
Proof.
  intros Hi Hm Hlt. unfold hourSlots.
  replace ((59 - m) / i + 1) with (Z.succ ((59 - (m + i)) / i + 1)).
  2:{ replace (59 - m) with ((59 - (m + i)) + 1 * i) by lia.
      rewrite Z.div_add by lia. lia. }
  rewrite Z2Nat.inj_succ by (pose proof (Z.div_pos (59 - (m + i)) i); lia).
  cbn [seq List.map]. f_equal; [do 2 f_equal; lia|].
  rewrite <- seq_shift, List.map_map. apply List.map_ext. intros k. do 2 f_equal. lia.
Qed.

Lemma flat_map_seq_S {A : Type} (f : nat -> list A) (n : nat) :
  flat_map f (seq 0 (S n)) = f 0%nat ++ flat_map (fun j => f (S j)) (seq 0 n).
Proof.
  cbn [seq flat_map]. f_equal.
  now rewrite <- seq_shift, flat_map_concat_map, List.map_map, <- flat_map_concat_map.
Qed.

Lemma timeSlotsLoop_spec (i eh : Z) (fuel : nat) :
  1 <= i ->
  forall (n : nat) (h m : Z) (slots : list string),
    0 <= m < 60 -> eh = h + Z.of_nat n ->
    (1 <= fuel)%nat -> 60 * Z.of_nat n - m < Z.of_nat fuel ->
    timeSlotsLoop fuel h m eh i slots
    = Some (slots ++
            match n with
            | O => []
            | S n' => hourSlots i h m
                      ++ flat_map (fun j => hourSlots i (h + 1 + Z.of_nat j) 0) (seq 0 n')
            end).
Proof.
  intros Hi. induction fuel as [|fuel IH]; intros n h m slots Hm Heh Hpos Hfuel.
  - lia.
  - cbn [timeSlotsLoop]. destruct n as [|n].
    + replace (h <? eh) with false by lia. now rewrite app_nil_r.
    + replace (h <? eh) with true by lia.
      destruct (Z.leb_spec 60 (m + i)) as [Hwrap|Hstay].
      * rewrite (IH n (h + 1) 0 _ ltac:(lia) ltac:(lia) ltac:(lia) ltac:(lia)).
        rewrite (hourSlots_last i h m Hm Hwrap), <- app_assoc. do 2 f_equal.
        cbn [app]. f_equal. destruct n as [|n]; [reflexivity|].
        rewrite flat_map_seq_S. change (Z.of_nat 0) with 0. rewrite Z.add_0_r. f_equal.
        apply List.flat_map_ext. intros j. f_equal. lia.
      * rewrite (IH (S n) h (m + i) _ ltac:(lia) ltac:(lia) ltac:(lia) ltac:(lia)).
        rewrite (hourSlots_next i h m Hi ltac:(lia) Hstay), <- app_assoc.
        reflexivity.
Qed.

Lemma dayGrid_length (i sh eh : Z) :
  1 <= i ->
  Z.of_nat (length (dayGrid i sh eh)) = Z.max 0 (eh - sh) * (59 / i + 1).
Proof.
  intros Hi. unfold dayGrid.
  assert (H : forall n, length (flat_map (fun j => hourSlots i (sh + Z.of_nat j) 0)
                                  (seq 0 n))
                        = (n * Z.to_nat (59 / i + 1))%nat).
  { intros n. induction n as [|n IH]; [reflexivity|].
    rewrite seq_S, flat_map_app, length_app, IH. cbn [flat_map Nat.add].
    rewrite app_nil_r. unfold hourSlots. rewrite length_map, length_seq.
    rewrite Z.sub_0_r. lia. }
  rewrite H. pose proof (Z.div_pos 59 i ltac:(lia) ltac:(lia)). nia.
Qed.

Lemma time_slots_restart_every_hour_fuel (startHour endHour intervalMinutes : Z) :
  1 <= intervalMinutes ->
  exists fuel0 : nat,
    forall fuel : nat, (fuel0 <= fuel)%nat ->
      generateTimeSlots fuel startHour endHour intervalMinutes
      = Some (dayGrid intervalMinutes startHour endHour).
Proof.
  intros Hi. exists (S (Z.to_nat (60 * (endHour - startHour)))). intros fuel Hfuel.
  unfold generateTimeSlots, dayGrid.
  destruct (Z_lt_le_dec startHour endHour) as [Hlt|Hge].
  - rewrite (timeSlotsLoop_spec intervalMinutes endHour fuel Hi
               (Z.to_nat (endHour - startHour)) startHour 0 []); try lia.
    cbn [app]. f_equal.
    destruct (Z.to_nat (endHour - startHour)) as [|n]; [reflexivity|].
    rewrite flat_map_seq_S. change (Z.of_nat 0) with 0. rewrite Z.add_0_r. f_equal.
    apply List.flat_map_ext. intros j. f_equal. lia.
  - destruct fuel; [lia|]. cbn [timeSlotsLoop].
    replace (startHour <? endHour) with false by lia.
    replace (Z.to_nat (endHour - startHour)) with 0%nat by lia. reflexivity.
Qed.

(** X19.  [generateTimeSlots] with an interval of at least one minute
    returns, for every hour from [startHour] to [endHour - 1] in turn, the
    times at minutes 0, [i], [2 i], ... below 60: the minute restarts at 0
    with each hour, so an interval that does not divide 60 gives a shorter
    last gap, and an interval above 60 still gives one time per hour.  The
    number of times is the number of hours times [ceil(60 / i)]. *)
Theorem time_slots_restart_every_hour (startHour endHour intervalMinutes : Z) :
  1 <= intervalMinutes ->
  exists fuel0 : nat,
    forall fuel : nat, (fuel0 <= fuel)%nat ->
      generateTimeSlots fuel startHour endHour intervalMinutes
      = Some (dayGrid intervalMinutes startHour endHour)
      /\ Z.of_nat (length (dayGrid intervalMinutes startHour endHour))
         = Z.max 0 (endHour - startHour) * (59 / intervalMinutes + 1).
Proof.
  intros Hi.
  destruct (time_slots_restart_every_hour_fuel startHour endHour intervalMinutes Hi)
    as (fuel0 & H).
  exists fuel0. intros fuel Hfuel. split; [now apply H | now apply dayGrid_length].
Qed.

Lemma time_slots_restart_every_hour_witness :
  exists fuel0 : nat,
    forall fuel : nat, (fuel0 <= fuel)%nat ->
      generateTimeSlots fuel 9 11 45 = Some (dayGrid 45 9 11)
      /\ Z.of_nat (length (dayGrid 45 9 11)) = Z.max 0 (11 - 9) * (59 / 45 + 1).
Proof.
  apply (time_slots_restart_every_hour 9 11 45). lia.
Defined.

Lemma timeSlotsLoop_stuck (i eh : Z) (fuel : nat) :
  i <= 0 ->
  forall (h m : Z) (slots : list string),
    h < eh -> m < 60 -> timeSlotsLoop fuel h m eh i slots = None.
Proof.
  intros Hi. induction fuel as [|fuel IH]; intros h m slots Hh Hm; [reflexivity|].
  cbn [timeSlotsLoop]. replace (h <? eh) with true by lia.
  replace (60 <=? m + i) with false by lia. apply IH; lia.
Qed.

(** X20.  With an interval of zero or less and a start hour below the end
    hour, [generateTimeSlots] never returns: the minute never reaches 60, so
    the hour never advances, and the loop pushes times for as long as it is
    allowed to run. *)
Theorem time_slots_never_return_without_progress
  (startHour endHour intervalMinutes : Z) :
  intervalMinutes <= 0 -> startHour < endHour ->
  forall fuel : nat,
    generateTimeSlots fuel startHour endHour intervalMinutes = None.
Proof.
  intros Hi Hlt fuel. apply timeSlotsLoop_stuck; lia.
Qed.

Lemma time_slots_never_return_without_progress_witness :
  generateTimeSlots 1000 8 20 0 = None /\ generateTimeSlots 1000 10 12 (-15) = None.
Proof.
  split.
  - apply (time_slots_never_return_without_progress 8 20 0); lia.
  - apply (time_slots_never_return_without_progress 10 12 (-15)); lia.
Defined.

Lemma dayGrid_periodSlots (sh eh : Z) :
  0 <= sh <= 24 -> 0 <= eh <= 24 ->
  option_map (List.map start)
    (periodSlots {| start := formatTime (Some sh) (Some 0);
                    end_ := formatTime (Some eh) (Some 0) |})
  = Some (dayGrid 30 sh eh).
Proof.
  intros Hs He.
  assert (Hall : forallb (fun a => forallb (fun b =>
            bool_decide
              (option_map (List.map start)
                 (periodSlots {| start := formatTime (Some (Z.of_nat a)) (Some 0);
                                 end_ := formatTime (Some (Z.of_nat b)) (Some 0) |})
               = Some (dayGrid 30 (Z.of_nat a) (Z.of_nat b)))) (seq 0 25)) (seq 0 25)
          = true) by (vm_compute; reflexivity).
  rewrite forallb_forall in Hall.
  specialize (Hall (Z.to_nat sh) ltac:(apply in_seq; lia)).
  rewrite forallb_forall in Hall.
  specialize (Hall (Z.to_nat eh) ltac:(apply in_seq; lia)).
  apply bool_decide_eq_true in Hall. now rewrite !Z2Nat.id in Hall by lia.
Qed.

(** X21.  For whole hours of a day and the default interval of 30 minutes,
    the utility and the availability generator agree: the times of
    [generateTimeSlots(sh, eh, 30)] are the start times of the slots that
    [generateAvailableSlots] cuts from a working period [sh:00] to [eh:00],
    in the same order. *)
Theorem time_slots_match_the_period_slots (startHour endHour : Z) :
  0 <= startHour <= 24 -> 0 <= endHour <= 24 ->
  exists fuel0 : nat,
    forall fuel : nat, (fuel0 <= fuel)%nat ->
      generateTimeSlots fuel startHour endHour 30
      = option_map (List.map start)
          (periodSlots {| start := formatTime (Some startHour) (Some 0);
                          end_ := formatTime (Some endHour) (Some 0) |}).
Proof.
  intros Hs He.
  destruct (time_slots_restart_every_hour_fuel startHour endHour 30 ltac:(lia))
    as (fuel0 & H).
  exists fuel0. intros fuel Hfuel.
  now rewrite (H fuel Hfuel), dayGrid_periodSlots.
Qed.

Lemma time_slots_match_the_period_slots_witness :
  exists fuel0 : nat,
    forall fuel : nat, (fuel0 <= fuel)%nat ->
      generateTimeSlots fuel 9 17 30
      = option_map (List.map start) (periodSlots {| start := "09:00"; end_ := "17:00" |}).
Proof.
  apply (time_slots_match_the_period_slots 9 17); lia.
Defined.
